(** * winspool: status translation, capability translation, ticket
      resolution, page scaling and the job lifecycle of [winspool.go].

    The development embeds the Go functions of [winspool/winspool.go] as
    Rocq functions.  Fixed-width integers are [Z] with the wrap-around of
    each conversion written out, [float64] is the kernel's binary64
    [float], Go's [(value, error)] results are sums, and the native
    spooler, PDF and rendering calls are fields of a record of outcomes
    ([Native]) whose calls are logged in a trace. *)

From Stdlib Require Import ZArith List String Ascii Bool Lia.
From Stdlib Require Import Floats Uint63.
From Stdlib Require DecimalString DecimalPos.
Import ListNotations.
Open Scope Z_scope.

(** ** Go's fixed-width integers and [strconv] *)

Module Go.

(** Conversion to an unsigned [w]-bit integer type. *)
Definition wrapU (w : Z) (z : Z) : Z := z mod 2 ^ w.

(** Conversion to a signed [w]-bit integer type (two's complement). *)
Definition wrapS (w : Z) (z : Z) : Z :=
  (z + 2 ^ (w - 1)) mod 2 ^ w - 2 ^ (w - 1).

Definition int16 : Z -> Z := wrapS 16.
Definition int32 : Z -> Z := wrapS 32.
Definition uint16 : Z -> Z := wrapU 16.
Definition uint32 : Z -> Z := wrapU 32.

Definition is_int16 (z : Z) : Prop := - 2 ^ 15 <= z < 2 ^ 15.
Definition is_int32 (z : Z) : Prop := - 2 ^ 31 <= z < 2 ^ 31.

(** Go's [/] on integers truncates toward zero. *)
Definition quot : Z -> Z -> Z := Z.quot.

(** [float64(n)] for an [int32] value [n]; exact, since 32 bits fit the
    53-bit significand. *)
Definition float64 (n : Z) : float :=
  if n <? 0 then PrimFloat.opp (PrimFloat.of_uint63 (Uint63.of_Z (- n)))
  else PrimFloat.of_uint63 (Uint63.of_Z n).

Definition digit_of (c : ascii) : option Z :=
  let n := Z.of_nat (nat_of_ascii c) in
  if (48 <=? n) && (n <=? 57) then Some (n - 48) else None.

(** The decimal digits of [s] read left to right onto the accumulator;
    [None] on any other character. *)
Fixpoint digits (s : string) (acc : Z) : option Z :=
  match s with
  | EmptyString => Some acc
  | String c rest =>
      match digit_of c with
      | Some d => digits rest (10 * acc + d)
      | None => None
      end
  end.

(** [strconv.ParseUint(s, 10, 64)] without its range check. *)
Definition parse_digits (s : string) : option Z :=
  match s with
  | EmptyString => None
  | _ => digits s 0
  end.

(** [strconv.ParseInt(s, 10, bitSize)]: an optional sign, one or more
    decimal digits, and the value within the signed [bitSize]-bit range;
    [None] stands for the returned [*NumError]. *)
Definition ParseInt (s : string) (bitSize : Z) : option Z :=
  match s with
  | EmptyString => None
  | String c rest =>
      let '(neg, body) :=
        if Ascii.eqb c "+" then (false, rest)
        else if Ascii.eqb c "-" then (true, rest)
        else (false, s) in
      match parse_digits body with
      | None => None
      | Some un =>
          let cutoff := 2 ^ (bitSize - 1) in
          if negb neg && (cutoff <=? un) then None
          else if neg && (cutoff <? un) then None
          else Some (if neg then - un else un)
      end
  end.

(** [strconv.FormatInt(n, 10)] and [strconv.FormatUint(n, 10)]. *)
Definition FormatInt (n : Z) : string :=
  DecimalString.NilZero.string_of_int (Z.to_int n).

(** [strings.SplitN(s, " ", 2)]: the text before the first space and,
    when there is a space, the text after it. *)
Fixpoint SplitN2 (s : string) : string * option string :=
  match s with
  | EmptyString => (EmptyString, None)
  | String c rest =>
      if Ascii.eqb c " " then (EmptyString, Some rest)
      else let '(a, b) := SplitN2 rest in (String c a, b)
  end.

End Go.

(** ** The [model] package: cloud-print data types *)

Inductive CloudDeviceState :=
| CloudDeviceStateIdle
| CloudDeviceStateProcessing
| CloudDeviceStateStopped.

Inductive VendorStateType :=
| VendorStateError
| VendorStateWarning
| VendorStateInfo.

(** [model.NewLocalizedString] wraps a default-locale text. *)
Definition LocalizedString := string.
Definition NewLocalizedString (s : string) : LocalizedString := s.

Record VendorStateItem := {
  vsi_State : VendorStateType;
  vsi_DescriptionLocalized : LocalizedString
}.

Record VendorState := { Item : list VendorStateItem }.

(** [VendorState] is a pointer in the source: [None] is [nil]. *)
Record PrinterStateSection := {
  pss_State : CloudDeviceState;
  pss_VendorState : option VendorState
}.

Inductive JobStateType :=
| JobStateDraft
| JobStateHeld
| JobStateQueued
| JobStateInProgress
| JobStateStopped
| JobStateDone
| JobStateAborted.

Inductive UserActionCause := UserActionCauseCanceled | UserActionCausePaused | UserActionCauseOther.
Inductive DeviceStateCause := DeviceStateCauseInputTray | DeviceStateCauseMarker | DeviceStateCauseMediaPath
  | DeviceStateCauseMediaSize | DeviceStateCauseMediaType | DeviceStateCauseOther.
Inductive DeviceActionCause := DeviceActionCauseDownloadFailure | DeviceActionCauseInvalidTicket
  | DeviceActionCausePrintFailure | DeviceActionCauseOther.

(** The three causes are pointers in the source: [None] is [nil]. *)
Record JobState := {
  js_Type : JobStateType;
  js_UserActionCause : option UserActionCause;
  js_DeviceStateCause : option DeviceStateCause;
  js_DeviceActionCause : option DeviceActionCause
}.

Record PrintJobStateDiff := { pjsd_State : option JobState }.

(** The zero value [var state model.JobState]; Go's zero [JobStateType]
    is the empty string, which every branch of [convertJobState]
    overwrites, so any constructor serves as the placeholder. *)
Definition JobState_zero : JobState :=
  {| js_Type := JobStateDraft; js_UserActionCause := None;
     js_DeviceStateCause := None; js_DeviceActionCause := None |}.

(** Go's [error] values: a system error code ([syscall.Errno]), the
    error of [errors.New], or the [*NumError] of [strconv]. *)
Inductive error :=
| Errno (code : Z)
| errorString (s : string)
| NumError (input : string).

Definition error_eqb (a b : error) : bool :=
  match a, b with
  | Errno x, Errno y => x =? y
  | errorString x, errorString y => String.eqb x y
  | NumError x, NumError y => String.eqb x y
  | _, _ => false
  end.

(** ** Win32 constants

    The constants are declared in the repository's Win32 binding file,
    which is not among the source files embedded here: they are parameters of the
    development.  [winsdk] below instantiates them with the values of the
    Windows SDK headers, to run the definitions on concrete inputs. *)

Class Win32 := {
  PRINTER_STATUS_PAUSED : Z;
  PRINTER_STATUS_ERROR : Z;
  PRINTER_STATUS_PENDING_DELETION : Z;
  PRINTER_STATUS_PAPER_JAM : Z;
  PRINTER_STATUS_PAPER_OUT : Z;
  PRINTER_STATUS_MANUAL_FEED : Z;
  PRINTER_STATUS_PAPER_PROBLEM : Z;
  PRINTER_STATUS_OFFLINE : Z;
  PRINTER_STATUS_IO_ACTIVE : Z;
  PRINTER_STATUS_BUSY : Z;
  PRINTER_STATUS_PRINTING : Z;
  PRINTER_STATUS_OUTPUT_BIN_FULL : Z;
  PRINTER_STATUS_NOT_AVAILABLE : Z;
  PRINTER_STATUS_WAITING : Z;
  PRINTER_STATUS_PROCESSING : Z;
  PRINTER_STATUS_INITIALIZING : Z;
  PRINTER_STATUS_WARMING_UP : Z;
  PRINTER_STATUS_TONER_LOW : Z;
  PRINTER_STATUS_NO_TONER : Z;
  PRINTER_STATUS_PAGE_PUNT : Z;
  PRINTER_STATUS_USER_INTERVENTION : Z;
  PRINTER_STATUS_OUT_OF_MEMORY : Z;
  PRINTER_STATUS_DOOR_OPEN : Z;
  PRINTER_STATUS_SERVER_UNKNOWN : Z;
  PRINTER_STATUS_POWER_SAVE : Z;
  PRINTER_ATTRIBUTE_WORK_OFFLINE : Z;
  JOB_STATUS_PAUSED : Z;
  JOB_STATUS_ERROR : Z;
  JOB_STATUS_DELETING : Z;
  JOB_STATUS_SPOOLING : Z;
  JOB_STATUS_PRINTING : Z;
  JOB_STATUS_OFFLINE : Z;
  JOB_STATUS_PAPEROUT : Z;
  JOB_STATUS_PRINTED : Z;
  JOB_STATUS_DELETED : Z;
  JOB_STATUS_BLOCKED_DEVQ : Z;
  JOB_STATUS_USER_INTERVENTION : Z;
  JOB_STATUS_COMPLETE : Z;
  JOB_STATUS_RETAINED : Z;
  JOB_CONTROL_RETAIN : Z;
  JOB_CONTROL_RELEASE : Z;
  DMCOLOR_MONOCHROME : Z;
  DMCOLOR_COLOR : Z;
  DMDUP_SIMPLEX : Z;
  DMDUP_VERTICAL : Z;
  DMDUP_HORIZONTAL : Z;
  DMORIENT_PORTRAIT : Z;
  DMORIENT_LANDSCAPE : Z;
  DMCOLLATE_FALSE : Z;
  DMCOLLATE_TRUE : Z;
  DC_PAPERS : Z;
  DC_PAPERSIZE : Z;
  DC_DUPLEX : Z;
  DC_COPIES : Z;
  DC_PAPERNAMES : Z;
  DC_ORIENTATION : Z;
  DC_COLLATE : Z;
  LOGPIXELSX : Z;
  LOGPIXELSY : Z;
  PHYSICALWIDTH : Z;
  PHYSICALHEIGHT : Z;
  PHYSICALOFFSETX : Z;
  PHYSICALOFFSETY : Z;
  HORZRES : Z;
  VERTRES : Z;
  GM_ADVANCED : Z;
  ERROR_INVALID_PARAMETER : error
}.

(** The values of [winspool.h] and [wingdi.h]. *)
Definition winsdk : Win32 := {|
  PRINTER_STATUS_PAUSED := 0x1;
  PRINTER_STATUS_ERROR := 0x2;
  PRINTER_STATUS_PENDING_DELETION := 0x4;
  PRINTER_STATUS_PAPER_JAM := 0x8;
  PRINTER_STATUS_PAPER_OUT := 0x10;
  PRINTER_STATUS_MANUAL_FEED := 0x20;
  PRINTER_STATUS_PAPER_PROBLEM := 0x40;
  PRINTER_STATUS_OFFLINE := 0x80;
  PRINTER_STATUS_IO_ACTIVE := 0x100;
  PRINTER_STATUS_BUSY := 0x200;
  PRINTER_STATUS_PRINTING := 0x400;
  PRINTER_STATUS_OUTPUT_BIN_FULL := 0x800;
  PRINTER_STATUS_NOT_AVAILABLE := 0x1000;
  PRINTER_STATUS_WAITING := 0x2000;
  PRINTER_STATUS_PROCESSING := 0x4000;
  PRINTER_STATUS_INITIALIZING := 0x8000;
  PRINTER_STATUS_WARMING_UP := 0x10000;
  PRINTER_STATUS_TONER_LOW := 0x20000;
  PRINTER_STATUS_NO_TONER := 0x40000;
  PRINTER_STATUS_PAGE_PUNT := 0x80000;
  PRINTER_STATUS_USER_INTERVENTION := 0x100000;
  PRINTER_STATUS_OUT_OF_MEMORY := 0x200000;
  PRINTER_STATUS_DOOR_OPEN := 0x400000;
  PRINTER_STATUS_SERVER_UNKNOWN := 0x800000;
  PRINTER_STATUS_POWER_SAVE := 0x1000000;
  PRINTER_ATTRIBUTE_WORK_OFFLINE := 0x400;
  JOB_STATUS_PAUSED := 0x1;
  JOB_STATUS_ERROR := 0x2;
  JOB_STATUS_DELETING := 0x4;
  JOB_STATUS_SPOOLING := 0x8;
  JOB_STATUS_PRINTING := 0x10;
  JOB_STATUS_OFFLINE := 0x20;
  JOB_STATUS_PAPEROUT := 0x40;
  JOB_STATUS_PRINTED := 0x80;
  JOB_STATUS_DELETED := 0x100;
  JOB_STATUS_BLOCKED_DEVQ := 0x200;
  JOB_STATUS_USER_INTERVENTION := 0x400;
  JOB_STATUS_COMPLETE := 0x1000;
  JOB_STATUS_RETAINED := 0x2000;
  JOB_CONTROL_RETAIN := 8;
  JOB_CONTROL_RELEASE := 9;
  DMCOLOR_MONOCHROME := 1;
  DMCOLOR_COLOR := 2;
  DMDUP_SIMPLEX := 1;
  DMDUP_VERTICAL := 2;
  DMDUP_HORIZONTAL := 3;
  DMORIENT_PORTRAIT := 1;
  DMORIENT_LANDSCAPE := 2;
  DMCOLLATE_FALSE := 0;
  DMCOLLATE_TRUE := 1;
  DC_PAPERS := 2;
  DC_PAPERSIZE := 3;
  DC_DUPLEX := 7;
  DC_COPIES := 18;
  DC_PAPERNAMES := 16;
  DC_ORIENTATION := 17;
  DC_COLLATE := 22;
  LOGPIXELSX := 88;
  LOGPIXELSY := 90;
  PHYSICALWIDTH := 110;
  PHYSICALHEIGHT := 111;
  PHYSICALOFFSETX := 112;
  PHYSICALOFFSETY := 113;
  HORZRES := 8;
  VERTRES := 10;
  GM_ADVANCED := 2;
  ERROR_INVALID_PARAMETER := Errno 87
|}.

(** ** StatusTranslator *)

Section StatusTranslator.
Context {W32 : Win32}.

(** [v & mask != 0] on unsigned integers. *)
Definition flagged (v mask : Z) : bool := negb (Z.land v mask =? 0).

(** [state.State = s]. *)
Definition setState (s : CloudDeviceState) (st : CloudDeviceState * list VendorStateItem) :
  CloudDeviceState * list VendorStateItem :=
  (s, snd st).

(** [state.VendorState.Item = append(state.VendorState.Item, vs)] with
    [vs] of severity [sev] and text [msg]. *)
Definition appendItem (sev : VendorStateType) (msg : string)
  (st : CloudDeviceState * list VendorStateItem) : CloudDeviceState * list VendorStateItem :=
  (fst st, snd st ++ [ {| vsi_State := sev; vsi_DescriptionLocalized := NewLocalizedString msg |} ]).

(** The body of an [if] that stops the printer and reports [msg]. *)
Definition stopped (sev : VendorStateType) (msg : string)
  (st : CloudDeviceState * list VendorStateItem) : CloudDeviceState * list VendorStateItem :=
  appendItem sev msg (setState CloudDeviceStateStopped st).

(** One [if cond { body }] statement of [convertPrinterState]. *)
Definition when (cond : bool) (body : CloudDeviceState * list VendorStateItem -> CloudDeviceState * list VendorStateItem)
  (st : CloudDeviceState * list VendorStateItem) : CloudDeviceState * list VendorStateItem :=
  if cond then body st else st.

(** The statements of [convertPrinterState] before the final [nil]
    replacement: the state and the items appended so far, threaded
    through the [if]s in source order. *)
Definition printerStateItems (wsStatus wsAttributes : Z) : CloudDeviceState * list VendorStateItem :=
  let state := (CloudDeviceStateIdle, []) in
  let state := when (flagged wsStatus (Z.lor PRINTER_STATUS_PRINTING PRINTER_STATUS_PROCESSING))
                 (setState CloudDeviceStateProcessing) state in
  let state := when (flagged wsStatus PRINTER_STATUS_PAUSED)
                 (stopped VendorStateWarning "printer paused") state in
  let state := when (flagged wsStatus PRINTER_STATUS_ERROR)
                 (stopped VendorStateError "printer error") state in
  let state := when (flagged wsStatus PRINTER_STATUS_PENDING_DELETION)
                 (stopped VendorStateError "printer is being deleted") state in
  let state := when (flagged wsStatus PRINTER_STATUS_PAPER_JAM)
                 (stopped VendorStateError "paper jam") state in
  let state := when (flagged wsStatus PRINTER_STATUS_PAPER_OUT)
                 (stopped VendorStateError "paper out") state in
  let state := when (flagged wsStatus PRINTER_STATUS_MANUAL_FEED)
                 (appendItem VendorStateInfo "manual feed mode") state in
  let state := when (flagged wsStatus PRINTER_STATUS_PAPER_PROBLEM)
                 (stopped VendorStateError "paper problem") state in
  let state := when (flagged wsStatus PRINTER_STATUS_OFFLINE
                     || flagged wsAttributes PRINTER_ATTRIBUTE_WORK_OFFLINE)
                 (stopped VendorStateError "printer is offline") state in
  let state := when (flagged wsStatus PRINTER_STATUS_IO_ACTIVE)
                 (appendItem VendorStateInfo "active I/O state") state in
  let state := when (flagged wsStatus PRINTER_STATUS_BUSY)
                 (appendItem VendorStateInfo "busy") state in
  let state := when (flagged wsStatus PRINTER_STATUS_OUTPUT_BIN_FULL)
                 (stopped VendorStateError "output bin is full") state in
  let state := when (flagged wsStatus PRINTER_STATUS_NOT_AVAILABLE)
                 (stopped VendorStateError "printer not available") state in
  let state := when (flagged wsStatus PRINTER_STATUS_WAITING)
                 (appendItem VendorStateError "waiting") state in
  let state := when (flagged wsStatus PRINTER_STATUS_INITIALIZING)
                 (appendItem VendorStateInfo "intitializing") state in
  let state := when (flagged wsStatus PRINTER_STATUS_WARMING_UP)
                 (appendItem VendorStateInfo "warming up") state in
  let state := when (flagged wsStatus PRINTER_STATUS_TONER_LOW)
                 (appendItem VendorStateWarning "toner low") state in
  let state := when (flagged wsStatus PRINTER_STATUS_NO_TONER)
                 (stopped VendorStateError "no toner") state in
  let state := when (flagged wsStatus PRINTER_STATUS_PAGE_PUNT)
                 (stopped VendorStateError "cannot print the current page") state in
  let state := when (flagged wsStatus PRINTER_STATUS_USER_INTERVENTION)
                 (stopped VendorStateError "user intervention required") state in
  let state := when (flagged wsStatus PRINTER_STATUS_OUT_OF_MEMORY)
                 (stopped VendorStateError "out of memory") state in
  let state := when (flagged wsStatus PRINTER_STATUS_DOOR_OPEN)
                 (stopped VendorStateError "door open") state in
  let state := when (flagged wsStatus PRINTER_STATUS_SERVER_UNKNOWN)
                 (appendItem VendorStateError "printer status unknown") state in
  let state := when (flagged wsStatus PRINTER_STATUS_POWER_SAVE)
                 (appendItem VendorStateInfo "power save mode") state in
  state.

(** [convertPrinterState]: the list is replaced by [nil] when it has no
    item. *)
Definition convertPrinterState (wsStatus wsAttributes : Z) : PrinterStateSection :=
  let state := printerStateItems wsStatus wsAttributes in
  {| pss_State := fst state;
     pss_VendorState :=
       if (Z.of_nat (List.length (snd state)) =? 0) then None
       else Some {| Item := snd state |} |}.

(** Assignments to the fields of [state] in [convertJobState]. *)
Definition setType (t : JobStateType) (state : JobState) : JobState :=
  {| js_Type := t;
     js_UserActionCause := js_UserActionCause state;
     js_DeviceStateCause := js_DeviceStateCause state;
     js_DeviceActionCause := js_DeviceActionCause state |}.

Definition setUserActionCause (c : UserActionCause) (state : JobState) : JobState :=
  {| js_Type := js_Type state;
     js_UserActionCause := Some c;
     js_DeviceStateCause := js_DeviceStateCause state;
     js_DeviceActionCause := js_DeviceActionCause state |}.

Definition setDeviceStateCause (c : DeviceStateCause) (state : JobState) : JobState :=
  {| js_Type := js_Type state;
     js_UserActionCause := js_UserActionCause state;
     js_DeviceStateCause := Some c;
     js_DeviceActionCause := js_DeviceActionCause state |}.

Definition setDeviceActionCause (c : DeviceActionCause) (state : JobState) : JobState :=
  {| js_Type := js_Type state;
     js_UserActionCause := js_UserActionCause state;
     js_DeviceStateCause := js_DeviceStateCause state;
     js_DeviceActionCause := Some c |}.

(** [convertJobState]. *)
Definition convertJobState (wsStatus : Z) : JobState :=
  let state := JobState_zero in
  if flagged wsStatus (Z.lor JOB_STATUS_SPOOLING JOB_STATUS_PRINTING) then
    setType JobStateInProgress state
  else if flagged wsStatus (Z.lor JOB_STATUS_PRINTED JOB_STATUS_COMPLETE) then
    setType JobStateDone state
  else if flagged wsStatus JOB_STATUS_PAUSED || (wsStatus =? 0) then
    setType JobStateDone state
  else if flagged wsStatus JOB_STATUS_ERROR then
    setDeviceActionCause DeviceActionCausePrintFailure (setType JobStateAborted state)
  else if flagged wsStatus (Z.lor JOB_STATUS_DELETING JOB_STATUS_DELETED) then
    setUserActionCause UserActionCauseCanceled (setType JobStateAborted state)
  else if flagged wsStatus
            (Z.lor (Z.lor (Z.lor JOB_STATUS_OFFLINE JOB_STATUS_PAPEROUT) JOB_STATUS_BLOCKED_DEVQ)
               JOB_STATUS_USER_INTERVENTION) then
    setDeviceStateCause DeviceStateCauseOther (setType JobStateStopped state)
  else
    (* Don't know what is going on. Get the job out of our queue. *)
    setDeviceActionCause DeviceActionCauseOther (setType JobStateAborted state).

End StatusTranslator.

(** ** Device settings and the capability model *)

(** Modelled from the spec: the [DevMode] type and its accessors are
    declared in the repository's Win32 binding file, which is not part
    of the source files embedded here.  The spec calls it the device settings, "the
    native, device-specific configuration blob governing color, duplex,
    paper, copies"; the source reads each field with a getter that
    returns the value and whether the field is set, writes it with a
    setter and unsets the paper fields with [Clear...].  A field is
    [Some v] when set to the 16-bit value [v] and [None] when unset. *)
Record DevMode := {
  dmOrientation : option Z;
  dmPaperSize : option Z;
  dmPaperLength : option Z;
  dmPaperWidth : option Z;
  dmCopies : option Z;
  dmColor : option Z;
  dmDuplex : option Z;
  dmCollate : option Z
}.

Definition GetOrientation (d : DevMode) : option Z := dmOrientation d.
Definition GetPaperSize (d : DevMode) : option Z := dmPaperSize d.
Definition GetPaperLength (d : DevMode) : option Z := dmPaperLength d.
Definition GetPaperWidth (d : DevMode) : option Z := dmPaperWidth d.
Definition GetCopies (d : DevMode) : option Z := dmCopies d.
Definition GetColor (d : DevMode) : option Z := dmColor d.
Definition GetDuplex (d : DevMode) : option Z := dmDuplex d.
Definition GetCollate (d : DevMode) : option Z := dmCollate d.

Definition withOrientation (v : option Z) (d : DevMode) : DevMode :=
  {| dmOrientation := v; dmPaperSize := dmPaperSize d; dmPaperLength := dmPaperLength d;
     dmPaperWidth := dmPaperWidth d; dmCopies := dmCopies d; dmColor := dmColor d;
     dmDuplex := dmDuplex d; dmCollate := dmCollate d |}.
Definition withPaperSize (v : option Z) (d : DevMode) : DevMode :=
  {| dmOrientation := dmOrientation d; dmPaperSize := v; dmPaperLength := dmPaperLength d;
     dmPaperWidth := dmPaperWidth d; dmCopies := dmCopies d; dmColor := dmColor d;
     dmDuplex := dmDuplex d; dmCollate := dmCollate d |}.
Definition withPaperLength (v : option Z) (d : DevMode) : DevMode :=
  {| dmOrientation := dmOrientation d; dmPaperSize := dmPaperSize d; dmPaperLength := v;
     dmPaperWidth := dmPaperWidth d; dmCopies := dmCopies d; dmColor := dmColor d;
     dmDuplex := dmDuplex d; dmCollate := dmCollate d |}.
Definition withPaperWidth (v : option Z) (d : DevMode) : DevMode :=
  {| dmOrientation := dmOrientation d; dmPaperSize := dmPaperSize d; dmPaperLength := dmPaperLength d;
     dmPaperWidth := v; dmCopies := dmCopies d; dmColor := dmColor d;
     dmDuplex := dmDuplex d; dmCollate := dmCollate d |}.
Definition withCopies (v : option Z) (d : DevMode) : DevMode :=
  {| dmOrientation := dmOrientation d; dmPaperSize := dmPaperSize d; dmPaperLength := dmPaperLength d;
     dmPaperWidth := dmPaperWidth d; dmCopies := v; dmColor := dmColor d;
     dmDuplex := dmDuplex d; dmCollate := dmCollate d |}.
Definition withColor (v : option Z) (d : DevMode) : DevMode :=
  {| dmOrientation := dmOrientation d; dmPaperSize := dmPaperSize d; dmPaperLength := dmPaperLength d;
     dmPaperWidth := dmPaperWidth d; dmCopies := dmCopies d; dmColor := v;
     dmDuplex := dmDuplex d; dmCollate := dmCollate d |}.
Definition withDuplex (v : option Z) (d : DevMode) : DevMode :=
  {| dmOrientation := dmOrientation d; dmPaperSize := dmPaperSize d; dmPaperLength := dmPaperLength d;
     dmPaperWidth := dmPaperWidth d; dmCopies := dmCopies d; dmColor := dmColor d;
     dmDuplex := v; dmCollate := dmCollate d |}.
Definition withCollate (v : option Z) (d : DevMode) : DevMode :=
  {| dmOrientation := dmOrientation d; dmPaperSize := dmPaperSize d; dmPaperLength := dmPaperLength d;
     dmPaperWidth := dmPaperWidth d; dmCopies := dmCopies d; dmColor := dmColor d;
     dmDuplex := dmDuplex d; dmCollate := v |}.

Definition SetOrientation (v : Z) : DevMode -> DevMode := withOrientation (Some v).
Definition SetPaperSize (v : Z) : DevMode -> DevMode := withPaperSize (Some v).
Definition ClearPaperSize : DevMode -> DevMode := withPaperSize None.
Definition SetPaperLength (v : Z) : DevMode -> DevMode := withPaperLength (Some v).
Definition ClearPaperLength : DevMode -> DevMode := withPaperLength None.
Definition SetPaperWidth (v : Z) : DevMode -> DevMode := withPaperWidth (Some v).
Definition ClearPaperWidth : DevMode -> DevMode := withPaperWidth None.
Definition SetCopies (v : Z) : DevMode -> DevMode := withCopies (Some v).
Definition SetColor (v : Z) : DevMode -> DevMode := withColor (Some v).
Definition SetDuplex (v : Z) : DevMode -> DevMode := withDuplex (Some v).
Definition SetCollate (v : Z) : DevMode -> DevMode := withCollate (Some v).

(** Modelled from the spec: the [model] package (printer description
    and job ticket) is not among the source files embedded here.  The records
    carry the fields the source reads and writes; the enumerations list
    the constants the source names and the further values a ticket may
    carry, which the source's lookup tables do not map. *)
Inductive ColorType :=
| ColorTypeStandardColor
| ColorTypeStandardMonochrome
| ColorTypeCustomColor
| ColorTypeCustomMonochrome
| ColorTypeAuto.

Record ColorOption := {
  co_VendorID : string;
  co_Type : ColorType;
  co_IsDefault : bool;
  co_CustomDisplayNameLocalized : LocalizedString
}.
Record Color := { color_Option : list ColorOption }.

Inductive DuplexType := DuplexNoDuplex | DuplexLongEdge | DuplexShortEdge.
Record DuplexOption := { do_Type : DuplexType; do_IsDefault : bool }.
Record Duplex := { duplex_Option : list DuplexOption }.

Inductive PageOrientationType :=
| PageOrientationPortrait
| PageOrientationLandscape
| PageOrientationAuto.
Record PageOrientationOption := { po_Type : PageOrientationType; po_IsDefault : bool }.
Record PageOrientation := { orientation_Option : list PageOrientationOption }.

Record Copies := { copies_Default : Z; copies_Max : Z }.

Inductive FitToPageType :=
| FitToPageNoFitting
| FitToPageFitToPage
| FitToPageGrowToPage
| FitToPageShrinkToPage
| FitToPageFillPage.
Record FitToPageOption := { ftp_Type : FitToPageType; ftp_IsDefault : bool }.
Record FitToPage := { fitToPage_Option : list FitToPageOption }.

Inductive MediaSizeName := MediaSizeCustom.
Record MediaSizeOption := {
  mso_Name : MediaSizeName;
  mso_WidthMicrons : Z;
  mso_HeightMicrons : Z;
  mso_IsDefault : bool;
  mso_VendorID : string;
  mso_CustomDisplayNameLocalized : LocalizedString
}.
Record MediaSize := { mediaSize_Option : list MediaSizeOption }.

Record Collate := { collate_Default : bool }.

(** Each capability group is a pointer in the source: [None] is [nil]. *)
Record PrinterDescriptionSection := {
  pds_SupportedContentType : option (list string);
  pds_Color : option Color;
  pds_Duplex : option Duplex;
  pds_PageOrientation : option PageOrientation;
  pds_Copies : option Copies;
  pds_FitToPage : option FitToPage;
  pds_MediaSize : option MediaSize;
  pds_Collate : option Collate
}.

(** [&model.PrinterDescriptionSection{}]. *)
Definition emptyDescription : PrinterDescriptionSection :=
  {| pds_SupportedContentType := None; pds_Color := None; pds_Duplex := None;
     pds_PageOrientation := None; pds_Copies := None; pds_FitToPage := None;
     pds_MediaSize := None; pds_Collate := None |}.

Record ColorTicketItem := { cti_VendorID : string; cti_Type : ColorType }.
Record DuplexTicketItem := { dti_Type : DuplexType }.
Record PageOrientationTicketItem := { poti_Type : PageOrientationType }.
Record CopiesTicketItem := { cpti_Copies : Z }.
Record FitToPageTicketItem := { ftpti_Type : FitToPageType }.
Record MediaSizeTicketItem := {
  msti_WidthMicrons : Z;
  msti_HeightMicrons : Z;
  msti_IsContinuousFeed : bool;
  msti_VendorID : string
}.
Record CollateTicketItem := { clti_Collate : bool }.

Record JobTicket := {
  jt_Color : option ColorTicketItem;
  jt_Duplex : option DuplexTicketItem;
  jt_PageOrientation : option PageOrientationTicketItem;
  jt_Copies : option CopiesTicketItem;
  jt_FitToPage : option FitToPageTicketItem;
  jt_MediaSize : option MediaSizeTicketItem;
  jt_Collate : option CollateTicketItem
}.

(** [lib.Printer]; the admission semaphore is a handle whose [Acquire]
    and [Release] calls appear in the trace of [Print]. *)
Record Printer := {
  Name : string;
  DefaultDisplayName : string;
  Manufacturer : string;
  Model : string;
  State : PrinterStateSection;
  Description : PrinterDescriptionSection;
  Tags : list (string * string)
}.

(** ** Native handles and calls *)

Definition HANDLE := Z.
Definition HDC := Z.
Definition PopplerDocument := Z.
Definition CairoSurface := Z.
Definition CairoContext := Z.

Record PrinterInfo2 := {
  pPrinterName : string;
  pPortName : string;
  pDriverName : string;
  pLocation : string;
  pDevMode : DevMode;
  pi2_attributes : Z;
  pi2_status : Z
}.

Record JobInfo1 := { ji1_jobID : Z; ji1_status : Z; ji1_priority : Z }.

(** The native spooler, PDF and rendering libraries, as the outcome of
    each call the source makes.  A call that returns [(value, error)] is
    a sum, a call that returns only an [error] is [option error] with
    [None] for [nil].  The calls made once per page take the page index
    as well, so that their outcome may differ from page to page. *)
Record Native := {
  EnumPrinters2 : error + list PrinterInfo2;
  DeviceCapabilitiesInt32 : string -> string -> Z -> error + Z;
  DeviceCapabilitiesStrings : string -> string -> Z -> Z -> error + list string;
  DeviceCapabilitiesUint16Array : string -> string -> Z -> error + list Z;
  DeviceCapabilitiesInt32Pairs : string -> string -> Z -> error + list Z;
  OpenPrinter : string -> error + HANDLE;
  ClosePrinter : HANDLE -> option error;
  GetJob : HANDLE -> Z -> error + JobInfo1;
  SetJobCommand : HANDLE -> Z -> Z -> option error;
  SetJobUserName : HANDLE -> Z -> option error;
  DocumentPropertiesGet : HANDLE -> string -> error + DevMode;
  DocumentPropertiesSet : HANDLE -> string -> DevMode -> option error;
  CreateDC : string -> DevMode -> error + HDC;
  DeleteDC : HDC -> option error;
  StartDoc : HDC -> string -> error + Z;
  EndDoc : HDC -> option error;
  PopplerDocumentNewFromFile : string -> error + PopplerDocument;
  GetNPages : PopplerDocument -> Z;
  CairoWin32PrintingSurfaceCreate : HDC -> error + CairoSurface;
  CairoSurface_Destroy : CairoSurface -> option error;
  CairoCreateContext : CairoSurface -> error + CairoContext;
  CairoContext_Destroy : CairoContext -> option error;
  page_DocumentPropertiesSet : Z -> HANDLE -> string -> DevMode -> option error;
  ResetDC : Z -> HDC -> DevMode -> option error;
  GetDeviceCaps : Z -> HDC -> Z -> Z;
  SetGraphicsMode : Z -> HDC -> Z -> option error;
  SetWorldTransform : Z -> HDC -> option error;
  StartPage : Z -> HDC -> option error;
  EndPage : Z -> HDC -> option error;
  Save : Z -> CairoContext -> option error;
  GetSize : PopplerDocument -> Z -> error + (float * float);
  IdentityMatrix : Z -> CairoContext -> option error;
  Translate : Z -> CairoContext -> float -> float -> option error;
  Scale : Z -> CairoContext -> float -> float -> option error;
  Restore : Z -> CairoContext -> option error;
  ShowPage : Z -> CairoSurface -> option error
}.

(** Sequencing of calls that return [(value, error)]. *)
Definition bindE {A B : Type} (r : error + A) (k : A -> error + B) : error + B :=
  match r with
  | inl err => inl err
  | inr a => k a
  end.

Declare Scope go_scope.
Delimit Scope go_scope with go.
Notation "x <- r ;; k" := (bindE r (fun x => k))
  (at level 61, r at next level, right associativity) : go_scope.

(** ** CapabilityTranslator *)

Section CapabilityTranslator.
Context {W32 : Win32} (N : Native).
Local Open Scope go_scope.

(** [getManModel]. *)
Definition getManModel (driverName : string) : string * string :=
  let man := "Google"%string in
  let model := "Cloud Printer"%string in
  let parts := Go.SplitN2 driverName in
  let man := if 0 <? Z.of_nat (String.length (fst parts)) then fst parts else man in
  let model :=
    match snd parts with
    | Some p1 => if 0 <? Z.of_nat (String.length p1) then p1 else model
    | None => model
    end in
  (man, model).

(** The color block of [GetPrinters] (the statements under "Advertise
    color based on default value"). *)
Definition GetPrinters_color (devMode : DevMode) : option Color :=
  match GetColor devMode with
  | Some def =>
      if def =? DMCOLOR_COLOR then
        Some {| color_Option :=
          [ {| co_VendorID := Go.FormatInt DMCOLOR_COLOR;
               co_Type := ColorTypeStandardColor;
               co_IsDefault := true;
               co_CustomDisplayNameLocalized := NewLocalizedString "Color" |};
            {| co_VendorID := Go.FormatInt DMCOLOR_MONOCHROME;
               co_Type := ColorTypeStandardMonochrome;
               co_IsDefault := false;
               co_CustomDisplayNameLocalized := NewLocalizedString "Monochrome" |} ] |}
      else if def =? DMCOLOR_MONOCHROME then
        Some {| color_Option :=
          [ {| co_VendorID := Go.FormatInt DMCOLOR_MONOCHROME;
               co_Type := ColorTypeStandardMonochrome;
               co_IsDefault := true;
               co_CustomDisplayNameLocalized := NewLocalizedString "Monochrome" |} ] |}
      else None
  | None => None
  end.

(** The duplex block of [GetPrinters]. *)
Definition GetPrinters_duplex (printerName portName : string) (devMode : DevMode) :
  error + option Duplex :=
  match GetDuplex devMode with
  | Some def =>
      duplex <- DeviceCapabilitiesInt32 N printerName portName DC_DUPLEX ;;
      if duplex =? 1 then
        inr (Some {| duplex_Option :=
          [ {| do_Type := DuplexNoDuplex; do_IsDefault := def =? DMDUP_SIMPLEX |};
            {| do_Type := DuplexLongEdge; do_IsDefault := def =? DMDUP_VERTICAL |};
            {| do_Type := DuplexShortEdge; do_IsDefault := def =? DMDUP_HORIZONTAL |} ] |})
      else inr None
  | None => inr None
  end.

(** The orientation block of [GetPrinters]. *)
Definition GetPrinters_orientation (printerName portName : string) (devMode : DevMode) :
  error + option PageOrientation :=
  match GetOrientation devMode with
  | Some def =>
      orientation <- DeviceCapabilitiesInt32 N printerName portName DC_ORIENTATION ;;
      if (orientation =? 90) || (orientation =? 270) then
        inr (Some {| orientation_Option :=
          [ {| po_Type := PageOrientationPortrait; po_IsDefault := def =? DMORIENT_PORTRAIT |};
            {| po_Type := PageOrientationLandscape; po_IsDefault := def =? DMORIENT_LANDSCAPE |} ] |})
      else inr None
  | None => inr None
  end.

(** The copies block of [GetPrinters]. *)
Definition GetPrinters_copies (printerName portName : string) (devMode : DevMode) :
  error + option Copies :=
  match GetCopies devMode with
  | Some def =>
      copies <- DeviceCapabilitiesInt32 N printerName portName DC_COPIES ;;
      if 1 <? copies then
        inr (Some {| copies_Default := Go.int32 def; copies_Max := copies |})
      else inr None
  | None => inr None
  end.

(** The collate block of [GetPrinters]. *)
Definition GetPrinters_collate (printerName portName : string) (devMode : DevMode) :
  error + option Collate :=
  match GetCollate devMode with
  | Some def =>
      collate <- DeviceCapabilitiesInt32 N printerName portName DC_COLLATE ;;
      if collate =? 1 then
        inr (Some {| collate_Default := def =? DMCOLLATE_TRUE |})
      else inr None
  | None => inr None
  end.

(** One iteration of the [for i := range names] loop of
    [convertMediaSize]: the options appended so far and [foundDef]. *)
Definition convertMediaSize_body (defSize defLength defWidth : option Z)
  (names : list string) (papers sizes : list Z)
  (st : list MediaSizeOption * bool) (i : nat) : list MediaSizeOption * bool :=
  let '(options, foundDef) := st in
  let name := nth i names ""%string in
  if String.eqb name "" then st
  else
    (* Convert from tenths-of-mm to micrometers *)
    let width := Go.int32 (nth (2 * i) sizes 0 * 100) in
    let length := Go.int32 (nth (2 * i + 1) sizes 0 * 100) in
    let def :=
      if negb foundDef then
        match defSize with
        | Some defSize => Go.uint16 defSize =? nth i papers 0
        | None =>
            match defLength, defWidth with
            | Some defLength, Some defWidth =>
                (Go.int32 defLength =? length) && (Go.int32 defWidth =? width)
            | _, _ => false
            end
        end
      else false in
    let o := {| mso_Name := MediaSizeCustom;
                mso_WidthMicrons := width;
                mso_HeightMicrons := length;
                mso_IsDefault := def;
                mso_VendorID := Go.FormatInt (nth i papers 0);
                mso_CustomDisplayNameLocalized := NewLocalizedString name |} in
    (options ++ [o], foundDef || def).

(** [ms.Option[0].IsDefault = true]. *)
Definition markFirstDefault (options : list MediaSizeOption) : list MediaSizeOption :=
  match options with
  | [] => []
  | o :: rest =>
      {| mso_Name := mso_Name o;
         mso_WidthMicrons := mso_WidthMicrons o;
         mso_HeightMicrons := mso_HeightMicrons o;
         mso_IsDefault := true;
         mso_VendorID := mso_VendorID o;
         mso_CustomDisplayNameLocalized := mso_CustomDisplayNameLocalized o |} :: rest
  end.

(** The part of [convertMediaSize] after the three capability queries
    succeeded. *)
Definition convertMediaSize_build (defSize defLength defWidth : option Z)
  (names : list string) (papers sizes : list Z) : option MediaSize :=
  if negb (Z.of_nat (List.length names) =? Z.of_nat (List.length papers))
     || negb (Z.of_nat (List.length names) =? Z.of_nat (List.length sizes) / 2)
  then None
  else
    let '(options, foundDef) :=
      fold_left (convertMediaSize_body defSize defLength defWidth names papers sizes)
        (seq 0 (List.length names)) ([], false) in
    let options :=
      if negb foundDef && (0 <? Z.of_nat (List.length options))
      then markFirstDefault options else options in
    Some {| mediaSize_Option := options |}.

(** [convertMediaSize]: [inr None] is the [(nil, nil)] return. *)
Definition convertMediaSize (printerName portName : string) (devMode : DevMode) :
  error + option MediaSize :=
  let defSize := GetPaperSize devMode in
  let defLength := GetPaperLength devMode in
  let defWidth := GetPaperWidth devMode in
  names <- DeviceCapabilitiesStrings N printerName portName DC_PAPERNAMES (64 * 2) ;;
  papers <- DeviceCapabilitiesUint16Array N printerName portName DC_PAPERS ;;
  sizes <- DeviceCapabilitiesInt32Pairs N printerName portName DC_PAPERSIZE ;;
  inr (convertMediaSize_build defSize defLength defWidth names papers sizes).

(** The body of the [for _, pi2 := range pi2s] loop of [GetPrinters]. *)
Definition GetPrinters_printer (pi2 : PrinterInfo2) : error + Printer :=
  let printerName := pPrinterName pi2 in
  let portName := pPortName pi2 in
  let devMode := pDevMode pi2 in
  let '(manufacturer, model1) := getManModel (pDriverName pi2) in
  let state := convertPrinterState (pi2_status pi2) (pi2_attributes pi2) in
  let color := GetPrinters_color devMode in
  duplex <- GetPrinters_duplex printerName portName devMode ;;
  orientation <- GetPrinters_orientation printerName portName devMode ;;
  copies <- GetPrinters_copies printerName portName devMode ;;
  mediaSize <- convertMediaSize printerName portName devMode ;;
  collate <- GetPrinters_collate printerName portName devMode ;;
  inr {| Name := printerName;
         DefaultDisplayName := printerName;
         Manufacturer := manufacturer;
         Model := model1;
         State := state;
         Description :=
           {| pds_SupportedContentType := None;
              pds_Color := color;
              pds_Duplex := duplex;
              pds_PageOrientation := orientation;
              pds_Copies := copies;
              pds_FitToPage := None;
              pds_MediaSize := mediaSize;
              pds_Collate := collate |};
         Tags := [("printer-location"%string, pLocation pi2)] |}.

Fixpoint GetPrinters_loop (pi2s : list PrinterInfo2) (printers : list Printer) :
  error + list Printer :=
  match pi2s with
  | [] => inr printers
  | pi2 :: rest =>
      printer <- GetPrinters_printer pi2 ;;
      GetPrinters_loop rest (printers ++ [printer])
  end.

(** [GetPrinters]. *)
Definition GetPrinters : error + list Printer :=
  pi2s <- EnumPrinters2 N ;;
  GetPrinters_loop pi2s [].

End CapabilityTranslator.

(** ** RenderScaler *)

(** [getScaleAndOffset]; [wPaperPixels*72] is an [int32] product. *)
Definition getScaleAndOffset (wDocPoints hDocPoints : float)
  (wPaperPixels hPaperPixels xMarginPixels yMarginPixels
   wPrintablePixels hPrintablePixels xDPI yDPI : Z) (fitToPage : bool) :
  float * float * float :=
  let wPaperPoints := (Go.float64 (Go.int32 (wPaperPixels * 72)) / Go.float64 xDPI)%float in
  let hPaperPoints := (Go.float64 (Go.int32 (hPaperPixels * 72)) / Go.float64 yDPI)%float in
  let '(wPrintablePoints, hPrintablePoints) :=
    if fitToPage then
      ((Go.float64 (Go.int32 (wPrintablePixels * 72)) / Go.float64 xDPI)%float,
       (Go.float64 (Go.int32 (hPrintablePixels * 72)) / Go.float64 yDPI)%float)
    else (wPaperPoints, hPaperPoints) in
  let xScale := (wPrintablePoints / wDocPoints)%float in
  let yScale := (hPrintablePoints / hDocPoints)%float in
  let scale := if (xScale <? yScale)%float then xScale else yScale in
  let xOffsetPoints := ((wPaperPoints - wDocPoints * scale) / 2)%float in
  let yOffsetPoints := ((hPaperPoints - hDocPoints * scale) / 2)%float in
  (scale, xOffsetPoints, yOffsetPoints).

(** ** Traces of native calls *)

Inductive PageCall :=
| PGetPage
| PPageUnref
| PDocumentPropertiesSet (devMode : DevMode)
| PResetDC (devMode : DevMode)
| PSetGraphicsMode
| PSetWorldTransform
| PStartPage
| PEndPage
| PSave
| PGetSize
| PIdentityMatrix
| PTranslate (tx ty : float)
| PScale (sx sy : float)
| PRenderForPrinting
| PRestore
| PShowPage.

Inductive Call :=
| CSemaphoreAcquire
| CSemaphoreRelease
| CPopplerDocumentNewFromFile
| CUnref
| COpenPrinter
| CClosePrinter
| CDocumentPropertiesGet
| CDocumentPropertiesSet
| CCreateDC
| CDeleteDC
| CStartDoc
| CEndDoc
| CSetJobUserName
| CSurfaceCreate
| CSurfaceDestroy
| CContextCreate
| CContextDestroy
| CGetJob
| CSetJobCommand (cmd : Z)
| CPage (i : Z) (c : PageCall).

(** A call the program made, and whether it returned without error. *)
Record Event := Ev { ev_call : Call; ev_ok : bool }.
Definition Trace := list Event.

(** A computation that logs its native calls and may return an error. *)
Definition T (A : Type) : Type := Trace * (error + A).

Definition retT {A : Type} (a : A) : T A := ([], inr a).

Definition bindT {A B : Type} (m : T A) (k : A -> T B) : T B :=
  match m with
  | (t1, inl err) => (t1, inl err)
  | (t1, inr a) => let '(t2, r) := k a in (t1 ++ t2, r)
  end.

Declare Scope trace_scope.
Delimit Scope trace_scope with trace.
Notation "x <- m ;; k" := (bindT m (fun x => k))
  (at level 61, m at next level, right associativity) : trace_scope.
Notation "m ;; k" := (bindT m (fun _ => k))
  (at level 61, right associativity) : trace_scope.

(** A call returning [(value, error)]. *)
Definition call {A : Type} (c : Call) (r : error + A) : T A :=
  match r with
  | inl err => ([Ev c false], inl err)
  | inr a => ([Ev c true], inr a)
  end.

(** A call returning only an [error]. *)
Definition callE (c : Call) (r : option error) : T unit :=
  match r with
  | Some err => ([Ev c false], inl err)
  | None => ([Ev c true], inr tt)
  end.

(** A call whose result the program drops. *)
Definition ignored (c : Call) (r : option error) : Trace :=
  [Ev c (match r with None => true | Some _ => false end)].

(** [if err != nil { cleanup; return nil, err }]: the cleanup calls run
    after the failed step. *)
Definition orElse {A : Type} (m : T A) (cleanup : Trace) : T A :=
  match m with
  | (t, inl err) => (t ++ cleanup, inl err)
  | (t, inr a) => (t, inr a)
  end.

(** [defer]: the deferred calls run when the rest of the function
    returns, with or without an error. *)
Definition defer {A : Type} (deferred : Trace) (m : T A) : T A :=
  (fst m ++ deferred, snd m).

(** ** TicketResolver *)

Section TicketResolver.
Context {W32 : Win32}.

Definition colorValueByType (t : ColorType) : option Z :=
  match t with
  | ColorTypeStandardColor => Some DMCOLOR_COLOR
  | ColorTypeStandardMonochrome => Some DMCOLOR_MONOCHROME
  (* Ignore the rest, since we don't advertise them. *)
  | _ => None
  end.

Definition duplexValueByType (t : DuplexType) : option Z :=
  match t with
  | DuplexNoDuplex => Some DMDUP_SIMPLEX
  | DuplexLongEdge => Some DMDUP_VERTICAL
  | DuplexShortEdge => Some DMDUP_HORIZONTAL
  end.

Definition pageOrientationByType (t : PageOrientationType) : option Z :=
  match t with
  | PageOrientationPortrait => Some DMORIENT_PORTRAIT
  | PageOrientationLandscape => Some DMORIENT_LANDSCAPE
  (* Ignore model.PageOrientationAuto for ticket parsing. *)
  | PageOrientationAuto => None
  end.

(** The statements of [Print] that apply the ticket to
    [jobContext.devMode] are embedded block by block; each block returns
    the device settings it leaves behind and, for the two blocks that
    parse a vendor id, the error [Print] returns. *)

(** [if ticket.Color != nil && printer.Description.Color != nil]. *)
Definition Print_color (ticket : JobTicket) (description : PrinterDescriptionSection)
  (devMode : DevMode) : DevMode * option error :=
  match jt_Color ticket, pds_Color description with
  | Some tColor, Some _ =>
      match colorValueByType (cti_Type tColor) with
      | Some color => (SetColor color devMode, None)
      | None =>
          if negb (String.eqb (cti_VendorID tColor) "") then
            match Go.ParseInt (cti_VendorID tColor) 16 with
            | None => (devMode, Some (NumError (cti_VendorID tColor)))
            | Some v => (SetColor (Go.int16 v) devMode, None)
            end
          else (devMode, None)
      end
  | _, _ => (devMode, None)
  end.

(** [if ticket.Duplex != nil && printer.Description.Duplex != nil]. *)
Definition Print_duplex (ticket : JobTicket) (description : PrinterDescriptionSection)
  (devMode : DevMode) : DevMode :=
  match jt_Duplex ticket, pds_Duplex description with
  | Some tDuplex, Some _ =>
      match duplexValueByType (dti_Type tDuplex) with
      | Some duplex => SetDuplex duplex devMode
      | None => devMode
      end
  | _, _ => devMode
  end.

(** [if ticket.PageOrientation != nil && printer.Description.PageOrientation != nil]. *)
Definition Print_orientation (ticket : JobTicket) (description : PrinterDescriptionSection)
  (devMode : DevMode) : DevMode :=
  match jt_PageOrientation ticket, pds_PageOrientation description with
  | Some tOrientation, Some _ =>
      match pageOrientationByType (poti_Type tOrientation) with
      | Some pageOrientation => SetOrientation pageOrientation devMode
      | None => devMode
      end
  | _, _ => devMode
  end.

(** [if ticket.Copies != nil && printer.Description.Copies != nil]. *)
Definition Print_copies (ticket : JobTicket) (description : PrinterDescriptionSection)
  (devMode : DevMode) : DevMode :=
  match jt_Copies ticket, pds_Copies description with
  | Some tCopies, Some _ =>
      if 0 <? cpti_Copies tCopies then SetCopies (Go.int16 (cpti_Copies tCopies)) devMode
      else devMode
  | _, _ => devMode
  end.

(** [var fitToPage bool] and the block that sets it. *)
Definition Print_fitToPage (ticket : JobTicket) (description : PrinterDescriptionSection) : bool :=
  match jt_FitToPage ticket, pds_FitToPage description with
  | Some tFit, Some _ =>
      match ftpti_Type tFit with
      | FitToPageFitToPage => true
      | _ => false
      end
  | _, _ => false
  end.

(** [if ticket.MediaSize != nil && printer.Description.MediaSize != nil]. *)
Definition Print_mediaSize (ticket : JobTicket) (description : PrinterDescriptionSection)
  (devMode : DevMode) : DevMode * option error :=
  match jt_MediaSize ticket, pds_MediaSize description with
  | Some tMedia, Some _ =>
      if negb (String.eqb (msti_VendorID tMedia) "") then
        match Go.ParseInt (msti_VendorID tMedia) 16 with
        | None => (devMode, Some (NumError (msti_VendorID tMedia)))
        | Some v =>
            (ClearPaperWidth (ClearPaperLength (SetPaperSize (Go.int16 v) devMode)), None)
        end
      else
        (SetPaperWidth (Go.int16 (Go.quot (msti_WidthMicrons tMedia) 10))
           (SetPaperLength (Go.int16 (Go.quot (msti_HeightMicrons tMedia) 10))
              (ClearPaperSize devMode)), None)
  | _, _ => (devMode, None)
  end.

(** [if ticket.Collate != nil && printer.Description.Collate != nil]. *)
Definition Print_collate (ticket : JobTicket) (description : PrinterDescriptionSection)
  (devMode : DevMode) : DevMode :=
  match jt_Collate ticket, pds_Collate description with
  | Some tCollate, Some _ =>
      if clti_Collate tCollate then SetCollate DMCOLLATE_TRUE devMode
      else SetCollate DMCOLLATE_FALSE devMode
  | _, _ => devMode
  end.

(** The ticket blocks of [Print] in source order: the device settings
    when the blocks end (or when a block returns its error) and the
    [fitToPage] flag. *)
Definition Print_ticket (ticket : JobTicket) (description : PrinterDescriptionSection)
  (devMode : DevMode) : DevMode * (error + bool) :=
  match Print_color ticket description devMode with
  | (devMode, Some err) => (devMode, inl err)
  | (devMode, None) =>
      let devMode := Print_duplex ticket description devMode in
      let devMode := Print_orientation ticket description devMode in
      let devMode := Print_copies ticket description devMode in
      let fitToPage := Print_fitToPage ticket description in
      match Print_mediaSize ticket description devMode with
      | (devMode, Some err) => (devMode, inl err)
      | (devMode, None) =>
          let devMode := Print_collate ticket description devMode in
          (devMode, inr fitToPage)
      end
  end.

End TicketResolver.

(** ** JobLifecycleManager *)

Record jobContext := {
  jobID : Z;
  pDoc : PopplerDocument;
  hPrinter : HANDLE;
  devMode : DevMode;
  hDC : HDC;
  cSurface : CairoSurface;
  cContext : CairoContext
}.

(** [jobContext.devMode] is a pointer the ticket blocks write through. *)
Definition withDevMode (d : DevMode) (c : jobContext) : jobContext :=
  {| jobID := jobID c; pDoc := pDoc c; hPrinter := hPrinter c; devMode := d;
     hDC := hDC c; cSurface := cSurface c; cContext := cContext c |}.

Section JobLifecycleManager.
Context {W32 : Win32} (N : Native).
Local Open Scope trace_scope.

(** [newJobContext]. *)
Definition newJobContext (printerName fileName title : string) : T jobContext :=
  pDoc <- call CPopplerDocumentNewFromFile (PopplerDocumentNewFromFile N fileName) ;;
  hPrinter <- orElse (call COpenPrinter (OpenPrinter N printerName))
                [Ev CUnref true] ;;
  devMode <- orElse (call CDocumentPropertiesGet (DocumentPropertiesGet N hPrinter printerName))
               (ignored CClosePrinter (ClosePrinter N hPrinter) ++ [Ev CUnref true]) ;;
  orElse (callE CDocumentPropertiesSet (DocumentPropertiesSet N hPrinter printerName devMode))
    (ignored CClosePrinter (ClosePrinter N hPrinter) ++ [Ev CUnref true]) ;;
  hDC <- orElse (call CCreateDC (CreateDC N printerName devMode))
           (ignored CClosePrinter (ClosePrinter N hPrinter) ++ [Ev CUnref true]) ;;
  jobID <- orElse (call CStartDoc (StartDoc N hDC title))
             (ignored CDeleteDC (DeleteDC N hDC)
              ++ ignored CClosePrinter (ClosePrinter N hPrinter) ++ [Ev CUnref true]) ;;
  (ignored CSetJobUserName (SetJobUserName N hPrinter jobID), inr tt) ;;
  cSurface <- orElse (call CSurfaceCreate (CairoWin32PrintingSurfaceCreate N hDC))
                (ignored CEndDoc (EndDoc N hDC)
                 ++ ignored CDeleteDC (DeleteDC N hDC)
                 ++ ignored CClosePrinter (ClosePrinter N hPrinter) ++ [Ev CUnref true]) ;;
  cContext <- orElse (call CContextCreate (CairoCreateContext N cSurface))
                (ignored CSurfaceDestroy (CairoSurface_Destroy N cSurface)
                 ++ ignored CEndDoc (EndDoc N hDC)
                 ++ ignored CDeleteDC (DeleteDC N hDC)
                 ++ ignored CClosePrinter (ClosePrinter N hPrinter) ++ [Ev CUnref true]) ;;
  retT {| jobID := jobID; pDoc := pDoc; hPrinter := hPrinter; devMode := devMode;
          hDC := hDC; cSurface := cSurface; cContext := cContext |}.

(** [(c *jobContext) free]. *)
Definition free (c : jobContext) : T unit :=
  callE CContextDestroy (CairoContext_Destroy N (cContext c)) ;;
  callE CSurfaceDestroy (CairoSurface_Destroy N (cSurface c)) ;;
  callE CEndDoc (EndDoc N (hDC c)) ;;
  callE CDeleteDC (DeleteDC N (hDC c)) ;;
  callE CClosePrinter (ClosePrinter N (hPrinter c)) ;;
  ([Ev CUnref true], inr tt).

(** [printPage]; the [XFORM] handed to [SetWorldTransform] is not part
    of the logged call. *)
Definition printPage (printerName : string) (i : Z) (c : jobContext) (fitToPage : bool) : T unit :=
  ([Ev (CPage i PGetPage) true], inr tt) ;;
  defer [Ev (CPage i PPageUnref) true]
    (callE (CPage i (PDocumentPropertiesSet (devMode c)))
       (page_DocumentPropertiesSet N i (hPrinter c) printerName (devMode c)) ;;
     callE (CPage i (PResetDC (devMode c))) (ResetDC N i (hDC c) (devMode c)) ;;
     (* Set device to zero offset, and to points scale. *)
     let xDPI := GetDeviceCaps N i (hDC c) LOGPIXELSX in
     let yDPI := GetDeviceCaps N i (hDC c) LOGPIXELSY in
     let xMarginPixels := GetDeviceCaps N i (hDC c) PHYSICALOFFSETX in
     let yMarginPixels := GetDeviceCaps N i (hDC c) PHYSICALOFFSETY in
     callE (CPage i PSetGraphicsMode) (SetGraphicsMode N i (hDC c) GM_ADVANCED) ;;
     callE (CPage i PSetWorldTransform) (SetWorldTransform N i (hDC c)) ;;
     callE (CPage i PStartPage) (StartPage N i (hDC c)) ;;
     defer (ignored (CPage i PEndPage) (EndPage N i (hDC c)))
       (callE (CPage i PSave) (Save N i (cContext c)) ;;
        let wPaperPixels := GetDeviceCaps N i (hDC c) PHYSICALWIDTH in
        let hPaperPixels := GetDeviceCaps N i (hDC c) PHYSICALHEIGHT in
        let wPrintablePixels := GetDeviceCaps N i (hDC c) HORZRES in
        let hPrintablePixels := GetDeviceCaps N i (hDC c) VERTRES in
        size <- call (CPage i PGetSize) (GetSize N (pDoc c) i) ;;
        let '(wDocPoints, hDocPoints) := size in
        let '(scale, xOffsetPoints, yOffsetPoints) :=
          getScaleAndOffset wDocPoints hDocPoints wPaperPixels hPaperPixels
            xMarginPixels yMarginPixels wPrintablePixels hPrintablePixels xDPI yDPI fitToPage in
        callE (CPage i PIdentityMatrix) (IdentityMatrix N i (cContext c)) ;;
        callE (CPage i (PTranslate xOffsetPoints yOffsetPoints))
          (Translate N i (cContext c) xOffsetPoints yOffsetPoints) ;;
        callE (CPage i (PScale scale scale)) (Scale N i (cContext c) scale scale) ;;
        ([Ev (CPage i PRenderForPrinting) true], inr tt) ;;
        callE (CPage i PRestore) (Restore N i (cContext c)) ;;
        callE (CPage i PShowPage) (ShowPage N i (cSurface c)))).

(** [for i := 0; i < jobContext.pDoc.GetNPages(); i++]: [n] pages are
    left to print from index [i] on. *)
Fixpoint Print_pages (printerName : string) (c : jobContext) (fitToPage : bool)
  (n : nat) (i : Z) : T unit :=
  match n with
  | O => retT tt
  | S n' =>
      printPage printerName i c fitToPage ;;
      Print_pages printerName c fitToPage n' (i + 1)
  end.

(** The statements of [Print] after [defer jobContext.free()]: the
    ticket blocks, the page loop and the retain command. *)
Definition Print_job (printer : Printer) (ticket : JobTicket) (c : jobContext) : T Z :=
  match Print_ticket ticket (Description printer) (devMode c) with
  | (_, inl err) => ([], inl err)
  | (resolved, inr fitToPage) =>
      let c := withDevMode resolved c in
      Print_pages (Name printer) c fitToPage (Z.to_nat (GetNPages N (pDoc c))) 0 ;;
      (* Retain unpaused jobs to check the status later. *)
      ji1 <- call CGetJob (GetJob N (hPrinter c) (jobID c)) ;;
      (if Z.land (ji1_status ji1) JOB_STATUS_PAUSED =? 0 then
         callE (CSetJobCommand JOB_CONTROL_RETAIN)
           (SetJobCommand N (hPrinter c) (jobID c) JOB_CONTROL_RETAIN)
       else retT tt) ;;
      retT (Go.uint32 (jobID c))
  end.

(** What a call of [Print] does: it returns, or it panics. *)
Inductive PrintResult :=
| Returned (r : error + Z)
| Panicked.

(** [Print].  [printer] and [ticket] are pointers: [None] is [nil].  The
    semaphore is reached through [printer] before the [nil] test, so a
    [nil] printer panics. *)
Definition Print (printer : option Printer) (fileName title : string)
  (ticket : option JobTicket) : Trace * PrintResult :=
  match printer with
  | None => ([], Panicked)
  | Some printer =>
      let '(t, r) :=
        defer [Ev CSemaphoreRelease true]
          (([Ev CSemaphoreAcquire true], inr tt) ;;
           match ticket with
           | None => ([], inl (errorString "Print() called with nil ticket"))
           | Some ticket =>
               c <- newJobContext (Name printer) fileName title ;;
               defer (fst (free c)) (Print_job printer ticket c)
           end) in
      (t, Returned r)
  end.

(** [GetJobState]. *)
Definition GetJobState (printerName : string) (jobID : Z) : error + PrintJobStateDiff :=
  match OpenPrinter N printerName with
  | inl err => inl err
  | inr hPrinter =>
      match GetJob N hPrinter (Go.int32 jobID) with
      | inl err =>
          if error_eqb err ERROR_INVALID_PARAMETER then
            inr {| pjsd_State :=
                     Some {| js_Type := JobStateAborted;
                             js_UserActionCause := None;
                             js_DeviceStateCause := None;
                             js_DeviceActionCause := Some DeviceActionCauseOther |} |}
          else inl err
      | inr ji1 => inr {| pjsd_State := Some (convertJobState (ji1_status ji1)) |}
      end
  end.

End JobLifecycleManager.

(** ** Specification-side definitions

    The definitions of this part follow the wording of the
    specification; the theorems compare them with the embedded code. *)

Section StatusSpec.
Context {W32 : Win32}.

(** The job-state precedence as the specification words it, one test
    per named status bit: spooling or printing, in progress; else
    printed or complete, done; else paused or the zero bitfield, done;
    else error, aborted with the print-failure cause; else deleting or
    deleted, aborted with the user-canceled cause; else offline,
    paper-out, blocked in the queue or user intervention, stopped with
    the device-state-other cause; anything else, aborted with the
    device-action-other cause. *)
Definition jobStatePrecedence (wsStatus : Z) : JobState :=
  let result (t : JobStateType) (u : option UserActionCause)
        (s : option DeviceStateCause) (a : option DeviceActionCause) :=
    {| js_Type := t; js_UserActionCause := u;
       js_DeviceStateCause := s; js_DeviceActionCause := a |} in
  if flagged wsStatus JOB_STATUS_SPOOLING || flagged wsStatus JOB_STATUS_PRINTING then
    result JobStateInProgress None None None
  else if flagged wsStatus JOB_STATUS_PRINTED || flagged wsStatus JOB_STATUS_COMPLETE then
    result JobStateDone None None None
  else if flagged wsStatus JOB_STATUS_PAUSED || (wsStatus =? 0) then
    result JobStateDone None None None
  else if flagged wsStatus JOB_STATUS_ERROR then
    result JobStateAborted None None (Some DeviceActionCausePrintFailure)
  else if flagged wsStatus JOB_STATUS_DELETING || flagged wsStatus JOB_STATUS_DELETED then
    result JobStateAborted (Some UserActionCauseCanceled) None None
  else if flagged wsStatus JOB_STATUS_OFFLINE || flagged wsStatus JOB_STATUS_PAPEROUT
          || flagged wsStatus JOB_STATUS_BLOCKED_DEVQ
          || flagged wsStatus JOB_STATUS_USER_INTERVENTION then
    result JobStateStopped None (Some DeviceStateCauseOther) None
  else
    result JobStateAborted None None (Some DeviceActionCauseOther).

(** The invariant of the statements of [convertPrinterState]: a stopped
    state comes with at least one item. *)
Definition stoppedHasItem (st : CloudDeviceState * list VendorStateItem) : Prop :=
  fst st = CloudDeviceStateStopped -> snd st <> [].

End StatusSpec.

(** ** CapabilityTranslator, as the specification words it *)


(** The indices of the candidates that become options: those with a
    non-empty name. *)
Definition keptIndices (names : list string) (indices : list nat) : list nat :=
  filter (fun i => negb (String.eqb (nth i names ""%string) "")) indices.






(** ** RenderScaler, as the specification words it *)

(** [points = pixels * 72 / dpi]. *)
Definition points (pixels dpi : Z) : float :=
  (Go.float64 (pixels * 72) / Go.float64 dpi)%float.

(** The target area on one axis: the printable area in points when
    fit-to-page is requested, the full paper size in points otherwise. *)
Definition targetPoints (fitToPage : bool) (printablePixels paperPixels dpi : Z) : float :=
  if fitToPage then points printablePixels dpi else points paperPixels dpi.

(** A float that is not NaN. *)
Definition isNumber (x : float) : Prop := PrimFloat.is_nan x = false.

(** [m] is the minimum of [a] and [b]: one of the two and above neither. *)
Definition isMin (m a b : float) : Prop :=
  (m = a \/ m = b) /\ (m <=? a)%float = true /\ (m <=? b)%float = true.

(** ** TicketResolver, as the specification words it *)

(** The ticket attributes that the ticket blocks of [Print] resolve. *)
Inductive Attribute :=
| AColor
| ADuplex
| AOrientation
| ACopies
| AMediaSize
| ACollate.

(** A pointer that is not [nil]. *)
Definition isSome {A : Type} (o : option A) : bool :=
  match o with
  | Some _ => true
  | None => false
  end.

(** The ticket specifies the attribute. *)
Definition requested (a : Attribute) (ticket : JobTicket) : bool :=
  match a with
  | AColor => isSome (jt_Color ticket)
  | ADuplex => isSome (jt_Duplex ticket)
  | AOrientation => isSome (jt_PageOrientation ticket)
  | ACopies => isSome (jt_Copies ticket)
  | AMediaSize => isSome (jt_MediaSize ticket)
  | ACollate => isSome (jt_Collate ticket)
  end.

(** The printer's Description advertises the capability group of the
    attribute. *)
Definition advertised (a : Attribute) (description : PrinterDescriptionSection) : bool :=
  match a with
  | AColor => isSome (pds_Color description)
  | ADuplex => isSome (pds_Duplex description)
  | AOrientation => isSome (pds_PageOrientation description)
  | ACopies => isSome (pds_Copies description)
  | AMediaSize => isSome (pds_MediaSize description)
  | ACollate => isSome (pds_Collate description)
  end.

(** The device settings of the attribute. *)
Definition setting (a : Attribute) (d : DevMode) : list (option Z) :=
  match a with
  | AColor => [dmColor d]
  | ADuplex => [dmDuplex d]
  | AOrientation => [dmOrientation d]
  | ACopies => [dmCopies d]
  | AMediaSize => [dmPaperSize d; dmPaperLength d; dmPaperWidth d]
  | ACollate => [dmCollate d]
  end.

Section TicketSpec.
Context {W32 : Win32}.

(** The ticket carries a vendor id that [Print] parses and that is not
    an integer: for the media size, any non-empty id of a ticket whose
    media size the Description advertises; for the color, a non-empty id
    of a color whose type has no native code of its own, the Description
    advertising color. *)
Definition malformedVendorID (ticket : JobTicket) (description : PrinterDescriptionSection) : bool :=
  match jt_Color ticket, pds_Color description with
  | Some tColor, Some _ =>
      match colorValueByType (cti_Type tColor) with
      | Some _ => false
      | None =>
          negb (String.eqb (cti_VendorID tColor) "")
          && match Go.ParseInt (cti_VendorID tColor) 16 with None => true | Some _ => false end
      end
  | _, _ => false
  end
  || match jt_MediaSize ticket, pds_MediaSize description with
     | Some tMedia, Some _ =>
         negb (String.eqb (msti_VendorID tMedia) "")
         && match Go.ParseInt (msti_VendorID tMedia) 16 with None => true | Some _ => false end
     | _, _ => false
     end.

End TicketSpec.

(** ** JobLifecycleManager, as the specification words it *)

(** The per-job resource chain. *)
Inductive Resource :=
| RDocument
| RPrinterHandle
| RDeviceContext
| RSurface
| RContext.

(** The call that acquires a resource. *)
Definition acquires (r : Resource) (c : Call) : bool :=
  match r, c with
  | RDocument, CPopplerDocumentNewFromFile => true
  | RPrinterHandle, COpenPrinter => true
  | RDeviceContext, CCreateDC => true
  | RSurface, CSurfaceCreate => true
  | RContext, CContextCreate => true
  | _, _ => false
  end.

(** The call that releases a resource. *)
Definition releases (r : Resource) (c : Call) : bool :=
  match r, c with
  | RDocument, CUnref => true
  | RPrinterHandle, CClosePrinter => true
  | RDeviceContext, CDeleteDC => true
  | RSurface, CSurfaceDestroy => true
  | RContext, CContextDestroy => true
  | _, _ => false
  end.

(** The resource was acquired in the trace. *)
Definition acquired (r : Resource) (t : Trace) : bool :=
  existsb (fun e => acquires r (ev_call e) && ev_ok e) t.

(** The release call of the resource was made in the trace. *)
Definition released (r : Resource) (t : Trace) : bool :=
  existsb (fun e => releases r (ev_call e)) t.


(** What a trace says about the admission slot and the resource chain:
    the successful acquisitions and the release calls, in order. *)
Inductive ResourceEvent :=
| SlotAcquire
| SlotRelease
| Acquire (r : Resource)
| Release (r : Resource).

Definition resourceEvent (e : Event) : option ResourceEvent :=
  match ev_call e with
  | CSemaphoreAcquire => Some SlotAcquire
  | CSemaphoreRelease => Some SlotRelease
  | CPopplerDocumentNewFromFile => if ev_ok e then Some (Acquire RDocument) else None
  | CUnref => Some (Release RDocument)
  | COpenPrinter => if ev_ok e then Some (Acquire RPrinterHandle) else None
  | CClosePrinter => Some (Release RPrinterHandle)
  | CCreateDC => if ev_ok e then Some (Acquire RDeviceContext) else None
  | CDeleteDC => Some (Release RDeviceContext)
  | CSurfaceCreate => if ev_ok e then Some (Acquire RSurface) else None
  | CSurfaceDestroy => Some (Release RSurface)
  | CContextCreate => if ev_ok e then Some (Acquire RContext) else None
  | CContextDestroy => Some (Release RContext)
  | _ => None
  end.

Definition resourceLog (t : Trace) : list ResourceEvent :=
  flat_map (fun e => match resourceEvent e with Some x => [x] | None => [] end) t.

(** The resource chain in order of acquisition. *)
Definition chain : list Resource :=
  [RDocument; RPrinterHandle; RDeviceContext; RSurface; RContext].

(** The first [k] resources of the chain acquired, then released in
    reverse order. *)
Definition balanced (k : nat) : list ResourceEvent :=
  map Acquire (firstn k chain) ++ map Release (rev (firstn k chain)).

(** No release call of the device fails. *)
Definition releasesSucceed (N : Native) : Prop :=
  (forall c, CairoContext_Destroy N c = None)
  /\ (forall s, CairoSurface_Destroy N s = None)
  /\ (forall h, EndDoc N h = None)
  /\ (forall h, DeleteDC N h = None)
  /\ (forall h, ClosePrinter N h = None).

(** A computation whose trace holds no acquisition and no release. *)
Definition quiet {A : Type} (m : T A) : Prop := resourceLog (fst m) = [].

(** The aborted state [GetJobState] reports for a job the spooler no
    longer knows. *)
Definition abortedOther : PrintJobStateDiff :=
  {| pjsd_State :=
       Some {| js_Type := JobStateAborted;
               js_UserActionCause := None;
               js_DeviceStateCause := None;
               js_DeviceActionCause := Some DeviceActionCauseOther |} |}.

(** ** Sample inputs

    Concrete devices, printers and tickets on which the definitions are
    run. *)

(** Device settings of a monochrome printer. *)
Definition monochromeDevMode : DevMode :=
  {| dmOrientation := Some 1; dmPaperSize := Some 9; dmPaperLength := None;
     dmPaperWidth := None; dmCopies := Some 1; dmColor := Some 1;
     dmDuplex := Some 1; dmCollate := Some 0 |}.

(** Device settings of a color printer set to A4 by paper code. *)
Definition colorDevMode : DevMode :=
  {| dmOrientation := Some 1; dmPaperSize := Some 9; dmPaperLength := None;
     dmPaperWidth := None; dmCopies := Some 1; dmColor := Some 2;
     dmDuplex := Some 1; dmCollate := Some 0 |}.

Definition failed : error := errorString "not available".

(** A device that answers the three paper queries of
    [convertMediaSize] with the given lists; every other call fails. *)
Definition paperNative (names : list string) (papers sizes : list Z) : Native :=
  {| EnumPrinters2 := inl failed;
     DeviceCapabilitiesInt32 := fun _ _ _ => inl failed;
     DeviceCapabilitiesStrings := fun _ _ _ _ => inr names;
     DeviceCapabilitiesUint16Array := fun _ _ _ => inr papers;
     DeviceCapabilitiesInt32Pairs := fun _ _ _ => inr sizes;
     OpenPrinter := fun _ => inl failed;
     ClosePrinter := fun _ => Some failed;
     GetJob := fun _ _ => inl failed;
     SetJobCommand := fun _ _ _ => Some failed;
     SetJobUserName := fun _ _ => Some failed;
     DocumentPropertiesGet := fun _ _ => inl failed;
     DocumentPropertiesSet := fun _ _ _ => Some failed;
     CreateDC := fun _ _ => inl failed;
     DeleteDC := fun _ => Some failed;
     StartDoc := fun _ _ => inl failed;
     EndDoc := fun _ => Some failed;
     PopplerDocumentNewFromFile := fun _ => inl failed;
     GetNPages := fun _ => 0;
     CairoWin32PrintingSurfaceCreate := fun _ => inl failed;
     CairoSurface_Destroy := fun _ => Some failed;
     CairoCreateContext := fun _ => inl failed;
     CairoContext_Destroy := fun _ => Some failed;
     page_DocumentPropertiesSet := fun _ _ _ _ => Some failed;
     ResetDC := fun _ _ _ => Some failed;
     GetDeviceCaps := fun _ _ _ => 0;
     SetGraphicsMode := fun _ _ _ => Some failed;
     SetWorldTransform := fun _ _ => Some failed;
     StartPage := fun _ _ => Some failed;
     EndPage := fun _ _ => Some failed;
     Save := fun _ _ => Some failed;
     GetSize := fun _ _ => inl failed;
     IdentityMatrix := fun _ _ => Some failed;
     Translate := fun _ _ _ _ => Some failed;
     Scale := fun _ _ _ _ => Some failed;
     Restore := fun _ _ => Some failed;
     ShowPage := fun _ _ => Some failed |}.

(** A printer that lists Letter and A4, sizes in tenths of a
    millimeter. *)
Definition letterA4Native : Native :=
  paperNative ["Letter"%string; "A4"%string] [1; 9] [2159; 2794; 2100; 2970].




(** A device on which every call succeeds, but for [EndDoc] and
    [GetJob], which return what is given: an A4 sheet at 600 dpi and a
    document of [nPages] A4 pages. *)
Definition deviceNative (nPages : Z) (endDoc : option error) (getJob : error + JobInfo1) : Native :=
  {| EnumPrinters2 := inr [];
     DeviceCapabilitiesInt32 := fun _ _ _ => inr 1;
     DeviceCapabilitiesStrings := fun _ _ _ _ => inr ["A4"%string];
     DeviceCapabilitiesUint16Array := fun _ _ _ => inr [9];
     DeviceCapabilitiesInt32Pairs := fun _ _ _ => inr [2100; 2970];
     OpenPrinter := fun _ => inr 2;
     ClosePrinter := fun _ => None;
     GetJob := fun _ _ => getJob;
     SetJobCommand := fun _ _ _ => None;
     SetJobUserName := fun _ _ => None;
     DocumentPropertiesGet := fun _ _ => inr colorDevMode;
     DocumentPropertiesSet := fun _ _ _ => None;
     CreateDC := fun _ _ => inr 3;
     DeleteDC := fun _ => None;
     StartDoc := fun _ _ => inr 7;
     EndDoc := fun _ => endDoc;
     PopplerDocumentNewFromFile := fun _ => inr 1;
     GetNPages := fun _ => nPages;
     CairoWin32PrintingSurfaceCreate := fun _ => inr 4;
     CairoSurface_Destroy := fun _ => None;
     CairoCreateContext := fun _ => inr 5;
     CairoContext_Destroy := fun _ => None;
     page_DocumentPropertiesSet := fun _ _ _ _ => None;
     ResetDC := fun _ _ _ => None;
     GetDeviceCaps := fun _ _ index =>
       if index =? 88 then 600 else if index =? 90 then 600
       else if index =? 110 then 4960 else if index =? 111 then 7016
       else if index =? 112 then 100 else if index =? 113 then 100
       else if index =? 8 then 4760 else if index =? 10 then 6816 else 0;
     SetGraphicsMode := fun _ _ _ => None;
     SetWorldTransform := fun _ _ => None;
     StartPage := fun _ _ => None;
     EndPage := fun _ _ => None;
     Save := fun _ _ => None;
     GetSize := fun _ _ => inr (595%float, 842%float);
     IdentityMatrix := fun _ _ => None;
     Translate := fun _ _ _ _ => None;
     Scale := fun _ _ _ _ => None;
     Restore := fun _ _ => None;
     ShowPage := fun _ _ => None |}.

Definition queuedJob : JobInfo1 := {| ji1_jobID := 7; ji1_status := 0; ji1_priority := 1 |}.

(** Every call succeeds. *)
Definition okNative : Native := deviceNative 1 None (inr queuedJob).

(** [EndDoc] fails, as it does for a job the spooler has cancelled. *)
Definition endDocFailsNative : Native :=
  deviceNative 1 (Some (errorString "EndDoc failed")) (inr queuedJob).

(** The spooler no longer knows the job. *)
Definition purgedNative : Native := deviceNative 1 None (inl (Errno 87)).

(** The spooler refuses the lookup. *)
Definition deniedNative : Native := deviceNative 1 None (inl (Errno 5)).

(** A Description that advertises every capability group. *)
Definition fullDescription : PrinterDescriptionSection :=
  {| pds_SupportedContentType := None;
     pds_Color := Some {| color_Option :=
       [ {| co_VendorID := "2"; co_Type := ColorTypeStandardColor; co_IsDefault := true;
            co_CustomDisplayNameLocalized := "Color"%string |};
         {| co_VendorID := "1"; co_Type := ColorTypeStandardMonochrome; co_IsDefault := false;
            co_CustomDisplayNameLocalized := "Monochrome"%string |} ] |};
     pds_Duplex := Some {| duplex_Option :=
       [ {| do_Type := DuplexNoDuplex; do_IsDefault := false |};
         {| do_Type := DuplexLongEdge; do_IsDefault := true |};
         {| do_Type := DuplexShortEdge; do_IsDefault := false |} ] |};
     pds_PageOrientation := Some {| orientation_Option :=
       [ {| po_Type := PageOrientationPortrait; po_IsDefault := true |};
         {| po_Type := PageOrientationLandscape; po_IsDefault := false |} ] |};
     pds_Copies := Some {| copies_Default := 1; copies_Max := 99 |};
     pds_FitToPage := None;
     pds_MediaSize := Some {| mediaSize_Option :=
       [ {| mso_Name := MediaSizeCustom; mso_WidthMicrons := 210000;
            mso_HeightMicrons := 297000; mso_IsDefault := true; mso_VendorID := "9";
            mso_CustomDisplayNameLocalized := "A4"%string |} ] |};
     pds_Collate := Some {| collate_Default := false |} |}.

Definition idleState : PrinterStateSection :=
  {| pss_State := CloudDeviceStateIdle; pss_VendorState := None |}.

Definition officePrinter : Printer :=
  {| Name := "Office"; DefaultDisplayName := "Office"; Manufacturer := "Google";
     Model := "Cloud Printer"; State := idleState; Description := fullDescription;
     Tags := [] |}.


Definition emptyTicket : JobTicket :=
  {| jt_Color := None; jt_Duplex := None; jt_PageOrientation := None; jt_Copies := None;
     jt_FitToPage := None; jt_MediaSize := None; jt_Collate := None |}.

Definition mediaTicket (m : MediaSizeTicketItem) : JobTicket :=
  {| jt_Color := None; jt_Duplex := None; jt_PageOrientation := None; jt_Copies := None;
     jt_FitToPage := None; jt_MediaSize := Some m; jt_Collate := None |}.

(** The media-size item of a ticket made by [mediaTicket]. *)
Definition mediaTicketItem (ticket : JobTicket) : MediaSizeTicketItem :=
  match jt_MediaSize ticket with
  | Some m => m
  | None => {| msti_WidthMicrons := 0; msti_HeightMicrons := 0;
               msti_IsContinuousFeed := false; msti_VendorID := "" |}
  end.

(** A4 by explicit size, in micrometers. *)
Definition a4BySize : JobTicket :=
  mediaTicket {| msti_WidthMicrons := 210000; msti_HeightMicrons := 297000;
                 msti_IsContinuousFeed := false; msti_VendorID := "" |}.

(** A4 by vendor id. *)
Definition a4ByVendorID : JobTicket :=
  mediaTicket {| msti_WidthMicrons := 210000; msti_HeightMicrons := 297000;
                 msti_IsContinuousFeed := false; msti_VendorID := "9" |}.


(** A ticket that asks for everything. *)
Definition busyTicket : JobTicket :=
  {| jt_Color := Some {| cti_VendorID := ""; cti_Type := ColorTypeStandardMonochrome |};
     jt_Duplex := Some {| dti_Type := DuplexShortEdge |};
     jt_PageOrientation := Some {| poti_Type := PageOrientationLandscape |};
     jt_Copies := Some {| cpti_Copies := 3 |};
     jt_FitToPage := Some {| ftpti_Type := FitToPageFitToPage |};
     jt_MediaSize := Some {| msti_WidthMicrons := 210000; msti_HeightMicrons := 297000;
                             msti_IsContinuousFeed := false; msti_VendorID := "9" |};
     jt_Collate := Some {| clti_Collate := true |} |}.


(** A Description that advertises every group but duplex. *)
Definition noDuplexDescription : PrinterDescriptionSection :=
  {| pds_SupportedContentType := pds_SupportedContentType fullDescription;
     pds_Color := pds_Color fullDescription;
     pds_Duplex := None;
     pds_PageOrientation := pds_PageOrientation fullDescription;
     pds_Copies := pds_Copies fullDescription;
     pds_FitToPage := pds_FitToPage fullDescription;
     pds_MediaSize := pds_MediaSize fullDescription;
     pds_Collate := pds_Collate fullDescription |}.


(** ** ReleaseJob *)

Section ReleaseJob.
Context {W32 : Win32} (N : Native).
Local Open Scope trace_scope.

(** [ReleaseJob]. *)
Definition ReleaseJob (printerName : string) (jobID : Z) : T unit :=
  hPrinter <- call COpenPrinter (OpenPrinter N printerName) ;;
  (* Only release if the job was retained (otherwise we get an error) *)
  ji1 <- call CGetJob (GetJob N hPrinter (Go.int32 jobID)) ;;
  if negb (Z.land (ji1_status ji1) JOB_STATUS_RETAINED =? 0) then
    callE (CSetJobCommand JOB_CONTROL_RELEASE)
      (SetJobCommand N hPrinter (Go.int32 jobID) JOB_CONTROL_RELEASE)
  else retT tt.

End ReleaseJob.

(** ** ConcurrentPrinterMap

    A Go [map[string]Printer] is a list of keys and values with no key
    twice; writing a key that is present replaces its value in place.
    The [nil] map is the empty list.  Go leaves the order of iteration
    over a map open; here it is the order of the list.  The mutex is not
    modelled: the operations are taken one at a time. *)

Definition PrinterMap := list (string * Printer).

(** [m[key]] with the "comma ok" of Go as an option. *)
Fixpoint mapGet (m : PrinterMap) (key : string) : option Printer :=
  match m with
  | [] => None
  | (k, v) :: rest => if String.eqb k key then Some v else mapGet rest key
  end.

(** [m[key] = value]. *)
Fixpoint mapSet (m : PrinterMap) (key : string) (value : Printer) : PrinterMap :=
  match m with
  | [] => [(key, value)]
  | (k, v) :: rest =>
      if String.eqb k key then (key, value) :: rest
      else (k, v) :: mapSet rest key value
  end.

Record ConcurrentPrinterMap := {
  byNativeName : PrinterMap;
  byGCPID : PrinterMap
}.

(** [Refresh]: replaces the map by name with one built from
    [newPrinters]. *)
Definition Refresh (cpm : ConcurrentPrinterMap) (newPrinters : list Printer) :
  ConcurrentPrinterMap :=
  let c := fold_left (fun c printer => mapSet c (Name printer) printer) newPrinters [] in
  {| byNativeName := c; byGCPID := byGCPID cpm |}.

(** [NewConcurrentPrinterMap]. *)
Definition NewConcurrentPrinterMap (printers : list Printer) : ConcurrentPrinterMap :=
  let cpm := {| byNativeName := []; byGCPID := [] |} in
  Refresh cpm printers.

(** [GetByNativeName]; [None] is the [(Printer{}, false)] return. *)
Definition GetByNativeName (cpm : ConcurrentPrinterMap) (name : string) : option Printer :=
  match mapGet (byNativeName cpm) name with
  | Some p => Some p
  | None => None
  end.

(** [GetByGCPID]; [None] is the [(Printer{}, false)] return. *)
Definition GetByGCPID (cpm : ConcurrentPrinterMap) (gcpID : string) : option Printer :=
  match mapGet (byGCPID cpm) gcpID with
  | Some p => Some p
  | None => None
  end.

(** [GetAll]. *)
Definition GetAll (cpm : ConcurrentPrinterMap) : list Printer :=
  map snd (byNativeName cpm).

(** ** Further specification-side definitions *)

(** The last printer of a list that has the given name. *)
Definition lastNamed (name : string) (printers : list Printer) : option Printer :=
  find (fun p => String.eqb (Name p) name) (rev printers).

(** The keys of a map are pairwise different. *)
Definition uniqueKeys (m : PrinterMap) : Prop := NoDup (map fst m).

(** The pages a trace rendered, in order. *)
Definition renderedPages (t : Trace) : list Z :=
  flat_map (fun e => match ev_call e with
                     | CPage i PRenderForPrinting => [i]
                     | _ => []
                     end) t.

(** The page indices [first], [first + 1], ... ([count] of them). *)
Fixpoint pageRange (count : nat) (first : Z) : list Z :=
  match count with
  | O => []
  | S count' => first :: pageRange count' (first + 1)
  end.

(** What a trace says about opening and closing a page: the page
    handle taken and given back, the page started and ended. *)
Inductive PageBracket :=
| PageTaken (i : Z)
| PageGivenBack (i : Z)
| PageStarted (i : Z)
| PageEnded (i : Z).

Definition pageBracket (e : Event) : list PageBracket :=
  match ev_call e with
  | CPage i PGetPage => [PageTaken i]
  | CPage i PPageUnref => [PageGivenBack i]
  | CPage i PStartPage => if ev_ok e then [PageStarted i] else []
  | CPage i PEndPage => [PageEnded i]
  | _ => []
  end.

Definition pageBrackets (t : Trace) : list PageBracket := flat_map pageBracket t.

(** The job commands of a trace, each with its outcome. *)
Definition jobCommands (t : Trace) : list (Z * bool) :=
  flat_map (fun e => match ev_call e with
                     | CSetJobCommand cmd => [(cmd, ev_ok e)]
                     | _ => []
                     end) t.

(** What a trace says about the document on the device context:
    started, ended. *)
Inductive DocBracket :=
| DocStarted
| DocEnded.

Definition docBracket (e : Event) : list DocBracket :=
  match ev_call e with
  | CStartDoc => if ev_ok e then [DocStarted] else []
  | CEndDoc => [DocEnded]
  | _ => []
  end.

Definition docBrackets (t : Trace) : list DocBracket := flat_map docBracket t.

(** The release calls of [free], in the order it makes them. *)
Definition freeCalls : list Call :=
  [CContextDestroy; CSurfaceDestroy; CEndDoc; CDeleteDC; CClosePrinter; CUnref].

(** The number of causes a job state carries. *)
Definition causeCount (s : JobState) : nat :=
  (if isSome (js_UserActionCause s) then 1 else 0)
  + (if isSome (js_DeviceStateCause s) then 1 else 0)
  + (if isSome (js_DeviceActionCause s) then 1 else 0).

Section PrinterStateSpec.
Context {W32 : Win32}.

Definition vendorItem (sev : VendorStateType) (msg : string) : VendorStateItem :=
  {| vsi_State := sev; vsi_DescriptionLocalized := NewLocalizedString msg |}.

(** The conditions that stop the printer. *)
Definition stopConditions (wsStatus wsAttributes : Z) : list bool :=
  [ flagged wsStatus PRINTER_STATUS_PAUSED;
    flagged wsStatus PRINTER_STATUS_ERROR;
    flagged wsStatus PRINTER_STATUS_PENDING_DELETION;
    flagged wsStatus PRINTER_STATUS_PAPER_JAM;
    flagged wsStatus PRINTER_STATUS_PAPER_OUT;
    flagged wsStatus PRINTER_STATUS_PAPER_PROBLEM;
    flagged wsStatus PRINTER_STATUS_OFFLINE
      || flagged wsAttributes PRINTER_ATTRIBUTE_WORK_OFFLINE;
    flagged wsStatus PRINTER_STATUS_OUTPUT_BIN_FULL;
    flagged wsStatus PRINTER_STATUS_NOT_AVAILABLE;
    flagged wsStatus PRINTER_STATUS_NO_TONER;
    flagged wsStatus PRINTER_STATUS_PAGE_PUNT;
    flagged wsStatus PRINTER_STATUS_USER_INTERVENTION;
    flagged wsStatus PRINTER_STATUS_OUT_OF_MEMORY;
    flagged wsStatus PRINTER_STATUS_DOOR_OPEN ].

(** Every condition that reports an item, with its item, in the order
    of the statements. *)
Definition vendorItemTable (wsStatus wsAttributes : Z) : list (bool * VendorStateItem) :=
  [ (flagged wsStatus PRINTER_STATUS_PAUSED, vendorItem VendorStateWarning "printer paused");
    (flagged wsStatus PRINTER_STATUS_ERROR, vendorItem VendorStateError "printer error");
    (flagged wsStatus PRINTER_STATUS_PENDING_DELETION,
     vendorItem VendorStateError "printer is being deleted");
    (flagged wsStatus PRINTER_STATUS_PAPER_JAM, vendorItem VendorStateError "paper jam");
    (flagged wsStatus PRINTER_STATUS_PAPER_OUT, vendorItem VendorStateError "paper out");
    (flagged wsStatus PRINTER_STATUS_MANUAL_FEED, vendorItem VendorStateInfo "manual feed mode");
    (flagged wsStatus PRINTER_STATUS_PAPER_PROBLEM, vendorItem VendorStateError "paper problem");
    (flagged wsStatus PRINTER_STATUS_OFFLINE
       || flagged wsAttributes PRINTER_ATTRIBUTE_WORK_OFFLINE,
     vendorItem VendorStateError "printer is offline");
    (flagged wsStatus PRINTER_STATUS_IO_ACTIVE, vendorItem VendorStateInfo "active I/O state");
    (flagged wsStatus PRINTER_STATUS_BUSY, vendorItem VendorStateInfo "busy");
    (flagged wsStatus PRINTER_STATUS_OUTPUT_BIN_FULL,
     vendorItem VendorStateError "output bin is full");
    (flagged wsStatus PRINTER_STATUS_NOT_AVAILABLE,
     vendorItem VendorStateError "printer not available");
    (flagged wsStatus PRINTER_STATUS_WAITING, vendorItem VendorStateError "waiting");
    (flagged wsStatus PRINTER_STATUS_INITIALIZING, vendorItem VendorStateInfo "intitializing");
    (flagged wsStatus PRINTER_STATUS_WARMING_UP, vendorItem VendorStateInfo "warming up");
    (flagged wsStatus PRINTER_STATUS_TONER_LOW, vendorItem VendorStateWarning "toner low");
    (flagged wsStatus PRINTER_STATUS_NO_TONER, vendorItem VendorStateError "no toner");
    (flagged wsStatus PRINTER_STATUS_PAGE_PUNT,
     vendorItem VendorStateError "cannot print the current page");
    (flagged wsStatus PRINTER_STATUS_USER_INTERVENTION,
     vendorItem VendorStateError "user intervention required");
    (flagged wsStatus PRINTER_STATUS_OUT_OF_MEMORY, vendorItem VendorStateError "out of memory");
    (flagged wsStatus PRINTER_STATUS_DOOR_OPEN, vendorItem VendorStateError "door open");
    (flagged wsStatus PRINTER_STATUS_SERVER_UNKNOWN,
     vendorItem VendorStateError "printer status unknown");
    (flagged wsStatus PRINTER_STATUS_POWER_SAVE, vendorItem VendorStateInfo "power save mode") ].

(** The items of the conditions that hold. *)
Definition reportedItems (table : list (bool * VendorStateItem)) : list VendorStateItem :=
  flat_map (fun row : bool * VendorStateItem => if fst row then [snd row] else []) table.

End PrinterStateSpec.

(** The candidate of index [i] as an option, but for its default flag:
    name, width and height in micrometers, vendor id. *)
Definition candidateOption (names : list string) (papers sizes : list Z) (i : nat) :
  string * Z * Z * string :=
  (nth i names ""%string,
   Go.int32 (nth (2 * i) sizes 0 * 100),
   Go.int32 (nth (2 * i + 1) sizes 0 * 100),
   Go.FormatInt (nth i papers 0)).

Definition optionContent (o : MediaSizeOption) : string * Z * Z * string :=
  (mso_CustomDisplayNameLocalized o, mso_WidthMicrons o, mso_HeightMicrons o, mso_VendorID o).

(** A ticket that asks for a media size by vendor id only. *)
Definition vendorIDTicket (vendorID : string) : JobTicket :=
  mediaTicket {| msti_WidthMicrons := 0; msti_HeightMicrons := 0;
                 msti_IsContinuousFeed := false; msti_VendorID := vendorID |}.

(** The job states the translation produces: in progress or done
    without a cause, stopped with a device-state cause only, aborted
    with exactly one cause, of the user or of the device action. *)
Definition jobStateShape (s : JobState) : Prop :=
  match js_Type s with
  | JobStateInProgress | JobStateDone => causeCount s = 0%nat
  | JobStateStopped => causeCount s = 1%nat /\ isSome (js_DeviceStateCause s) = true
  | JobStateAborted => causeCount s = 1%nat /\ isSome (js_DeviceStateCause s) = false
  | _ => False
  end.

(** A string without a space. *)
Fixpoint noSpace (s : string) : bool :=
  match s with
  | EmptyString => true
  | String c rest => negb (Ascii.eqb c " ") && noSpace rest
  end.

(** The number of default options of a duplex group. *)
Definition duplexDefaults (d : Duplex) : nat :=
  List.length (filter do_IsDefault (duplex_Option d)).

(** The calls that open and close the job context. *)
Definition setupCall (c : Call) : bool :=
  match c with
  | CPopplerDocumentNewFromFile | CUnref | COpenPrinter | CClosePrinter
  | CDocumentPropertiesGet | CDocumentPropertiesSet | CCreateDC | CDeleteDC
  | CStartDoc | CEndDoc | CSetJobUserName | CSurfaceCreate | CSurfaceDestroy
  | CContextCreate | CContextDestroy => true
  | _ => false
  end.

(** The calls made for page [i]. *)
Definition pageCall (i : Z) (c : Call) : bool :=
  match c with
  | CPage j _ => j =? i
  | _ => false
  end.

(** The calls made for a page, whichever. *)
Definition anyPageCall (c : Call) : bool :=
  match c with
  | CPage _ _ => true
  | _ => false
  end.

(** Every call of the trace is of the given kind. *)
Definition allCalls (kind : Call -> bool) (t : Trace) : Prop :=
  Forall (fun e => kind (ev_call e) = true) t.

(** ** Further sample inputs *)

(** The device [N] with the given printers in the spooler. *)
Definition withPrinters (N : Native) (pi2s : list PrinterInfo2) : Native :=
  {| EnumPrinters2 := inr pi2s;
     DeviceCapabilitiesInt32 := DeviceCapabilitiesInt32 N;
     DeviceCapabilitiesStrings := DeviceCapabilitiesStrings N;
     DeviceCapabilitiesUint16Array := DeviceCapabilitiesUint16Array N;
     DeviceCapabilitiesInt32Pairs := DeviceCapabilitiesInt32Pairs N;
     OpenPrinter := OpenPrinter N;
     ClosePrinter := ClosePrinter N;
     GetJob := GetJob N;
     SetJobCommand := SetJobCommand N;
     SetJobUserName := SetJobUserName N;
     DocumentPropertiesGet := DocumentPropertiesGet N;
     DocumentPropertiesSet := DocumentPropertiesSet N;
     CreateDC := CreateDC N;
     DeleteDC := DeleteDC N;
     StartDoc := StartDoc N;
     EndDoc := EndDoc N;
     PopplerDocumentNewFromFile := PopplerDocumentNewFromFile N;
     GetNPages := GetNPages N;
     CairoWin32PrintingSurfaceCreate := CairoWin32PrintingSurfaceCreate N;
     CairoSurface_Destroy := CairoSurface_Destroy N;
     CairoCreateContext := CairoCreateContext N;
     CairoContext_Destroy := CairoContext_Destroy N;
     page_DocumentPropertiesSet := page_DocumentPropertiesSet N;
     ResetDC := ResetDC N;
     GetDeviceCaps := GetDeviceCaps N;
     SetGraphicsMode := SetGraphicsMode N;
     SetWorldTransform := SetWorldTransform N;
     StartPage := StartPage N;
     EndPage := EndPage N;
     Save := Save N;
     GetSize := GetSize N;
     IdentityMatrix := IdentityMatrix N;
     Translate := Translate N;
     Scale := Scale N;
     Restore := Restore N;
     ShowPage := ShowPage N |}.

Definition officeInfo : PrinterInfo2 :=
  {| pPrinterName := "Office"; pPortName := "USB001";
     pDriverName := "HP LaserJet 4 Plus"; pLocation := "second floor";
     pDevMode := colorDevMode; pi2_attributes := 0; pi2_status := 0 |}.

Definition labelInfo : PrinterInfo2 :=
  {| pPrinterName := "Labels"; pPortName := "USB002";
     pDriverName := "Zebra"; pLocation := "";
     pDevMode := monochromeDevMode; pi2_attributes := 0x400; pi2_status := 0 |}.

(** A spooler with two printers, every capability query answered. *)
Definition twoPrintersNative : Native := withPrinters okNative [officeInfo; labelInfo].

(** The printers [GetPrinters] builds from it. *)
Definition twoPrinters : list Printer :=
  Eval vm_compute in
    match GetPrinters (W32 := winsdk) twoPrintersNative with
    | inr printers => printers
    | inl _ => []
    end.

(** The duplex group of a device whose active setting is simplex. *)
Definition simplexDuplex : Duplex :=
  {| duplex_Option :=
       [ {| do_Type := DuplexNoDuplex; do_IsDefault := true |};
         {| do_Type := DuplexLongEdge; do_IsDefault := false |};
         {| do_Type := DuplexShortEdge; do_IsDefault := false |} ] |}.

(** * Theorems *)

(** ** StatusTranslator *)

Section StatusTranslatorFacts.
Context {W32 : Win32}.

(** A mask that is the union of two masks is hit exactly when one of
    the two is. *)
Lemma flagged_lor (v a b : Z) :
  flagged v (Z.lor a b) = flagged v a || flagged v b.
Proof.
  unfold flagged. rewrite Z.land_lor_distr_r.
  destruct (Z.eqb_spec (Z.land v a) 0) as [Ha | Ha];
    destruct (Z.eqb_spec (Z.land v b) 0) as [Hb | Hb]; cbn.
  - rewrite Ha, Hb. reflexivity.
  - destruct (Z.eqb_spec (Z.lor (Z.land v a) (Z.land v b)) 0) as [H | H]; [|reflexivity].
    apply Z.lor_eq_0_iff in H. tauto.
  - destruct (Z.eqb_spec (Z.lor (Z.land v a) (Z.land v b)) 0) as [H | H]; [|reflexivity].
    apply Z.lor_eq_0_iff in H. tauto.
  - destruct (Z.eqb_spec (Z.lor (Z.land v a) (Z.land v b)) 0) as [H | H]; [|reflexivity].
    apply Z.lor_eq_0_iff in H. tauto.
Qed.

(** A single-bit mask is hit exactly when that bit of the status is
    set. *)
Lemma flagged_bit (v : Z) (k : Z) :
  0 <= k -> flagged v (2 ^ k) = Z.testbit v k.
Proof.
  intros Hk. unfold flagged.
  destruct (Z.testbit v k) eqn:Hb.
  - destruct (Z.eqb_spec (Z.land v (2 ^ k)) 0) as [H | H]; [|reflexivity].
    assert (Ht : Z.testbit (Z.land v (2 ^ k)) k = true).
    { rewrite Z.land_spec, Hb, Z.pow2_bits_true by lia. reflexivity. }
    rewrite H, Z.bits_0 in Ht. discriminate.
  - destruct (Z.eqb_spec (Z.land v (2 ^ k)) 0) as [H | H]; [reflexivity|].
    exfalso. apply H. apply Z.bits_inj'. intros n Hn.
    rewrite Z.land_spec, Z.bits_0.
    destruct (Z.eq_dec n k) as [-> | Hne].
    + rewrite Hb. reflexivity.
    + rewrite Z.pow2_bits_false by lia. apply andb_false_r.
Qed.

(** C5: for every native job status bitfield, [convertJobState] follows
    the fixed precedence of the specification: a spooling or printing
    bit gives in-progress; else a printed or complete bit gives done;
    else a paused bit or the zero bitfield gives done; else an error bit
    gives aborted with the print-failure cause; else a deleting or
    deleted bit gives aborted with the user-canceled cause; else an
    offline, paper-out, blocked-in-queue or user-intervention bit gives
    stopped with the device-state-other cause; and any remaining value
    gives aborted with the device-action-other cause. *)
Theorem convertJobState_precedence (wsStatus : Z) :
  convertJobState wsStatus = jobStatePrecedence wsStatus.
Proof.
  unfold convertJobState, jobStatePrecedence.
  rewrite !flagged_lor.
  destruct (flagged wsStatus JOB_STATUS_SPOOLING || flagged wsStatus JOB_STATUS_PRINTING);
    [reflexivity|].
  destruct (flagged wsStatus JOB_STATUS_PRINTED || flagged wsStatus JOB_STATUS_COMPLETE);
    [reflexivity|].
  destruct (flagged wsStatus JOB_STATUS_PAUSED || (wsStatus =? 0)); [reflexivity|].
  destruct (flagged wsStatus JOB_STATUS_ERROR); [reflexivity|].
  destruct (flagged wsStatus JOB_STATUS_DELETING || flagged wsStatus JOB_STATUS_DELETED);
    [reflexivity|].
  destruct (flagged wsStatus JOB_STATUS_OFFLINE || flagged wsStatus JOB_STATUS_PAPEROUT
            || flagged wsStatus JOB_STATUS_BLOCKED_DEVQ
            || flagged wsStatus JOB_STATUS_USER_INTERVENTION); reflexivity.
Qed.

(** Each statement of [convertPrinterState] keeps the invariant. *)
Lemma stoppedHasItem_setState_processing cond st :
  stoppedHasItem st -> stoppedHasItem (when cond (setState CloudDeviceStateProcessing) st).
Proof.
  unfold stoppedHasItem, when, setState. destruct cond; cbn; [discriminate | tauto].
Qed.

Lemma stoppedHasItem_stopped cond sev msg st :
  stoppedHasItem st -> stoppedHasItem (when cond (stopped sev msg) st).
Proof.
  unfold stoppedHasItem, when, stopped, appendItem, setState.
  destruct cond; cbn; [|tauto].
  intros _ _ H. apply app_eq_nil in H. destruct H as [_ H]. discriminate.
Qed.

Lemma stoppedHasItem_appendItem cond sev msg st :
  stoppedHasItem st -> stoppedHasItem (when cond (appendItem sev msg) st).
Proof.
  unfold stoppedHasItem, when, appendItem.
  destruct cond; cbn; [|tauto].
  intros _ _ H. apply app_eq_nil in H. destruct H as [_ H]. discriminate.
Qed.

Lemma printerStateItems_stoppedHasItem (wsStatus wsAttributes : Z) :
  stoppedHasItem (printerStateItems wsStatus wsAttributes).
Proof.
  unfold printerStateItems. cbv zeta.
  repeat first
    [ apply stoppedHasItem_stopped
    | apply stoppedHasItem_appendItem
    | apply stoppedHasItem_setState_processing ].
  unfold stoppedHasItem. cbn. discriminate.
Qed.

(** The vendor-state list is omitted exactly when no statement appended
    an item. *)
Lemma convertPrinterState_omitted (wsStatus wsAttributes : Z) :
  pss_VendorState (convertPrinterState wsStatus wsAttributes) = None
  <-> snd (printerStateItems wsStatus wsAttributes) = [].
Proof.
  unfold convertPrinterState. cbn.
  destruct (snd (printerStateItems wsStatus wsAttributes)) as [| item rest]; cbn.
  - tauto.
  - split; discriminate.
Qed.

(** C10: whenever [convertPrinterState] returns the stopped state, the
    returned vendor-state list is present and holds at least one item,
    namely the items the statements appended. *)
Theorem convertPrinterState_stopped_has_item (wsStatus wsAttributes : Z) :
  pss_State (convertPrinterState wsStatus wsAttributes) = CloudDeviceStateStopped ->
  exists item rest,
    pss_VendorState (convertPrinterState wsStatus wsAttributes)
      = Some {| Item := item :: rest |}
    /\ snd (printerStateItems wsStatus wsAttributes) = item :: rest.
Proof.
  intros Hstop.
  pose proof (printerStateItems_stoppedHasItem wsStatus wsAttributes) as Hinv.
  unfold convertPrinterState in *. cbn in *.
  specialize (Hinv Hstop).
  destruct (snd (printerStateItems wsStatus wsAttributes)) as [| item rest]; [contradiction|].
  exists item, rest. cbn. split; reflexivity.
Qed.

End StatusTranslatorFacts.

(** With the values of the Windows headers each job-status mask is one
    bit of the status word. *)
Example winsdk_job_status_bits (wsStatus : Z) :
  flagged wsStatus (JOB_STATUS_PAUSED (Win32 := winsdk)) = Z.testbit wsStatus 0
  /\ flagged wsStatus (JOB_STATUS_ERROR (Win32 := winsdk)) = Z.testbit wsStatus 1
  /\ flagged wsStatus (JOB_STATUS_DELETING (Win32 := winsdk)) = Z.testbit wsStatus 2
  /\ flagged wsStatus (JOB_STATUS_SPOOLING (Win32 := winsdk)) = Z.testbit wsStatus 3
  /\ flagged wsStatus (JOB_STATUS_PRINTING (Win32 := winsdk)) = Z.testbit wsStatus 4
  /\ flagged wsStatus (JOB_STATUS_OFFLINE (Win32 := winsdk)) = Z.testbit wsStatus 5
  /\ flagged wsStatus (JOB_STATUS_PAPEROUT (Win32 := winsdk)) = Z.testbit wsStatus 6
  /\ flagged wsStatus (JOB_STATUS_PRINTED (Win32 := winsdk)) = Z.testbit wsStatus 7
  /\ flagged wsStatus (JOB_STATUS_DELETED (Win32 := winsdk)) = Z.testbit wsStatus 8
  /\ flagged wsStatus (JOB_STATUS_BLOCKED_DEVQ (Win32 := winsdk)) = Z.testbit wsStatus 9
  /\ flagged wsStatus (JOB_STATUS_USER_INTERVENTION (Win32 := winsdk)) = Z.testbit wsStatus 10
  /\ flagged wsStatus (JOB_STATUS_COMPLETE (Win32 := winsdk)) = Z.testbit wsStatus 12.
Proof.
  repeat split;
    match goal with
    | |- _ = Z.testbit _ ?k => apply (flagged_bit wsStatus k); lia
    end.
Qed.

(** A paused and offline printer: stopped, with both items. *)
Lemma convertPrinterState_stopped_has_item_witness :
  pss_State (convertPrinterState (W32 := winsdk) 0x81 0) = CloudDeviceStateStopped
  /\ exists item rest,
       pss_VendorState (convertPrinterState (W32 := winsdk) 0x81 0)
         = Some {| Item := item :: rest |}
       /\ snd (printerStateItems (W32 := winsdk) 0x81 0) = item :: rest.
Proof.
  split; [reflexivity|].
  apply (convertPrinterState_stopped_has_item (W32 := winsdk) 0x81 0). reflexivity.
Defined.

(** ** CapabilityTranslator: the Color group *)

Section ColorGroupFacts.
Context {W32 : Win32}.


(** The Color group of an enumerated printer is the one the color
    block builds from the printer's device settings. *)
Lemma GetPrinters_printer_color (N : Native) (pi2 : PrinterInfo2) (printer : Printer) :
  GetPrinters_printer N pi2 = inr printer ->
  pds_Color (Description printer) = GetPrinters_color (pDevMode pi2).
Proof.
  unfold GetPrinters_printer, bindE.
  destruct (getManModel (pDriverName pi2)) as [manufacturer model1].
  destruct (GetPrinters_duplex N _ _ _) as [e | duplex]; [discriminate|].
  destruct (GetPrinters_orientation N _ _ _) as [e | orientation]; [discriminate|].
  destruct (GetPrinters_copies N _ _ _) as [e | copies]; [discriminate|].
  destruct (convertMediaSize N _ _ _) as [e | mediaSize]; [discriminate|].
  destruct (GetPrinters_collate N _ _ _) as [e | collate]; [discriminate|].
  intros [= <-]. reflexivity.
Qed.

End ColorGroupFacts.



(** ** CapabilityTranslator: media sizes *)

Section MediaSizeFacts.
Context {W32 : Win32}.






Section Loop.
Variables (defSize defLength defWidth : option Z) (names : list string) (papers sizes : list Z).





End Loop.


End MediaSizeFacts.

(** ** RenderScaler *)

(** A value within the [int32] range is its own conversion. *)
Lemma int32_in_range (z : Z) : Go.is_int32 z -> Go.int32 z = z.
Proof.
  unfold Go.is_int32, Go.int32, Go.wrapS. intros H.
  change (2 ^ (32 - 1)) with (2 ^ 31). 
  rewrite Z.mod_small; [lia|].
  change (2 ^ 32) with (2 * 2 ^ 31). lia.
Qed.

(** The comparison of binary64 values is antisymmetric. *)
Lemma SFcompare_antisym (x y : spec_float) :
  SFcompare y x = option_map CompOpp (SFcompare x y).
Proof.
  destruct x as [sx | sx | | sx mx ex], y as [sy | sy | | sy my ey]; cbn;
    try reflexivity;
    try (destruct sx; reflexivity); try (destruct sy; reflexivity);
    try (destruct sx, sy; reflexivity).
  destruct sx, sy; try reflexivity.
  - rewrite (Z.compare_antisym ex ey).
    destruct (ex ?= ey); cbn; try reflexivity.
    change (PosDef.Pos.compare_cont Eq my mx) with (Pos.compare_cont (CompOpp Eq) my mx).
    rewrite <- (Pos.compare_cont_antisym mx my Eq). reflexivity.
  - rewrite (Z.compare_antisym ex ey).
    destruct (ex ?= ey); cbn; try reflexivity.
    change (PosDef.Pos.compare_cont Eq my mx) with (Pos.compare_cont (CompOpp Eq) my mx).
    rewrite <- (Pos.compare_cont_antisym mx my Eq). reflexivity.
Qed.

(** Only NaN is incomparable. *)
Lemma SFcompare_None (x y : spec_float) :
  SFcompare x y = None <-> x = S754_nan \/ y = S754_nan.
Proof.
  destruct x, y; cbn; split; intros H; try discriminate; auto;
    destruct H; discriminate.
Qed.

Lemma isNumber_not_nan (x : float) : isNumber x -> Prim2SF x <> S754_nan.
Proof.
  unfold isNumber, PrimFloat.is_nan. rewrite FloatAxioms.eqb_spec. unfold SFeqb.
  intros H Hnan. rewrite Hnan in H. cbn in H. discriminate.
Qed.

Lemma isNumber_leb_refl (x : float) : isNumber x -> (x <=? x)%float = true.
Proof.
  unfold isNumber, PrimFloat.is_nan. rewrite FloatAxioms.eqb_spec, FloatAxioms.leb_spec. unfold SFeqb, SFleb.
  destruct (SFcompare (Prim2SF x) (Prim2SF x)) as [[| |]|]; cbn; congruence.
Qed.

Lemma ltb_leb (x y : float) : (x <? y)%float = true -> (x <=? y)%float = true.
Proof.
  rewrite FloatAxioms.ltb_spec, FloatAxioms.leb_spec. unfold SFltb, SFleb.
  destruct (SFcompare (Prim2SF x) (Prim2SF y)) as [[| |]|]; cbn; congruence.
Qed.

Lemma not_ltb_leb (x y : float) :
  isNumber x -> isNumber y -> (x <? y)%float = false -> (y <=? x)%float = true.
Proof.
  intros Hx Hy. rewrite FloatAxioms.ltb_spec, FloatAxioms.leb_spec. unfold SFltb, SFleb.
  rewrite (SFcompare_antisym (Prim2SF x) (Prim2SF y)).
  destruct (SFcompare (Prim2SF x) (Prim2SF y)) as [[| |]|] eqn:Hc; cbn; try congruence.
  apply SFcompare_None in Hc.
  destruct Hc as [Hc | Hc]; [apply isNumber_not_nan in Hx | apply isNumber_not_nan in Hy];
    contradiction.
Qed.

(** The branch of [getScaleAndOffset] that picks the scale computes a
    minimum of two numbers. *)
Lemma pick_isMin (a b : float) :
  isNumber a -> isNumber b -> isMin (if (a <? b)%float then a else b) a b.
Proof.
  intros Ha Hb. unfold isMin. destruct (a <? b)%float eqn:Hlt.
  - repeat split; [left; reflexivity | apply isNumber_leb_refl; assumption
                  | apply ltb_leb; assumption].
  - repeat split; [right; reflexivity | apply not_ltb_leb; assumption
                  | apply isNumber_leb_refl; assumption].
Qed.

(** C4: for all valid inputs (the pixel sizes times 72 fit [int32] and
    the two ratios are numbers), [getScaleAndOffset] returns as scale the
    minimum of target width over document width and target height over
    document height, the target being the printable area in points when
    fit-to-page is set and the full paper in points otherwise, and
    returns the offsets (paper - doc * scale) / 2 taken against the full
    paper size in both modes. *)
Theorem getScaleAndOffset_spec (wDocPoints hDocPoints : float)
  (wPaperPixels hPaperPixels xMarginPixels yMarginPixels
   wPrintablePixels hPrintablePixels xDPI yDPI : Z) (fitToPage : bool) :
  Go.is_int32 (wPaperPixels * 72) ->
  Go.is_int32 (hPaperPixels * 72) ->
  (fitToPage = true -> Go.is_int32 (wPrintablePixels * 72)) ->
  (fitToPage = true -> Go.is_int32 (hPrintablePixels * 72)) ->
  isNumber (targetPoints fitToPage wPrintablePixels wPaperPixels xDPI / wDocPoints)%float ->
  isNumber (targetPoints fitToPage hPrintablePixels hPaperPixels yDPI / hDocPoints)%float ->
  exists scale : float,
    getScaleAndOffset wDocPoints hDocPoints wPaperPixels hPaperPixels
      xMarginPixels yMarginPixels wPrintablePixels hPrintablePixels xDPI yDPI fitToPage
    = (scale,
       ((points wPaperPixels xDPI - wDocPoints * scale) / 2)%float,
       ((points hPaperPixels yDPI - hDocPoints * scale) / 2)%float)
    /\ isMin scale
         (targetPoints fitToPage wPrintablePixels wPaperPixels xDPI / wDocPoints)%float
         (targetPoints fitToPage hPrintablePixels hPaperPixels yDPI / hDocPoints)%float.
Proof.
  intros HwPaper HhPaper HwPrint HhPrint HxNum HyNum.
  unfold getScaleAndOffset.
  rewrite (int32_in_range _ HwPaper), (int32_in_range _ HhPaper).
  destruct fitToPage.
  - rewrite (int32_in_range _ (HwPrint eq_refl)), (int32_in_range _ (HhPrint eq_refl)).
    eexists. split; [reflexivity|].
    apply pick_isMin; assumption.
  - eexists. split; [reflexivity|].
    apply pick_isMin; assumption.
Qed.

(** An A4 page on an A4 sheet at 600 dpi, fit to the printable area:
    the scale is 0.96 and the page is centered on the sheet. *)
Lemma getScaleAndOffset_spec_witness :
  exists scale : float,
    getScaleAndOffset 595 842 4960 7016 100 100 4760 6816 600 600 true
    = (scale,
       ((points 4960 600 - 595 * scale) / 2)%float,
       ((points 7016 600 - 842 * scale) / 2)%float)
    /\ isMin scale
         (targetPoints true 4760 4960 600 / 595)%float
         (targetPoints true 6816 7016 600 / 842)%float.
Proof.
  apply (getScaleAndOffset_spec 595 842 4960 7016 100 100 4760 6816 600 600 true).
  - unfold Go.is_int32. lia.
  - unfold Go.is_int32. lia.
  - intros _. unfold Go.is_int32. lia.
  - intros _. unfold Go.is_int32. lia.
  - vm_compute. reflexivity.
  - vm_compute. reflexivity.
Defined.

(** The same page without fit-to-page: the printable area plays no
    part, and a paper width whose product with 72 leaves [int32] gives a
    negative scale, which is why the theorem asks for the range. *)
Example getScaleAndOffset_no_fit :
  getScaleAndOffset 595 842 4960 7016 100 100 4760 6816 600 600 false
  = getScaleAndOffset 595 842 4960 7016 100 100 1 1 600 600 false
  /\ (fst (fst (getScaleAndOffset 595 842 30000000 7016 100 100 4760 6816 600 600 false))
        <? 0)%float = true.
Proof. split; vm_compute; reflexivity. Qed.

(** ** CapabilityTranslator: samples *)



(** ** TicketResolver *)

Lemma int16_in_range (z : Z) : Go.is_int16 z -> Go.int16 z = z.
Proof.
  unfold Go.is_int16, Go.int16, Go.wrapS. intros H.
  change (2 ^ (16 - 1)) with (2 ^ 15).
  rewrite Z.mod_small; [lia|].
  change (2 ^ 16) with (2 * 2 ^ 15). lia.
Qed.

Lemma digit_of_range (c : ascii) (d : Z) : Go.digit_of c = Some d -> 0 <= d <= 9.
Proof.
  unfold Go.digit_of. cbv zeta.
  destruct (48 <=? Z.of_nat (nat_of_ascii c)) eqn:Hlo; [|discriminate].
  destruct (Z.of_nat (nat_of_ascii c) <=? 57) eqn:Hhi; [|discriminate].
  cbn. intros [= <-]. lia.
Qed.

Lemma digits_nonneg (s : string) :
  forall acc n, 0 <= acc -> Go.digits s acc = Some n -> 0 <= n.
Proof.
  induction s as [| c rest IH]; cbn [Go.digits]; intros acc n Hacc.
  - intros [= <-]. assumption.
  - destruct (Go.digit_of c) as [d|] eqn:Hd; [|discriminate].
    apply digit_of_range in Hd. apply IH. lia.
Qed.

(** What [strconv.ParseInt(s, 10, 16)] returns fits [int16], so the
    conversion [int16(v)] of the source keeps it. *)
Lemma ParseInt_int16 (s : string) (v : Z) :
  Go.ParseInt s 16 = Some v -> Go.is_int16 v.
Proof.
  unfold Go.ParseInt, Go.is_int16. destruct s as [| c rest]; [discriminate|].
  change (2 ^ (16 - 1)) with (2 ^ 15).
  set (sign := if Ascii.eqb c "+" then (false, rest)
               else if Ascii.eqb c "-" then (true, rest) else (false, String c rest)).
  destruct sign as [neg body].
  destruct (Go.parse_digits body) as [un|] eqn:Hun; [|discriminate].
  assert (Hnonneg : 0 <= un).
  { unfold Go.parse_digits in Hun. destruct body; [discriminate|].
    apply (digits_nonneg _ 0 un) in Hun; [assumption | lia]. }
  destruct neg; cbn [negb andb].
  - destruct (2 ^ 15 <? un) eqn:Hcut; [discriminate|].
    intros [= <-]. apply Z.ltb_ge in Hcut. lia.
  - destruct (2 ^ 15 <=? un) eqn:Hcut; [discriminate|].
    intros [= <-]. apply Z.leb_gt in Hcut. lia.
Qed.

Example ParseInt_examples :
  Go.ParseInt "9" 16 = Some 9
  /\ Go.ParseInt "+7" 16 = Some 7
  /\ Go.ParseInt "-32768" 16 = Some (-32768)
  /\ Go.ParseInt "32768" 16 = None
  /\ Go.ParseInt "" 16 = None
  /\ Go.ParseInt "-" 16 = None
  /\ Go.ParseInt "A4" 16 = None
  /\ Go.ParseInt " 9" 16 = None
  /\ Go.ParseInt "1_0" 16 = None.
Proof. repeat split; reflexivity. Qed.

Section TicketResolverFacts.
Context {W32 : Win32}.

(** After the media-size block, exactly one of the two representations
    of the paper is set: the size code with length and width cleared, or
    length and width with the size code cleared. *)
Lemma Print_mediaSize_exclusive (ticket : JobTicket) (description : PrinterDescriptionSection)
  (d d' : DevMode) :
  requested AMediaSize ticket = true ->
  advertised AMediaSize description = true ->
  Print_mediaSize ticket description d = (d', None) ->
  (exists code, setting AMediaSize d' = [Some code; None; None])
  \/ (exists length width, setting AMediaSize d' = [None; Some length; Some width]).
Proof.
  unfold requested, advertised, isSome, Print_mediaSize.
  destruct (jt_MediaSize ticket) as [tMedia|]; [|discriminate].
  destruct (pds_MediaSize description) as [ms|]; [|discriminate].
  intros _ _.
  destruct (negb (String.eqb (msti_VendorID tMedia) "")).
  - destruct (Go.ParseInt (msti_VendorID tMedia) 16) as [v|]; [|discriminate].
    intros [= <-]. left. eexists. reflexivity.
  - intros [= <-]. right. eexists. eexists. reflexivity.
Qed.

(** A non-empty vendor id that parses selects the paper by that code. *)
Lemma Print_mediaSize_by_vendor_id (ticket : JobTicket) (description : PrinterDescriptionSection)
  (d : DevMode) (tMedia : MediaSizeTicketItem) (ms : MediaSize) (v : Z) :
  jt_MediaSize ticket = Some tMedia ->
  pds_MediaSize description = Some ms ->
  msti_VendorID tMedia <> ""%string ->
  Go.ParseInt (msti_VendorID tMedia) 16 = Some v ->
  exists d', Print_mediaSize ticket description d = (d', None)
    /\ setting AMediaSize d' = [Some v; None; None].
Proof.
  intros Ht Hd Hne Hparse. unfold Print_mediaSize. rewrite Ht, Hd.
  destruct (String.eqb_spec (msti_VendorID tMedia) "") as [He | _]; [contradiction|].
  cbn. rewrite Hparse. eexists. split; [reflexivity|].
  cbn. rewrite (int16_in_range v (ParseInt_int16 _ _ Hparse)). reflexivity.
Qed.

(** An empty vendor id selects the paper by length and width: the
    ticket's micrometers divided by 10. *)
Lemma Print_mediaSize_by_size (ticket : JobTicket) (description : PrinterDescriptionSection)
  (d : DevMode) (tMedia : MediaSizeTicketItem) (ms : MediaSize) :
  jt_MediaSize ticket = Some tMedia ->
  pds_MediaSize description = Some ms ->
  msti_VendorID tMedia = ""%string ->
  exists d', Print_mediaSize ticket description d = (d', None)
    /\ setting AMediaSize d'
       = [None; Some (Go.int16 (Go.quot (msti_HeightMicrons tMedia) 10));
          Some (Go.int16 (Go.quot (msti_WidthMicrons tMedia) 10))].
Proof.
  intros Ht Hd He. unfold Print_mediaSize. rewrite Ht, Hd, He. cbn.
  eexists. split; reflexivity.
Qed.

End TicketResolverFacts.

(** C1: the ticket asks for A4 by size, 210000 by 297000 micrometers,
    on a printer that advertises media sizes.  The paper-size code is
    cleared and the length and width are set, but to 29700 and 21000,
    the micrometers divided by 10, and not to the 2970 and 2100 tenths
    of a millimeter that the division by 100 gives. *)
Theorem Print_mediaSize_a4_by_size :
  requested AMediaSize a4BySize = true
  /\ advertised AMediaSize fullDescription = true
  /\ Print_mediaSize a4BySize fullDescription colorDevMode
     = (SetPaperWidth 21000 (SetPaperLength 29700 (ClearPaperSize colorDevMode)), None)
  /\ setting AMediaSize (fst (Print_ticket (W32 := winsdk) a4BySize fullDescription colorDevMode))
     = [None; Some 29700; Some 21000]
  /\ setting AMediaSize (fst (Print_ticket (W32 := winsdk) a4BySize fullDescription colorDevMode))
     <> [None; Some (Go.quot 297000 100); Some (Go.quot 210000 100)].
Proof.
  repeat split; try reflexivity. vm_compute. discriminate.
Qed.

(** The size the capability translation publishes for A4 does not come
    back: the device reports 2100 by 2970 tenths of a millimeter,
    [convertMediaSize] publishes 210000 by 297000 micrometers, and a
    ticket that asks for this size sets the device to 21000 by 29700. *)
Example mediaSize_round_trip :
  DeviceCapabilitiesInt32Pairs okNative "Office" "USB001" (DC_PAPERSIZE (Win32 := winsdk))
  = inr [2100; 2970]
  /\ option_map (fun ms => map (fun o => (mso_WidthMicrons o, mso_HeightMicrons o))
                           (mediaSize_Option ms))
       (match convertMediaSize (W32 := winsdk) okNative "Office" "USB001" colorDevMode with
        | inr ms => ms
        | inl _ => None
        end)
     = Some [(msti_WidthMicrons (mediaTicketItem a4BySize),
              msti_HeightMicrons (mediaTicketItem a4BySize))]
  /\ setting AMediaSize (fst (Print_ticket (W32 := winsdk) a4BySize fullDescription colorDevMode))
     = [None; Some 29700; Some 21000].
Proof. repeat split; reflexivity. Qed.

Section FrameFacts.
Context {W32 : Win32}.

(** The attribute is not both requested and advertised. *)
Let idle (a : Attribute) (ticket : JobTicket) (description : PrinterDescriptionSection) : Prop :=
  advertised a description = false \/ requested a ticket = false.

Ltac frame_block :=
  intros [H | H]; revert H;
  unfold advertised, requested, isSome;
  repeat match goal with
         | |- context [match ?x with _ => _ end] => destruct x
         end;
  cbn; intros; (discriminate || reflexivity).

(** Each ticket block leaves the settings of an idle attribute alone:
    its own when it is idle, those of the other attributes always. *)
Lemma Print_color_frame a ticket description d :
  idle a ticket description ->
  setting a (fst (Print_color ticket description d)) = setting a d.
Proof. unfold idle, Print_color. destruct a; frame_block. Qed.

Lemma Print_duplex_frame a ticket description d :
  idle a ticket description ->
  setting a (Print_duplex ticket description d) = setting a d.
Proof. unfold idle, Print_duplex. destruct a; frame_block. Qed.

Lemma Print_orientation_frame a ticket description d :
  idle a ticket description ->
  setting a (Print_orientation ticket description d) = setting a d.
Proof. unfold idle, Print_orientation. destruct a; frame_block. Qed.

Lemma Print_copies_frame a ticket description d :
  idle a ticket description ->
  setting a (Print_copies ticket description d) = setting a d.
Proof. unfold idle, Print_copies. destruct a; frame_block. Qed.

Lemma Print_mediaSize_frame a ticket description d :
  idle a ticket description ->
  setting a (fst (Print_mediaSize ticket description d)) = setting a d.
Proof. unfold idle, Print_mediaSize. destruct a; frame_block. Qed.

Lemma Print_collate_frame a ticket description d :
  idle a ticket description ->
  setting a (Print_collate ticket description d) = setting a d.
Proof. unfold idle, Print_collate. destruct a; frame_block. Qed.

(** The two blocks that can fail do so only for an attribute that is
    both requested and advertised. *)
Lemma Print_color_error ticket description d err :
  snd (Print_color ticket description d) = Some err ->
  requested AColor ticket = true /\ advertised AColor description = true.
Proof.
  unfold Print_color, requested, advertised, isSome.
  destruct (jt_Color ticket), (pds_Color description); cbn; try discriminate. auto.
Qed.

Lemma Print_mediaSize_error ticket description d err :
  snd (Print_mediaSize ticket description d) = Some err ->
  requested AMediaSize ticket = true /\ advertised AMediaSize description = true.
Proof.
  unfold Print_mediaSize, requested, advertised, isSome.
  destruct (jt_MediaSize ticket), (pds_MediaSize description); cbn; try discriminate. auto.
Qed.

(** The blocks in sequence leave the settings of an idle attribute
    alone, whether they end or a block returns its error. *)
Lemma Print_ticket_frame (a : Attribute) (ticket : JobTicket)
  (description : PrinterDescriptionSection) (d : DevMode) :
  idle a ticket description ->
  setting a (fst (Print_ticket ticket description d)) = setting a d.
Proof.
  intros Hidle. unfold Print_ticket.
  pose proof (Print_color_frame a ticket description d Hidle) as Hcolor.
  destruct (Print_color ticket description d) as [d1 [err1|]]; cbn [fst snd] in *;
    [assumption|].
  pose proof (Print_duplex_frame a ticket description d1 Hidle) as Hduplex.
  pose proof (Print_orientation_frame a ticket description
                (Print_duplex ticket description d1) Hidle) as Horientation.
  pose proof (Print_copies_frame a ticket description
                (Print_orientation ticket description (Print_duplex ticket description d1))
                Hidle) as Hcopies.
  set (d4 := Print_copies ticket description
               (Print_orientation ticket description (Print_duplex ticket description d1))) in *.
  pose proof (Print_mediaSize_frame a ticket description d4 Hidle) as Hmedia.
  destruct (Print_mediaSize ticket description d4) as [d5 [err5|]]; cbn [fst snd] in *;
    [congruence|].
  rewrite (Print_collate_frame a ticket description d5 Hidle). congruence.
Qed.

(** An error of the blocks is the parse error of a color or of a media
    size that is both requested and advertised. *)
Lemma Print_ticket_error (ticket : JobTicket) (description : PrinterDescriptionSection)
  (d : DevMode) (err : error) :
  snd (Print_ticket ticket description d) = inl err ->
  exists b, (b = AColor \/ b = AMediaSize)
    /\ requested b ticket = true /\ advertised b description = true.
Proof.
  unfold Print_ticket.
  pose proof (Print_color_error ticket description d) as Hcolor.
  destruct (Print_color ticket description d) as [d1 [err1|]]; cbn [fst snd] in *.
  - intros _. exists AColor. split; [left; reflexivity | exact (Hcolor err1 eq_refl)].
  - match goal with
    | |- context [Print_mediaSize ticket description ?d4] =>
        pose proof (Print_mediaSize_error ticket description d4) as Hmedia;
        destruct (Print_mediaSize ticket description d4) as [d5 [err5|]]
    end; cbn [fst snd] in *.
    + intros _. exists AMediaSize. split; [right; reflexivity | exact (Hmedia err5 eq_refl)].
    + discriminate.
Qed.

(** C6: for every ticket attribute (color, duplex, orientation, copies,
    media size, collate) that the Description does not advertise, or
    that the ticket does not specify, the ticket blocks of [Print] leave
    the device settings of that attribute unchanged, and they raise no
    error on its account: an error of the blocks comes from another
    attribute, one that is both requested and advertised. *)
Theorem Print_ticket_unadvertised (a : Attribute) (ticket : JobTicket)
  (description : PrinterDescriptionSection) (d : DevMode) :
  advertised a description = false \/ requested a ticket = false ->
  setting a (fst (Print_ticket ticket description d)) = setting a d
  /\ forall err, snd (Print_ticket ticket description d) = inl err ->
       exists b, b <> a /\ requested b ticket = true /\ advertised b description = true.
Proof.
  intros Hidle. split; [apply Print_ticket_frame; exact Hidle|].
  intros err Herr.
  destruct (Print_ticket_error ticket description d err Herr) as [b [_ [Hr Ha]]].
  exists b. split; [|auto].
  intros ->. destruct Hidle as [H | H]; congruence.
Qed.

(** An attribute whose device settings the blocks changed is both
    specified by the ticket and advertised by the Description. *)
Corollary Print_ticket_applied_only_when_both (a : Attribute) (ticket : JobTicket)
  (description : PrinterDescriptionSection) (d : DevMode) :
  setting a (fst (Print_ticket ticket description d)) <> setting a d ->
  requested a ticket = true /\ advertised a description = true.
Proof.
  intros Hchanged.
  destruct (advertised a description) eqn:Ha, (requested a ticket) eqn:Hr; auto;
    exfalso; apply Hchanged; apply Print_ticket_frame; unfold idle; auto.
Qed.

(** A Description that advertises nothing: the blocks end without error
    and the device settings are those they started from. *)
Corollary Print_ticket_nothing_advertised (ticket : JobTicket) (d : DevMode) :
  exists fitToPage, Print_ticket ticket emptyDescription d = (d, inr fitToPage).
Proof.
  unfold Print_ticket, Print_color, Print_duplex, Print_orientation, Print_copies,
    Print_mediaSize, Print_collate, Print_fitToPage.
  cbn.
  destruct (jt_Color ticket), (jt_Duplex ticket), (jt_PageOrientation ticket),
    (jt_Copies ticket), (jt_MediaSize ticket), (jt_Collate ticket), (jt_FitToPage ticket);
    eexists; reflexivity.
Qed.

End FrameFacts.

(** The ticket asks for everything and the Description lacks the
    duplex group: the duplex setting stays what it was. *)
Lemma Print_ticket_unadvertised_witness :
  setting ADuplex (fst (Print_ticket (W32 := winsdk) busyTicket noDuplexDescription colorDevMode))
  = setting ADuplex colorDevMode
  /\ forall err,
       snd (Print_ticket (W32 := winsdk) busyTicket noDuplexDescription colorDevMode) = inl err ->
       exists b, b <> ADuplex /\ requested b busyTicket = true
                 /\ advertised b noDuplexDescription = true.
Proof.
  apply (Print_ticket_unadvertised (W32 := winsdk) ADuplex busyTicket noDuplexDescription
           colorDevMode).
  left. reflexivity.
Defined.

(** The scenarios of the specification: short-edge duplex requested on a
    printer that advertises duplex, and A4 requested by vendor id 9. *)
Example Print_ticket_short_edge :
  dmDuplex (fst (Print_ticket (W32 := winsdk) busyTicket fullDescription colorDevMode))
  = Some (DMDUP_HORIZONTAL (Win32 := winsdk)).
Proof. reflexivity. Qed.

Example Print_ticket_a4_by_vendor_id :
  setting AMediaSize (fst (Print_ticket (W32 := winsdk) a4ByVendorID fullDescription colorDevMode))
  = [Some 9; None; None].
Proof. reflexivity. Qed.

(** ** JobLifecycleManager *)

Section LifecycleFacts.
Context {W32 : Win32} (N : Native).

(** A media-size vendor id that is not an integer makes its block
    return the parse error. *)
Lemma Print_mediaSize_malformed (ticket : JobTicket) (description : PrinterDescriptionSection)
  (tMedia : MediaSizeTicketItem) (ms : MediaSize) (d : DevMode) :
  jt_MediaSize ticket = Some tMedia ->
  pds_MediaSize description = Some ms ->
  negb (String.eqb (msti_VendorID tMedia) "") = true ->
  Go.ParseInt (msti_VendorID tMedia) 16 = None ->
  Print_mediaSize ticket description d = (d, Some (NumError (msti_VendorID tMedia))).
Proof.
  intros Ht Hd Hne Hparse. unfold Print_mediaSize. rewrite Ht, Hd, Hne, Hparse. reflexivity.
Qed.

(** A malformed vendor id makes the ticket blocks return an error,
    whatever the device settings they start from. *)
Lemma Print_ticket_malformed (ticket : JobTicket) (description : PrinterDescriptionSection)
  (d : DevMode) :
  malformedVendorID ticket description = true ->
  exists d' err, Print_ticket ticket description d = (d', inl err).
Proof.
  unfold malformedVendorID. intros H. apply orb_true_iff in H.
  unfold Print_ticket.
  destruct H as [Hcolor | Hmedia].
  - unfold Print_color.
    destruct (jt_Color ticket) as [tColor|]; [|discriminate].
    destruct (pds_Color description) as [c|]; [|discriminate].
    destruct (colorValueByType (cti_Type tColor)); [discriminate|].
    apply andb_true_iff in Hcolor. destruct Hcolor as [Hne Hparse].
    rewrite Hne. destruct (Go.ParseInt (cti_VendorID tColor) 16); [discriminate|].
    eexists. eexists. reflexivity.
  - destruct (Print_color ticket description d) as [d1 [err1|]].
    + eexists. eexists. reflexivity.
    + destruct (jt_MediaSize ticket) as [tMedia|] eqn:Ht; [|discriminate].
      destruct (pds_MediaSize description) as [ms|] eqn:Hd; [|discriminate].
      apply andb_true_iff in Hmedia. destruct Hmedia as [Hne Hparse].
      destruct (Go.ParseInt (msti_VendorID tMedia) 16) eqn:Hp; [discriminate|].
      rewrite (Print_mediaSize_malformed ticket description tMedia ms _ Ht Hd Hne Hp).
      eexists. eexists. reflexivity.
Qed.






End LifecycleFacts.



(** C3: [EndDoc] fails when [free] runs, all other calls succeed.
    [Print] returns the job id; the five resources were acquired; [free]
    stopped at the failed call, so the rendering context and the surface
    were released and the device context, the printer handle and the
    document were not, and the admission slot was released all the
    same. *)
Theorem Print_EndDoc_failure_leaks :
  exists trace before,
    Print (W32 := winsdk) endDocFailsNative (Some officePrinter) "doc.pdf" "title"
      (Some emptyTicket)
    = (trace, Returned (inr 7))
    /\ trace = before ++ [Ev CContextDestroy true; Ev CSurfaceDestroy true; Ev CEndDoc false;
                          Ev CSemaphoreRelease true]
    /\ (forall r, acquired r before = true)
    /\ (forall r, released r before = false)
    /\ map (fun r => released r trace)
         [RContext; RSurface; RDeviceContext; RPrinterHandle; RDocument]
       = [true; true; false; false; false].
Proof.
  eexists. eexists. split; [vm_compute; reflexivity|].
  split; [match goal with |- ?l = ?b ++ _ => unify b (firstn 28 l) end; reflexivity|].
  split; [intros r; destruct r; reflexivity|].
  split; [intros r; destruct r; reflexivity|].
  reflexivity.
Qed.

(** ** GetJobState *)

Lemma error_eqb_eq (a b : error) : error_eqb a b = true <-> a = b.
Proof.
  destruct a, b; cbn; split; intros H; try discriminate;
    try (apply Z.eqb_eq in H; congruence);
    try (apply String.eqb_eq in H; congruence);
    try (injection H as ->; first [apply Z.eqb_refl | apply String.eqb_refl]).
Qed.

Section GetJobStateFacts.
Context {W32 : Win32} (N : Native).

(** C7: when the job lookup of [GetJobState] fails with the
    invalid-parameter error (the job no longer exists), [GetJobState]
    returns, without error, the aborted state with the
    device-action-other cause; any other lookup error is returned as the
    error of [GetJobState]. *)
Theorem GetJobState_lookup_failure (printerName : string) (jobID : Z)
  (hPrinter : HANDLE) (err : error) :
  OpenPrinter N printerName = inr hPrinter ->
  GetJob N hPrinter (Go.int32 jobID) = inl err ->
  (err = ERROR_INVALID_PARAMETER -> GetJobState N printerName jobID = inr abortedOther)
  /\ (err <> ERROR_INVALID_PARAMETER -> GetJobState N printerName jobID = inl err).
Proof.
  intros Hopen Hjob. unfold GetJobState. rewrite Hopen, Hjob.
  destruct (error_eqb err ERROR_INVALID_PARAMETER) eqn:He.
  - apply error_eqb_eq in He. split; [reflexivity | contradiction].
  - split; [|reflexivity].
    intros Heq. apply error_eqb_eq in Heq. congruence.
Qed.

(** A lookup that succeeds is translated by [convertJobState]. *)
Lemma GetJobState_found (printerName : string) (jobID : Z) (hPrinter : HANDLE) (ji1 : JobInfo1) :
  OpenPrinter N printerName = inr hPrinter ->
  GetJob N hPrinter (Go.int32 jobID) = inr ji1 ->
  GetJobState N printerName jobID
  = inr {| pjsd_State := Some (convertJobState (ji1_status ji1)) |}.
Proof.
  intros Hopen Hjob. unfold GetJobState. rewrite Hopen, Hjob. reflexivity.
Qed.

End GetJobStateFacts.

(** The spooler has purged job 7: aborted, not an error. *)
Lemma GetJobState_lookup_failure_witness :
  (Errno 87 = ERROR_INVALID_PARAMETER (Win32 := winsdk) ->
   GetJobState (W32 := winsdk) purgedNative "Office" 7 = inr abortedOther)
  /\ (Errno 87 <> ERROR_INVALID_PARAMETER (Win32 := winsdk) ->
      GetJobState (W32 := winsdk) purgedNative "Office" 7 = inl (Errno 87)).
Proof.
  apply (GetJobState_lookup_failure (W32 := winsdk) purgedNative "Office" 7 2 (Errno 87));
    reflexivity.
Defined.

(** The purged job and a refused lookup, evaluated. *)
Example GetJobState_purged_and_denied :
  GetJobState (W32 := winsdk) purgedNative "Office" 7 = inr abortedOther
  /\ GetJobState (W32 := winsdk) deniedNative "Office" 7 = inl (Errno 5).
Proof. split; reflexivity. Qed.

(** The job-status examples of the specification, on the values of the
    Windows headers. *)
Example convertJobState_examples :
  js_Type (convertJobState (W32 := winsdk) 0x8) = JobStateInProgress
  /\ js_Type (convertJobState (W32 := winsdk) 0x1000) = JobStateDone
  /\ convertJobState (W32 := winsdk) 0x2
     = setDeviceActionCause DeviceActionCausePrintFailure (setType JobStateAborted JobState_zero)
  /\ convertJobState (W32 := winsdk) 0x100
     = setUserActionCause UserActionCauseCanceled (setType JobStateAborted JobState_zero)
  /\ js_Type (convertJobState (W32 := winsdk) 0) = JobStateDone
  /\ convertJobState (W32 := winsdk) 0x2000
     = setDeviceActionCause DeviceActionCauseOther (setType JobStateAborted JobState_zero).
Proof. repeat split; reflexivity. Qed.

(** ** The resource chain when no release call fails *)

Section ReleaseOrder.
Context {W32 : Win32} (N : Native).

Lemma resourceLog_app (t1 t2 : Trace) :
  resourceLog (t1 ++ t2) = resourceLog t1 ++ resourceLog t2.
Proof. apply flat_map_app. Qed.

Lemma quiet_bindT {A B : Type} (m : T A) (k : A -> T B) :
  quiet m -> (forall a, quiet (k a)) -> quiet (bindT m k).
Proof.
  unfold quiet, bindT. destruct m as [t1 [err | a]]; cbn [fst]; intros H1 Hk; [assumption|].
  specialize (Hk a). destruct (k a) as [t2 r]. cbn [fst] in *.
  rewrite resourceLog_app, H1, Hk. reflexivity.
Qed.

Lemma quiet_defer {A : Type} (deferred : Trace) (m : T A) :
  resourceLog deferred = [] -> quiet m -> quiet (defer deferred m).
Proof.
  unfold quiet, defer. cbn [fst]. intros Hd Hm.
  rewrite resourceLog_app, Hd, Hm. reflexivity.
Qed.

Lemma quiet_page_callE (i : Z) (c : PageCall) (r : option error) : quiet (callE (CPage i c) r).
Proof. destruct r; reflexivity. Qed.

Lemma quiet_page_call {A : Type} (i : Z) (c : PageCall) (r : error + A) :
  quiet (call (CPage i c) r).
Proof. destruct r; reflexivity. Qed.

Lemma quiet_retT {A : Type} (a : A) : quiet (retT a).
Proof. reflexivity. Qed.

(** Printing a page acquires and releases nothing of the chain. *)
Lemma printPage_quiet (printerName : string) (i : Z) (c : jobContext) (fitToPage : bool) :
  quiet (printPage N printerName i c fitToPage).
Proof.
  unfold printPage.
  apply quiet_bindT; [reflexivity|]. intros _.
  apply quiet_defer; [reflexivity|].
  apply quiet_bindT; [apply quiet_page_callE|]. intros _.
  apply quiet_bindT; [apply quiet_page_callE|]. intros _.
  cbv zeta.
  apply quiet_bindT; [apply quiet_page_callE|]. intros _.
  apply quiet_bindT; [apply quiet_page_callE|]. intros _.
  apply quiet_bindT; [apply quiet_page_callE|]. intros _.
  apply quiet_defer; [unfold ignored; reflexivity|].
  apply quiet_bindT; [apply quiet_page_callE|]. intros _.
  apply quiet_bindT; [apply quiet_page_call|]. intros [wDocPoints hDocPoints].
  destruct (getScaleAndOffset _ _ _ _ _ _ _ _ _ _ _) as [[scale xOffsetPoints] yOffsetPoints].
  apply quiet_bindT; [apply quiet_page_callE|]. intros _.
  apply quiet_bindT; [apply quiet_page_callE|]. intros _.
  apply quiet_bindT; [apply quiet_page_callE|]. intros _.
  apply quiet_bindT; [reflexivity|]. intros _.
  apply quiet_bindT; [apply quiet_page_callE|]. intros _.
  apply quiet_page_callE.
Qed.

Lemma Print_pages_quiet (printerName : string) (c : jobContext) (fitToPage : bool) (n : nat) :
  forall i, quiet (Print_pages N printerName c fitToPage n i).
Proof.
  induction n as [| n IH]; intros i; cbn [Print_pages].
  - apply quiet_retT.
  - apply quiet_bindT; [apply printPage_quiet|]. intros _. apply IH.
Qed.

(** Neither do the ticket blocks, the page loop and the retain
    command. *)
Lemma Print_job_quiet (printer : Printer) (ticket : JobTicket) (c : jobContext) :
  quiet (Print_job N printer ticket c).
Proof.
  unfold Print_job.
  destruct (Print_ticket ticket (Description printer) (devMode c)) as [resolved [err | fitToPage]];
    [reflexivity|].
  cbv zeta.
  apply quiet_bindT; [apply Print_pages_quiet|]. intros _.
  apply quiet_bindT; [destruct (GetJob N _ _); reflexivity|]. intros ji1.
  apply quiet_bindT; [|intros _; apply quiet_retT].
  destruct (Z.land (ji1_status ji1) JOB_STATUS_PAUSED =? 0); [|apply quiet_retT].
  destruct (SetJobCommand N _ _ _); reflexivity.
Qed.

(** [newJobContext] acquires the chain in order; when a step fails it
    has released, in reverse order, what it had acquired. *)
Lemma newJobContext_log (printerName fileName title : string) :
  match snd (newJobContext N printerName fileName title) with
  | inr c => resourceLog (fst (newJobContext N printerName fileName title)) = map Acquire chain
  | inl _ =>
      exists k, (k <= 5)%nat
        /\ resourceLog (fst (newJobContext N printerName fileName title)) = balanced k
  end.
Proof.
  unfold newJobContext, balanced, ignored.
  destruct (PopplerDocumentNewFromFile N fileName) as [e | pDoc];
    [exists 0%nat; split; [lia | reflexivity]|].
  cbn [call bindT orElse].
  destruct (OpenPrinter N printerName) as [e | hPrinter];
    [exists 1%nat; split; [lia | reflexivity]|].
  cbn [call bindT orElse].
  destruct (DocumentPropertiesGet N hPrinter printerName) as [e | devMode];
    [exists 2%nat; split; [lia | reflexivity]|].
  cbn [call bindT orElse].
  destruct (DocumentPropertiesSet N hPrinter printerName devMode) as [e |];
    [exists 2%nat; split; [lia | reflexivity]|].
  cbn [callE bindT orElse].
  destruct (CreateDC N printerName devMode) as [e | hDC];
    [exists 2%nat; split; [lia | reflexivity]|].
  cbn [call bindT orElse].
  destruct (StartDoc N hDC title) as [e | jobID];
    [exists 3%nat; split; [lia | reflexivity]|].
  cbn [call bindT orElse].
  destruct (CairoWin32PrintingSurfaceCreate N hDC) as [e | cSurface];
    [exists 3%nat; split; [lia | reflexivity]|].
  cbn [call bindT orElse].
  destruct (CairoCreateContext N cSurface) as [e | cContext];
    [exists 4%nat; split; [lia | reflexivity]|].
  reflexivity.
Qed.

(** When no release call fails, [free] releases the whole chain in
    reverse order. *)
Lemma free_log (c : jobContext) :
  releasesSucceed N -> resourceLog (fst (free N c)) = map Release (rev chain).
Proof.
  intros (Hcontext & Hsurface & HendDoc & HdeleteDC & Hclose).
  unfold free. rewrite Hcontext, Hsurface, HendDoc, HdeleteDC, Hclose. reflexivity.
Qed.

(** X13: on a device whose release calls do not fail, every return of
    [Print] leaves this record of the slot and of the chain: the slot is
    acquired, the first [k] resources of the chain are acquired, the same
    resources are released in reverse order, and then the slot is
    released. *)
Theorem Print_releases_in_reverse_order (printer : Printer) (fileName title : string)
  (ticket : option JobTicket) :
  releasesSucceed N ->
  exists k, (k <= 5)%nat
    /\ resourceLog (fst (Print N (Some printer) fileName title ticket))
       = [SlotAcquire] ++ balanced k ++ [SlotRelease].
Proof.
  intros Hrel. unfold Print.
  destruct ticket as [ticket|]; [|exists 0%nat; split; [lia | reflexivity]].
  pose proof (newJobContext_log (Name printer) fileName title) as Hnew.
  unfold bindT, defer.
  destruct (newJobContext N (Name printer) fileName title) as [t [e | c]]; cbn [fst snd] in *.
  - destruct Hnew as [k [Hk Hlog]]. exists k. split; [assumption|].
    cbn [app fst].
    change (Ev CSemaphoreAcquire true :: t ++ [Ev CSemaphoreRelease true])
      with ([Ev CSemaphoreAcquire true] ++ t ++ [Ev CSemaphoreRelease true]).
    rewrite !resourceLog_app, Hlog. reflexivity.
  - exists 5%nat. split; [lia|].
    pose proof (Print_job_quiet printer ticket c) as Hjob. unfold quiet in Hjob.
    destruct (Print_job N printer ticket c) as [tj r]. cbn [fst snd app] in *.
    change (Ev CSemaphoreAcquire true :: (t ++ tj ++ fst (free N c)) ++ [Ev CSemaphoreRelease true])
      with ([Ev CSemaphoreAcquire true] ++ (t ++ tj ++ fst (free N c))
            ++ [Ev CSemaphoreRelease true]).
    rewrite !resourceLog_app, Hnew, Hjob, (free_log c Hrel). reflexivity.
Qed.

End ReleaseOrder.

(** * Further properties of the code *)

(** ** StatusTranslator *)

Section PrinterStateFacts.
Context {W32 : Win32}.

Lemma when_processing (cond : bool) (state : CloudDeviceState) (items : list VendorStateItem) :
  when cond (setState CloudDeviceStateProcessing) (state, items)
  = (if cond then CloudDeviceStateProcessing else state, items).
Proof. destruct cond; reflexivity. Qed.

Lemma when_stopped (cond : bool) (sev : VendorStateType) (msg : string)
  (state : CloudDeviceState) (items : list VendorStateItem) :
  when cond (stopped sev msg) (state, items)
  = (if cond then CloudDeviceStateStopped else state,
     items ++ (if cond then [vendorItem sev msg] else [])).
Proof. destruct cond; cbn; [reflexivity | rewrite app_nil_r; reflexivity]. Qed.

Lemma when_appendItem (cond : bool) (sev : VendorStateType) (msg : string)
  (state : CloudDeviceState) (items : list VendorStateItem) :
  when cond (appendItem sev msg) (state, items)
  = (state, items ++ (if cond then [vendorItem sev msg] else [])).
Proof. destruct cond; cbn; [reflexivity | rewrite app_nil_r; reflexivity]. Qed.

(** The statements of [convertPrinterState] run as a table: the state
    is decided by the stop conditions and the processing bits, the items
    are those of the conditions that hold, in the order of the table. *)
Lemma printerStateItems_table (wsStatus wsAttributes : Z) :
  printerStateItems wsStatus wsAttributes
  = (if existsb (fun b => b) (stopConditions wsStatus wsAttributes)
     then CloudDeviceStateStopped
     else if flagged wsStatus (Z.lor PRINTER_STATUS_PRINTING PRINTER_STATUS_PROCESSING)
          then CloudDeviceStateProcessing
          else CloudDeviceStateIdle,
     reportedItems (vendorItemTable wsStatus wsAttributes)).
Proof.
  unfold printerStateItems. cbv zeta.
  repeat first [rewrite when_processing | rewrite when_stopped | rewrite when_appendItem].
  unfold stopConditions, reportedItems, vendorItemTable.
  cbn [existsb flat_map fst snd].
  f_equal.
  - repeat match goal with
           | |- (if ?c then CloudDeviceStateStopped else _) = _ =>
               destruct c;
               [ rewrite ?orb_true_r; reflexivity
               | rewrite ?orb_false_r; cbn [orb] ]
           end.
    reflexivity.
  - cbn [app]. rewrite <- !app_assoc. rewrite app_nil_r. reflexivity.
Qed.

(** X1: the device state follows a fixed precedence whatever else is
    set: stopped when any stop condition holds (paused, error, pending
    deletion, paper jam, paper out, paper problem, offline or working
    offline, output bin full, not available, no toner, page punt, user
    intervention, out of memory, door open); otherwise processing when a
    printing or processing bit is set; otherwise idle. *)
Theorem convertPrinterState_precedence (wsStatus wsAttributes : Z) :
  pss_State (convertPrinterState wsStatus wsAttributes)
  = if existsb (fun b => b) (stopConditions wsStatus wsAttributes)
    then CloudDeviceStateStopped
    else if flagged wsStatus (Z.lor PRINTER_STATUS_PRINTING PRINTER_STATUS_PROCESSING)
         then CloudDeviceStateProcessing
         else CloudDeviceStateIdle.
Proof.
  unfold convertPrinterState. cbn [pss_State].
  rewrite printerStateItems_table. reflexivity.
Qed.

(** X2: every condition that holds contributes its own item, and the
    items come in the fixed order of the table, whatever the state; the
    list is omitted exactly when no condition of the table holds. *)
Theorem convertPrinterState_items (wsStatus wsAttributes : Z) :
  pss_VendorState (convertPrinterState wsStatus wsAttributes)
  = match reportedItems (vendorItemTable wsStatus wsAttributes) with
    | [] => None
    | items => Some {| Item := items |}
    end.
Proof.
  unfold convertPrinterState. cbn [pss_VendorState].
  rewrite printerStateItems_table. cbn [snd].
  destruct (reportedItems (vendorItemTable wsStatus wsAttributes)); reflexivity.
Qed.

(** A status word and an attribute word with no bit set give the idle
    state and no vendor-state list, whatever the values of the status
    constants. *)
Example convertPrinterState_zero :
  convertPrinterState 0 0
  = {| pss_State := CloudDeviceStateIdle; pss_VendorState := None |}.
Proof. reflexivity. Qed.

End PrinterStateFacts.

Section JobStateFacts.
Context {W32 : Win32} (N : Native).

Lemma convertJobState_shape (wsStatus : Z) : jobStateShape (convertJobState wsStatus).
Proof.
  unfold convertJobState.
  repeat match goal with
         | |- context [if ?c then _ else _] => destruct c
         end;
    cbn; auto.
Qed.

(** X3: whenever [GetJobState] returns without error, the state it
    returns is present and is in progress or done without a cause,
    stopped with a device-state cause only, or aborted with exactly one
    cause; queued, held and draft are never returned. *)
Theorem GetJobState_shape (printerName : string) (jobID : Z) (diff : PrintJobStateDiff) :
  GetJobState N printerName jobID = inr diff ->
  exists s, pjsd_State diff = Some s /\ jobStateShape s.
Proof.
  unfold GetJobState.
  destruct (OpenPrinter N printerName) as [e | hPrinter]; [discriminate|].
  destruct (GetJob N hPrinter (Go.int32 jobID)) as [e | ji1].
  - destruct (error_eqb e ERROR_INVALID_PARAMETER); [|discriminate].
    intros [= <-]. eexists. split; [reflexivity|]. cbn. auto.
  - intros [= <-]. eexists. split; [reflexivity|]. apply convertJobState_shape.
Qed.

End JobStateFacts.

Lemma GetJobState_shape_witness :
  exists s, pjsd_State abortedOther = Some s /\ jobStateShape s.
Proof.
  apply (GetJobState_shape (W32 := winsdk) purgedNative "Office" 7 abortedOther).
  reflexivity.
Defined.

(** ** CapabilityTranslator *)

Lemma SplitN2_no_space (s : string) :
  noSpace s = true -> Go.SplitN2 s = (s, None).
Proof.
  induction s as [| c rest IH]; cbn; [reflexivity|].
  destruct (Ascii.eqb c " "); cbn; [discriminate|].
  intros H. rewrite (IH H). reflexivity.
Qed.

Lemma SplitN2_at_space (a b : string) :
  noSpace a = true -> Go.SplitN2 (a ++ String " " b) = (a, Some b).
Proof.
  induction a as [| c rest IH]; cbn; [reflexivity|].
  destruct (Ascii.eqb c " "); cbn; [discriminate|].
  intros H. rewrite (IH H). reflexivity.
Qed.

Lemma length_positive (s : string) :
  (0 <? Z.of_nat (String.length s)) = negb (String.eqb s "").
Proof. destruct s; reflexivity. Qed.

(** X4: [getManModel] never returns an empty manufacturer or an empty
    model: a missing part is replaced by "Google" or "Cloud Printer". *)
Theorem getManModel_never_empty (driverName : string) :
  fst (getManModel driverName) <> ""%string /\ snd (getManModel driverName) <> ""%string.
Proof.
  unfold getManModel. cbv zeta. cbn [fst snd].
  destruct (Go.SplitN2 driverName) as [p0 [p1|]]; cbn [fst snd];
    rewrite ?length_positive.
  - split.
    + destruct (String.eqb_spec p0 ""); cbn; [discriminate | assumption].
    + destruct (String.eqb_spec p1 ""); cbn; [discriminate | assumption].
  - split; [|discriminate].
    destruct (String.eqb_spec p0 ""); cbn; [discriminate | assumption].
Qed.

(** X5: a driver name made of a manufacturer without a space, one
    space and a model is split back into the two: the manufacturer is the
    text before the first space and the model is all the rest, further
    spaces included. *)
Theorem getManModel_split (man model : string) :
  noSpace man = true -> man <> ""%string -> model <> ""%string ->
  getManModel (man ++ String " " model) = (man, model).
Proof.
  intros Hns Hman Hmodel. unfold getManModel. cbv zeta.
  rewrite (SplitN2_at_space man model Hns). cbn [fst snd].
  rewrite !length_positive.
  destruct (String.eqb_spec man ""); [contradiction|].
  destruct (String.eqb_spec model ""); [contradiction|].
  reflexivity.
Qed.

Lemma getManModel_split_witness :
  getManModel ("HP" ++ String " " "LaserJet 4 Plus") = ("HP"%string, "LaserJet 4 Plus"%string).
Proof.
  apply (getManModel_split "HP" "LaserJet 4 Plus"); [reflexivity | discriminate | discriminate].
Defined.

Section EnumerationFacts.
Context {W32 : Win32} (N : Native).

Lemma GetPrinters_loop_ok (pi2s : list PrinterInfo2) :
  forall (acc printers : list Printer),
    GetPrinters_loop N pi2s acc = inr printers
    <-> exists added,
          printers = acc ++ added
          /\ Forall2 (fun pi2 p => GetPrinters_printer N pi2 = inr p) pi2s added.
Proof.
  induction pi2s as [| pi2 rest IH]; intros acc printers; cbn [GetPrinters_loop].
  - split.
    + intros [= <-]. exists []. rewrite app_nil_r. split; [reflexivity | constructor].
    + intros [added [-> Hall]]. inversion Hall. rewrite app_nil_r. reflexivity.
  - unfold bindE. split.
    + destruct (GetPrinters_printer N pi2) as [e | p] eqn:Hp; [discriminate|].
      intros Hloop. apply IH in Hloop. destruct Hloop as [added [-> Hall]].
      exists (p :: added). rewrite <- app_assoc. split; [reflexivity|].
      constructor; assumption.
    + intros [added [-> Hall]]. inversion Hall as [| pi2' p rest' added' Hp Hrest]; subst.
      rewrite Hp. apply IH. exists added'. rewrite <- app_assoc. split; [reflexivity | assumption].
Qed.

(** X6: [GetPrinters] is all or nothing.  With the printers the spooler
    enumerates, it returns a list exactly when the description of every
    printer could be built, and the list then has one printer per
    enumerated printer, in the order of the enumeration; one failing
    capability query leaves no list at all. *)
Theorem GetPrinters_all_or_nothing (pi2s : list PrinterInfo2) (printers : list Printer) :
  EnumPrinters2 N = inr pi2s ->
  (GetPrinters N = inr printers
   <-> Forall2 (fun pi2 p => GetPrinters_printer N pi2 = inr p) pi2s printers).
Proof.
  intros Henum. unfold GetPrinters, bindE. rewrite Henum.
  rewrite (GetPrinters_loop_ok pi2s [] printers). cbn [app]. split.
  - intros [added [-> Hall]]. assumption.
  - intros Hall. exists printers. split; [reflexivity | assumption].
Qed.

(** What [GetPrinters] copies from the enumeration into a printer: the
    name, twice, the state translated from status and attributes, and
    the location as the one tag. *)
Lemma GetPrinters_printer_identity (pi2 : PrinterInfo2) (printer : Printer) :
  GetPrinters_printer N pi2 = inr printer ->
  Name printer = pPrinterName pi2
  /\ DefaultDisplayName printer = pPrinterName pi2
  /\ State printer = convertPrinterState (pi2_status pi2) (pi2_attributes pi2)
  /\ Tags printer = [("printer-location"%string, pLocation pi2)]
  /\ (Manufacturer printer, Model printer) = getManModel (pDriverName pi2).
Proof.
  unfold GetPrinters_printer, bindE.
  destruct (getManModel (pDriverName pi2)) as [manufacturer model1].
  destruct (GetPrinters_duplex N _ _ _) as [e | duplex]; [discriminate|].
  destruct (GetPrinters_orientation N _ _ _) as [e | orientation]; [discriminate|].
  destruct (GetPrinters_copies N _ _ _) as [e | copies]; [discriminate|].
  destruct (convertMediaSize N _ _ _) as [e | mediaSize]; [discriminate|].
  destruct (GetPrinters_collate N _ _ _) as [e | collate]; [discriminate|].
  intros [= <-]. repeat split; reflexivity.
Qed.

(** X7: the Duplex group is advertised only when the device settings
    carry a duplex field and the device answers 1 to the duplex query.
    It then offers none, long edge and short edge in that order; when the
    three native duplex codes differ, at most one option is the default,
    and none is when the active setting is not one of the three codes. *)
Theorem GetPrinters_duplex_options (printerName portName : string) (devMode : DevMode)
  (duplex : Duplex) :
  DMDUP_SIMPLEX <> DMDUP_VERTICAL ->
  DMDUP_SIMPLEX <> DMDUP_HORIZONTAL ->
  DMDUP_VERTICAL <> DMDUP_HORIZONTAL ->
  GetPrinters_duplex N printerName portName devMode = inr (Some duplex) ->
  exists def,
    GetDuplex devMode = Some def
    /\ DeviceCapabilitiesInt32 N printerName portName DC_DUPLEX = inr 1
    /\ map do_Type (duplex_Option duplex) = [DuplexNoDuplex; DuplexLongEdge; DuplexShortEdge]
    /\ map do_IsDefault (duplex_Option duplex)
       = [def =? DMDUP_SIMPLEX; def =? DMDUP_VERTICAL; def =? DMDUP_HORIZONTAL]
    /\ (duplexDefaults duplex <= 1)%nat
    /\ (duplexDefaults duplex = 0%nat
        <-> def <> DMDUP_SIMPLEX /\ def <> DMDUP_VERTICAL /\ def <> DMDUP_HORIZONTAL).
Proof.
  intros H12 H13 H23. unfold GetPrinters_duplex, bindE.
  destruct (GetDuplex devMode) as [def|]; [|discriminate].
  destruct (DeviceCapabilitiesInt32 N printerName portName DC_DUPLEX) as [e | answer];
    [discriminate|].
  destruct (Z.eqb_spec answer 1) as [-> | Hne]; [|discriminate].
  intros [= <-]. exists def.
  repeat (split; [reflexivity|]).
  unfold duplexDefaults. cbn [duplex_Option filter do_IsDefault].
  destruct (Z.eqb_spec def DMDUP_SIMPLEX) as [H1 | H1];
    destruct (Z.eqb_spec def DMDUP_VERTICAL) as [H2 | H2];
    destruct (Z.eqb_spec def DMDUP_HORIZONTAL) as [H3 | H3];
    cbn [List.length]; try congruence;
    (split; [lia|]); (split; [try discriminate; tauto | try tauto]);
    intros [? [? ?]]; contradiction.
Qed.

End EnumerationFacts.

(** Two printers in the spooler, two printers returned, in order. *)
Lemma GetPrinters_all_or_nothing_witness :
  GetPrinters (W32 := winsdk) twoPrintersNative = inr twoPrinters
  <-> Forall2 (fun pi2 p => GetPrinters_printer (W32 := winsdk) twoPrintersNative pi2 = inr p)
        [officeInfo; labelInfo] twoPrinters.
Proof.
  apply (GetPrinters_all_or_nothing (W32 := winsdk) twoPrintersNative
           [officeInfo; labelInfo] twoPrinters).
  reflexivity.
Defined.

Example GetPrinters_two_printers :
  map Name twoPrinters = ["Office"%string; "Labels"%string]
  /\ map (fun p => pss_State (State p)) twoPrinters
     = [CloudDeviceStateIdle; CloudDeviceStateStopped]
  /\ map (fun p => (Manufacturer p, Model p)) twoPrinters
     = [("HP"%string, "LaserJet 4 Plus"%string); ("Zebra"%string, "Cloud Printer"%string)].
Proof. repeat split; reflexivity. Qed.

Lemma GetPrinters_duplex_options_witness :
  exists def,
    GetDuplex colorDevMode = Some def
    /\ DeviceCapabilitiesInt32 okNative "Office" "USB001" (DC_DUPLEX (Win32 := winsdk)) = inr 1
    /\ map do_Type (duplex_Option simplexDuplex)
       = [DuplexNoDuplex; DuplexLongEdge; DuplexShortEdge]
    /\ map do_IsDefault (duplex_Option simplexDuplex)
       = [def =? DMDUP_SIMPLEX (Win32 := winsdk); def =? DMDUP_VERTICAL (Win32 := winsdk);
          def =? DMDUP_HORIZONTAL (Win32 := winsdk)]
    /\ (duplexDefaults simplexDuplex <= 1)%nat
    /\ (duplexDefaults simplexDuplex = 0%nat
        <-> def <> DMDUP_SIMPLEX (Win32 := winsdk) /\ def <> DMDUP_VERTICAL (Win32 := winsdk)
            /\ def <> DMDUP_HORIZONTAL (Win32 := winsdk)).
Proof.
  apply (GetPrinters_duplex_options (W32 := winsdk) okNative "Office" "USB001" colorDevMode
           simplexDuplex); try (cbn; discriminate).
  reflexivity.
Defined.

(** ** Media sizes and vendor ids *)

Section MediaSizeContent.
Context {W32 : Win32} (N : Native).

Lemma convertMediaSize_loop_content (defSize defLength defWidth : option Z)
  (names : list string) (papers sizes : list Z) (indices : list nat) :
  forall (options : list MediaSizeOption) (foundDef : bool),
    map optionContent
      (fst (fold_left (convertMediaSize_body defSize defLength defWidth names papers sizes)
              indices (options, foundDef)))
    = map optionContent options
      ++ map (candidateOption names papers sizes) (keptIndices names indices).
Proof.
  induction indices as [| i rest IH]; intros options foundDef; cbn -[Z.mul Nat.mul].
  - rewrite app_nil_r. reflexivity.
  - destruct (String.eqb (nth i names ""%string) "") eqn:Hname; cbn -[Z.mul Nat.mul].
    + apply IH.
    + rewrite IH. rewrite map_app, <- app_assoc. reflexivity.
Qed.

Lemma markFirstDefault_content (options : list MediaSizeOption) :
  map optionContent (markFirstDefault options) = map optionContent options.
Proof. destruct options; reflexivity. Qed.

(** X8: the media-size options are never a partial or a misaligned
    list.  When the three paper queries return lists whose lengths do not
    agree, [convertMediaSize] returns no media-size group and no error;
    when they agree, it returns one option per candidate with a
    non-empty name, in the order of the queries, each with the name, the
    vendor id and the size (times 100) found at the same index. *)
Theorem convertMediaSize_options (printerName portName : string) (devMode : DevMode)
  (names : list string) (papers sizes : list Z) :
  DeviceCapabilitiesStrings N printerName portName DC_PAPERNAMES (64 * 2) = inr names ->
  DeviceCapabilitiesUint16Array N printerName portName DC_PAPERS = inr papers ->
  DeviceCapabilitiesInt32Pairs N printerName portName DC_PAPERSIZE = inr sizes ->
  if (Z.of_nat (List.length names) =? Z.of_nat (List.length papers))
     && (Z.of_nat (List.length names) =? Z.of_nat (List.length sizes) / 2)
  then exists ms,
         convertMediaSize N printerName portName devMode = inr (Some ms)
         /\ map optionContent (mediaSize_Option ms)
            = map (candidateOption names papers sizes)
                (keptIndices names (seq 0 (List.length names)))
  else convertMediaSize N printerName portName devMode = inr None.
Proof.
  intros Hnames Hpapers Hsizes.
  unfold convertMediaSize, bindE. rewrite Hnames, Hpapers, Hsizes.
  unfold convertMediaSize_build.
  destruct (Z.of_nat (List.length names) =? Z.of_nat (List.length papers)); cbn [negb orb andb];
    [|reflexivity].
  destruct (Z.of_nat (List.length names) =? Z.of_nat (List.length sizes) / 2); cbn [negb];
    [|reflexivity].
  pose proof (convertMediaSize_loop_content (GetPaperSize devMode) (GetPaperLength devMode)
                (GetPaperWidth devMode) names papers sizes (seq 0 (List.length names)) [] false)
    as Hloop.
  destruct (fold_left _ (seq 0 (List.length names)) ([], false)) as [options foundDef].
  cbn [fst map app] in Hloop.
  eexists. split; [reflexivity|]. cbn [mediaSize_Option].
  destruct (negb foundDef && (0 <? Z.of_nat (List.length options)));
    [rewrite markFirstDefault_content|]; exact Hloop.
Qed.

End MediaSizeContent.

(** The Letter and A4 printer: two options, aligned with the queries. *)
Lemma convertMediaSize_options_witness :
  if (Z.of_nat (List.length ["Letter"%string; "A4"%string]) =? Z.of_nat (List.length [1; 9]))
     && (Z.of_nat (List.length ["Letter"%string; "A4"%string])
         =? Z.of_nat (List.length [2159; 2794; 2100; 2970]) / 2)
  then exists ms,
         convertMediaSize (W32 := winsdk) letterA4Native "Office" "USB001" colorDevMode
         = inr (Some ms)
         /\ map optionContent (mediaSize_Option ms)
            = map (candidateOption ["Letter"%string; "A4"%string] [1; 9]
                     [2159; 2794; 2100; 2970])
                (keptIndices ["Letter"%string; "A4"%string]
                   (seq 0 (List.length ["Letter"%string; "A4"%string])))
  else convertMediaSize (W32 := winsdk) letterA4Native "Office" "USB001" colorDevMode
       = inr None.
Proof.
  apply (convertMediaSize_options (W32 := winsdk) letterA4Native "Office" "USB001" colorDevMode
           ["Letter"%string; "A4"%string] [1; 9] [2159; 2794; 2100; 2970]);
    reflexivity.
Defined.

(** Names without a paper code for each, and a name that is empty. *)
Example convertMediaSize_edge_cases :
  convertMediaSize (W32 := winsdk)
    (paperNative ["Letter"%string; "A4"%string] [1] [2159; 2794; 2100; 2970])
    "Office" "USB001" colorDevMode = inr None
  /\ option_map (fun ms => map mso_VendorID (mediaSize_Option ms))
       (match convertMediaSize (W32 := winsdk)
                (paperNative ["Letter"%string; ""%string; "A4"%string] [1; 5; 9]
                   [2159; 2794; 0; 0; 2100; 2970])
                "Office" "USB001" colorDevMode with
        | inr ms => ms
        | inl _ => None
        end)
     = Some ["1"%string; "9"%string].
Proof. split; reflexivity. Qed.

(** *** Vendor ids: [FormatInt] and [ParseInt] *)

Lemma digits_of_uint_acc (d : Decimal.uint) :
  forall acc : positive,
    Go.digits (DecimalString.NilEmpty.string_of_uint d) (Z.pos acc)
    = Some (Z.pos (Pos.of_uint_acc d acc)).
Proof.
  induction d; intros acc; cbn [DecimalString.NilEmpty.string_of_uint Go.digits Pos.of_uint_acc];
    [reflexivity | ..];
    match goal with
    | |- context [Go.digit_of ?c] =>
        change (Go.digit_of c) with (Some (Z.of_nat (nat_of_ascii c) - 48))
    end;
    cbv beta iota;
    match goal with
    | |- context [Z.of_nat (nat_of_ascii ?c)] =>
        let k := eval vm_compute in (Z.of_nat (nat_of_ascii c)) in
        change (Z.of_nat (nat_of_ascii c)) with k
    end;
    match goal with
    | |- Go.digits _ ?v = Some (Z.pos (Pos.of_uint_acc _ ?a)) =>
        replace v with (Z.pos a) by lia
    end;
    apply IHd.
Qed.

Lemma digits_of_uint (d : Decimal.uint) :
  Go.digits (DecimalString.NilEmpty.string_of_uint d) 0 = Some (Z.of_N (Pos.of_uint d)).
Proof.
  induction d; cbn [DecimalString.NilEmpty.string_of_uint Go.digits Pos.of_uint];
    [reflexivity | ..];
    match goal with
    | |- context [Go.digit_of ?c] =>
        change (Go.digit_of c) with (Some (Z.of_nat (nat_of_ascii c) - 48))
    end;
    cbv beta iota.
  - exact IHd.
  - apply (digits_of_uint_acc d 1).
  - apply (digits_of_uint_acc d 2).
  - apply (digits_of_uint_acc d 3).
  - apply (digits_of_uint_acc d 4).
  - apply (digits_of_uint_acc d 5).
  - apply (digits_of_uint_acc d 6).
  - apply (digits_of_uint_acc d 7).
  - apply (digits_of_uint_acc d 8).
  - apply (digits_of_uint_acc d 9).
Qed.

Lemma string_of_uint_head (d : Decimal.uint) :
  d <> Decimal.Nil ->
  exists c rest,
    DecimalString.NilEmpty.string_of_uint d = String c rest
    /\ Ascii.eqb c "+" = false /\ Ascii.eqb c "-" = false.
Proof.
  destruct d; intros Hd; [contradiction | ..]; eexists; eexists;
    (split; [reflexivity | split; reflexivity]).
Qed.

(** The decimal text of a positive number parses back to it. *)
Lemma parse_digits_positive (p : positive) :
  exists c rest,
    DecimalString.NilZero.string_of_uint (Pos.to_uint p) = String c rest
    /\ Ascii.eqb c "+" = false /\ Ascii.eqb c "-" = false
    /\ Go.parse_digits (String c rest) = Some (Z.pos p).
Proof.
  pose proof (DecimalPos.Unsigned.to_uint_nonnil p) as Hnil.
  pose proof (DecimalPos.Unsigned.of_to p) as Hof.
  pose proof (digits_of_uint (Pos.to_uint p)) as Hdigits.
  destruct (string_of_uint_head _ Hnil) as [c [rest [Hs [Hplus Hminus]]]].
  exists c, rest.
  assert (Hzero : DecimalString.NilZero.string_of_uint (Pos.to_uint p)
                  = DecimalString.NilEmpty.string_of_uint (Pos.to_uint p)).
  { destruct (Pos.to_uint p); [contradiction | reflexivity ..]. }
  rewrite Hzero, Hs. repeat (split; [reflexivity || assumption|]).
  unfold Go.parse_digits. rewrite <- Hs, Hdigits, Hof. reflexivity.
Qed.

(** [ParseInt] reads back what [FormatInt] wrote when the number fits
    the bit size, and fails when it does not. *)
Lemma ParseInt_FormatInt (n bitSize : Z) :
  Go.ParseInt (Go.FormatInt n) bitSize
  = if (- 2 ^ (bitSize - 1) <=? n) && (n <? 2 ^ (bitSize - 1)) then Some n else None.
Proof.
  pose proof (Z.pow_nonneg 2 (bitSize - 1) ltac:(lia)) as Hcut.
  unfold Go.FormatInt, Go.ParseInt. destruct n as [| p | p]; cbn [Z.to_int DecimalString.NilZero.string_of_int].
  - cbn -[Z.pow Z.sub Z.leb Z.ltb Z.opp Go.digit_of].
    change (Go.digit_of "0") with (Some 0). cbv iota beta.
    destruct (Z.leb_spec (2 ^ (bitSize - 1)) 0); destruct (Z.leb_spec (- 2 ^ (bitSize - 1)) 0);
      destruct (Z.ltb_spec 0 (2 ^ (bitSize - 1))); cbn; try reflexivity; lia.
  - destruct (parse_digits_positive p) as [c [rest [-> [-> [-> ->]]]]].
    cbv zeta. cbn [negb andb].
    destruct (Z.leb_spec (2 ^ (bitSize - 1)) (Z.pos p));
      destruct (Z.leb_spec (- 2 ^ (bitSize - 1)) (Z.pos p));
      destruct (Z.ltb_spec (Z.pos p) (2 ^ (bitSize - 1))); cbn; try reflexivity; lia.
  - cbn [Ascii.eqb Bool.eqb andb]. cbv iota.
    destruct (parse_digits_positive p) as [c [rest [-> [_ [_ ->]]]]].
    cbv zeta. cbn [negb andb].
    destruct (Z.ltb_spec (2 ^ (bitSize - 1)) (Z.pos p));
      destruct (Z.leb_spec (- 2 ^ (bitSize - 1)) (Z.neg p));
      destruct (Z.ltb_spec (Z.neg p) (2 ^ (bitSize - 1))); cbn; try reflexivity; lia.
Qed.

Lemma FormatInt_not_empty (n : Z) : String.eqb (Go.FormatInt n) "" = false.
Proof.
  unfold Go.FormatInt. destruct n as [| p | p]; cbn [Z.to_int DecimalString.NilZero.string_of_int];
    try reflexivity.
  destruct (parse_digits_positive p) as [c [rest [-> _]]]. reflexivity.
Qed.

Section VendorIDFacts.
Context {W32 : Win32} (N : Native).

(** X9: the vendor id [convertMediaSize] publishes for a paper code
    below 32768 (the decimal text of the code) comes back: a ticket that
    carries it makes the media-size block of [Print] select exactly that
    paper code, length and width cleared. *)
Theorem Print_mediaSize_published_vendor_id (ticket : JobTicket)
  (description : PrinterDescriptionSection) (d : DevMode)
  (tMedia : MediaSizeTicketItem) (ms : MediaSize) (paper : Z) :
  jt_MediaSize ticket = Some tMedia ->
  pds_MediaSize description = Some ms ->
  msti_VendorID tMedia = Go.FormatInt paper ->
  0 <= paper < 2 ^ 15 ->
  exists d', Print_mediaSize ticket description d = (d', None)
    /\ setting AMediaSize d' = [Some paper; None; None].
Proof.
  intros Ht Hd Hid Hrange.
  apply (Print_mediaSize_by_vendor_id ticket description d tMedia ms paper Ht Hd).
  - intros Hempty. pose proof (FormatInt_not_empty paper) as Hne.
    rewrite <- Hid, Hempty in Hne. discriminate.
  - rewrite Hid, ParseInt_FormatInt. change (2 ^ (16 - 1)) with (2 ^ 15).
    destruct (Z.leb_spec (- 2 ^ 15) paper); destruct (Z.ltb_spec paper (2 ^ 15));
      cbn; try reflexivity; lia.
Qed.

(** An error of the ticket blocks is the error of [Print]. *)
Lemma Print_aborts_on_ticket_error (printer : Printer) (fileName title : string)
  (ticket : JobTicket) :
  (forall d, exists d' err, Print_ticket ticket (Description printer) d = (d', inl err)) ->
  exists err, snd (Print N (Some printer) fileName title (Some ticket)) = Returned (inl err).
Proof.
  intros Hticket. unfold Print, bindT, defer.
  destruct (newJobContext N (Name printer) fileName title) as [t [e | c]]; cbn [fst snd].
  - exists e. reflexivity.
  - destruct (Hticket (devMode c)) as [d' [err Hprint]].
    exists err. unfold Print_job. rewrite Hprint. reflexivity.
Qed.

(** X10: a paper code of 32768 or more cannot be printed by its vendor
    id.  [convertMediaSize] publishes the decimal text of the unsigned
    16-bit code, [Print] parses the vendor id as a signed 16-bit integer:
    the parse fails and the submission is aborted. *)
Theorem Print_high_paper_code_aborts (printer : Printer) (fileName title : string)
  (ticket : JobTicket) (tMedia : MediaSizeTicketItem) (ms : MediaSize) (paper : Z) :
  jt_MediaSize ticket = Some tMedia ->
  pds_MediaSize (Description printer) = Some ms ->
  msti_VendorID tMedia = Go.FormatInt paper ->
  2 ^ 15 <= paper ->
  exists err, snd (Print N (Some printer) fileName title (Some ticket)) = Returned (inl err).
Proof.
  intros Ht Hd Hid Hrange.
  apply Print_aborts_on_ticket_error. intros d.
  apply Print_ticket_malformed.
  unfold malformedVendorID. rewrite Ht, Hd, Hid, FormatInt_not_empty, ParseInt_FormatInt.
  change (2 ^ (16 - 1)) with (2 ^ 15).
  destruct (Z.ltb_spec paper (2 ^ 15)); [lia|].
  rewrite andb_false_r. cbn. apply orb_true_r.
Qed.

End VendorIDFacts.

(** Paper code 9 comes back from its vendor id. *)
Lemma Print_mediaSize_published_vendor_id_witness :
  exists d', Print_mediaSize a4ByVendorID fullDescription colorDevMode = (d', None)
    /\ setting AMediaSize d' = [Some 9; None; None].
Proof.
  apply (Print_mediaSize_published_vendor_id a4ByVendorID fullDescription colorDevMode
           (mediaTicketItem a4ByVendorID)
           {| mediaSize_Option :=
                [ {| mso_Name := MediaSizeCustom; mso_WidthMicrons := 210000;
                     mso_HeightMicrons := 297000; mso_IsDefault := true; mso_VendorID := "9";
                     mso_CustomDisplayNameLocalized := "A4"%string |} ] |}
           9); try reflexivity.
  change (2 ^ 15) with 32768. lia.
Defined.

(** Paper code 40000 is published as "40000" and cannot be printed. *)
Lemma Print_high_paper_code_aborts_witness :
  exists err,
    snd (Print (W32 := winsdk) okNative (Some officePrinter) "doc.pdf" "title"
           (Some (vendorIDTicket "40000")))
    = Returned (inl err).
Proof.
  apply (Print_high_paper_code_aborts (W32 := winsdk) okNative officePrinter "doc.pdf" "title"
           (vendorIDTicket "40000") (mediaTicketItem (vendorIDTicket "40000"))
           {| mediaSize_Option :=
                [ {| mso_Name := MediaSizeCustom; mso_WidthMicrons := 210000;
                     mso_HeightMicrons := 297000; mso_IsDefault := true; mso_VendorID := "9";
                     mso_CustomDisplayNameLocalized := "A4"%string |} ] |}
           40000); try reflexivity.
  change (2 ^ 15) with 32768. lia.
Defined.

(** ** JobLifecycleManager: opening, freeing, pages *)

Lemma allCalls_app (kind : Call -> bool) (t1 t2 : Trace) :
  allCalls kind t1 -> allCalls kind t2 -> allCalls kind (t1 ++ t2).
Proof. unfold allCalls. intros H1 H2. apply Forall_app. split; assumption. Qed.

Lemma allCalls_silent {X : Type} (kind : Call -> bool) (f : Event -> list X) (t : Trace) :
  (forall e, kind (ev_call e) = true -> f e = []) ->
  allCalls kind t -> flat_map f t = [].
Proof.
  intros Hf Hall. induction Hall as [| e t He _ IH]; cbn; [reflexivity|].
  rewrite (Hf e He), IH. reflexivity.
Qed.

Lemma allCalls_bindT {A B : Type} (kind : Call -> bool) (m : T A) (k : A -> T B) :
  allCalls kind (fst m) -> (forall a, allCalls kind (fst (k a))) ->
  allCalls kind (fst (bindT m k)).
Proof.
  unfold bindT. destruct m as [t1 [err | a]]; cbn [fst]; intros H1 Hk; [assumption|].
  specialize (Hk a). destruct (k a) as [t2 r]. cbn [fst] in *.
  apply allCalls_app; assumption.
Qed.

Lemma allCalls_defer {A : Type} (kind : Call -> bool) (deferred : Trace) (m : T A) :
  allCalls kind deferred -> allCalls kind (fst m) -> allCalls kind (fst (defer deferred m)).
Proof. unfold defer. cbn [fst]. intros Hd Hm. apply allCalls_app; assumption. Qed.

Lemma allCalls_orElse {A : Type} (kind : Call -> bool) (m : T A) (cleanup : Trace) :
  allCalls kind (fst m) -> allCalls kind cleanup -> allCalls kind (fst (orElse m cleanup)).
Proof.
  unfold orElse. destruct m as [t [err | a]]; cbn [fst]; intros Hm Hc;
    [apply allCalls_app|]; assumption.
Qed.

Lemma allCalls_call {A : Type} (kind : Call -> bool) (c : Call) (r : error + A) :
  kind c = true -> allCalls kind (fst (call c r)).
Proof. intros Hc. destruct r; repeat constructor; exact Hc. Qed.

Lemma allCalls_callE (kind : Call -> bool) (c : Call) (r : option error) :
  kind c = true -> allCalls kind (fst (callE c r)).
Proof. intros Hc. destruct r; repeat constructor; exact Hc. Qed.

Lemma allCalls_ignored (kind : Call -> bool) (c : Call) (r : option error) :
  kind c = true -> allCalls kind (ignored c r).
Proof. intros Hc. repeat constructor. exact Hc. Qed.

Lemma allCalls_one (kind : Call -> bool) (c : Call) (ok : bool) :
  kind c = true -> allCalls kind [Ev c ok].
Proof. intros Hc. repeat constructor. exact Hc. Qed.

Ltac all_calls :=
  repeat first
    [ apply allCalls_bindT; [|intros ?]
    | apply allCalls_defer
    | apply allCalls_orElse
    | apply allCalls_app
    | apply allCalls_call; reflexivity
    | apply allCalls_callE; reflexivity
    | apply allCalls_ignored; reflexivity
    | apply allCalls_one; reflexivity
    | apply Forall_nil ].

Section OpenAndFree.
Context {W32 : Win32} (N : Native).

(** [newJobContext] and [free] make no other calls than those that
    open and close the job context. *)
Lemma newJobContext_setup (printerName fileName title : string) :
  allCalls setupCall (fst (newJobContext N printerName fileName title)).
Proof. unfold newJobContext, retT. all_calls. Qed.

Lemma free_setup (c : jobContext) : allCalls setupCall (fst (free N c)).
Proof. unfold free. all_calls. Qed.

(** [printPage] makes calls for its page only. *)
Lemma printPage_pageCalls (printerName : string) (i : Z) (c : jobContext) (fitToPage : bool) :
  allCalls (pageCall i) (fst (printPage N printerName i c fitToPage)).
Proof.
  unfold printPage. cbv zeta.
  repeat first
    [ apply allCalls_bindT; [|intros ?]
    | apply allCalls_defer
    | apply allCalls_callE; cbn; apply Z.eqb_refl
    | apply allCalls_call; cbn; apply Z.eqb_refl
    | apply allCalls_ignored; cbn; apply Z.eqb_refl
    | apply allCalls_one; cbn; apply Z.eqb_refl
    | match goal with
      | |- context [let '(_, _) := ?p in _] => destruct p
      end ].
Qed.

(** X11: when [newJobContext] fails it has already released, in
    reverse order of acquisition, every resource it had acquired, and has
    ended the document if it had started it, whatever the release calls
    returned; when it succeeds, the five resources are acquired in the
    order document, printer handle, device context, surface, rendering
    context, the document is started, and nothing is released. *)
Theorem newJobContext_unwinds (printerName fileName title : string) :
  match snd (newJobContext N printerName fileName title) with
  | inr c =>
      resourceLog (fst (newJobContext N printerName fileName title)) = map Acquire chain
      /\ docBrackets (fst (newJobContext N printerName fileName title)) = [DocStarted]
  | inl _ =>
      exists k, (k <= 4)%nat
        /\ resourceLog (fst (newJobContext N printerName fileName title)) = balanced k
        /\ (docBrackets (fst (newJobContext N printerName fileName title)) = []
            \/ docBrackets (fst (newJobContext N printerName fileName title))
               = [DocStarted; DocEnded])
  end.
Proof.
  unfold newJobContext, balanced, ignored.
  destruct (PopplerDocumentNewFromFile N fileName) as [e | pDoc];
    [exists 0%nat; split; [lia | split; [reflexivity | left; reflexivity]]|].
  cbn [call bindT orElse].
  destruct (OpenPrinter N printerName) as [e | hPrinter];
    [exists 1%nat; split; [lia | split; [reflexivity | left; reflexivity]]|].
  cbn [call bindT orElse].
  destruct (DocumentPropertiesGet N hPrinter printerName) as [e | devMode];
    [exists 2%nat; split; [lia | split; [reflexivity | left; reflexivity]]|].
  cbn [call bindT orElse].
  destruct (DocumentPropertiesSet N hPrinter printerName devMode) as [e |];
    [exists 2%nat; split; [lia | split; [reflexivity | left; reflexivity]]|].
  cbn [callE bindT orElse].
  destruct (CreateDC N printerName devMode) as [e | hDC];
    [exists 2%nat; split; [lia | split; [reflexivity | left; reflexivity]]|].
  cbn [call bindT orElse].
  destruct (StartDoc N hDC title) as [e | jobID];
    [exists 3%nat; split; [lia | split; [reflexivity | left; reflexivity]]|].
  cbn [call bindT orElse].
  destruct (CairoWin32PrintingSurfaceCreate N hDC) as [e | cSurface];
    [exists 3%nat; split; [lia | split; [reflexivity | right; reflexivity]]|].
  cbn [call bindT orElse].
  destruct (CairoCreateContext N cSurface) as [e | cContext];
    [exists 4%nat; split; [lia | split; [reflexivity | right; reflexivity]]|].
  split; reflexivity.
Qed.

(** X12: [free] makes its release calls in the order rendering
    context, surface, end of document, device context, printer handle,
    document, and stops at the first one that fails: it returns that
    error and makes none of the later calls.  It returns no error only
    after all six calls. *)
Theorem free_stops_at_first_failure (c : jobContext) :
  match snd (free N c) with
  | inr _ => fst (free N c) = map (fun call => Ev call true) freeCalls
  | inl _ =>
      exists n, (n < 5)%nat
        /\ fst (free N c)
           = map (fun call => Ev call true) (firstn n freeCalls)
             ++ [Ev (nth n freeCalls CUnref) false]
  end.
Proof.
  unfold free, freeCalls.
  destruct (CairoContext_Destroy N (cContext c));
    [exists 0%nat; split; [lia | reflexivity]|].
  destruct (CairoSurface_Destroy N (cSurface c));
    [exists 1%nat; split; [lia | reflexivity]|].
  destruct (EndDoc N (hDC c));
    [exists 2%nat; split; [lia | reflexivity]|].
  destruct (DeleteDC N (hDC c));
    [exists 3%nat; split; [lia | reflexivity]|].
  destruct (ClosePrinter N (hPrinter c));
    [exists 4%nat; split; [lia | reflexivity]|].
  reflexivity.
Qed.

End OpenAndFree.

(** A run on the sample device, whose release calls all succeed. *)
Lemma Print_releases_in_reverse_order_witness :
  exists k, (k <= 5)%nat
    /\ resourceLog (fst (Print (W32 := winsdk) okNative (Some officePrinter) "doc.pdf" "title"
                           (Some busyTicket)))
       = [SlotAcquire] ++ balanced k ++ [SlotRelease].
Proof.
  apply (Print_releases_in_reverse_order (W32 := winsdk) okNative officePrinter "doc.pdf"
           "title" (Some busyTicket)).
  repeat split.
Defined.

Section PageFacts.
Context {W32 : Win32} (N : Native).

Ltac page_stops started rendered :=
  exists started, rendered; cbn; repeat split; (reflexivity || discriminate).

(** The outline of [printPage]: whether the page was started and
    whether it was rendered. *)
Lemma printPage_outline (printerName : string) (i : Z) (c : jobContext) (fitToPage : bool) :
  exists started rendered : bool,
    pageBrackets (fst (printPage N printerName i c fitToPage))
    = (if started
       then [PageTaken i; PageStarted i; PageEnded i; PageGivenBack i]
       else [PageTaken i; PageGivenBack i])
    /\ renderedPages (fst (printPage N printerName i c fitToPage))
       = (if rendered then [i] else [])
    /\ (snd (printPage N printerName i c fitToPage) = inr tt ->
        started = true /\ rendered = true)
    /\ (rendered = true -> started = true).
Proof.
  unfold printPage, ignored. cbv zeta.
  destruct (page_DocumentPropertiesSet N i (hPrinter c) printerName (devMode c));
    [page_stops false false|].
  destruct (ResetDC N i (hDC c) (devMode c)); [page_stops false false|].
  destruct (SetGraphicsMode N i (hDC c) GM_ADVANCED); [page_stops false false|].
  destruct (SetWorldTransform N i (hDC c)); [page_stops false false|].
  destruct (StartPage N i (hDC c)); [page_stops false false|].
  destruct (Save N i (cContext c)); [page_stops true false|].
  destruct (GetSize N (pDoc c) i) as [e | [wDocPoints hDocPoints]]; [page_stops true false|].
  cbn [bindT call callE defer fst snd app].
  destruct (getScaleAndOffset _ _ _ _ _ _ _ _ _ _ _) as [[scale xOffsetPoints] yOffsetPoints].
  destruct (IdentityMatrix N i (cContext c)); [page_stops true false|].
  destruct (Translate N i (cContext c) xOffsetPoints yOffsetPoints); [page_stops true false|].
  destruct (Scale N i (cContext c) scale scale); [page_stops true false|].
  destruct (Restore N i (cContext c)); [page_stops true true|].
  destruct (ShowPage N i (cSurface c)); page_stops true true.
Qed.

(** X14: on every path through [printPage] the page handle it takes is
    given back, and the page is ended exactly when it was started: the
    calls are either take and give back, or take, start, end and give
    back, the latter whenever [printPage] returns without error. *)
Theorem printPage_brackets (printerName : string) (i : Z) (c : jobContext) (fitToPage : bool) :
  exists started : bool,
    pageBrackets (fst (printPage N printerName i c fitToPage))
    = (if started
       then [PageTaken i; PageStarted i; PageEnded i; PageGivenBack i]
       else [PageTaken i; PageGivenBack i])
    /\ (snd (printPage N printerName i c fitToPage) = inr tt -> started = true).
Proof.
  destruct (printPage_outline printerName i c fitToPage)
    as [started [rendered [Hb [_ [Hok _]]]]].
  exists started. split; [exact Hb|]. intros H. apply (Hok H).
Qed.

End PageFacts.

Section PrintFacts.
Context {W32 : Win32} (N : Native).

Lemma renderedPages_app (t1 t2 : Trace) :
  renderedPages (t1 ++ t2) = renderedPages t1 ++ renderedPages t2.
Proof. apply flat_map_app. Qed.

Lemma jobCommands_app (t1 t2 : Trace) :
  jobCommands (t1 ++ t2) = jobCommands t1 ++ jobCommands t2.
Proof. apply flat_map_app. Qed.

Lemma setup_renders_nothing (t : Trace) : allCalls setupCall t -> renderedPages t = [].
Proof.
  apply allCalls_silent. intros [c ok]. destruct c; cbn; intros H; (discriminate || reflexivity).
Qed.

Lemma setup_commands_nothing (t : Trace) : allCalls setupCall t -> jobCommands t = [].
Proof.
  apply allCalls_silent. intros [c ok]. destruct c; cbn; intros H; (discriminate || reflexivity).
Qed.

Lemma pages_command_nothing (t : Trace) : allCalls anyPageCall t -> jobCommands t = [].
Proof.
  apply allCalls_silent. intros [c ok]. destruct c; cbn; intros H; (discriminate || reflexivity).
Qed.

Lemma printPage_anyPage (printerName : string) (i : Z) (c : jobContext) (fitToPage : bool) :
  allCalls anyPageCall (fst (printPage N printerName i c fitToPage)).
Proof.
  eapply Forall_impl; [|apply (printPage_pageCalls N printerName i c fitToPage)].
  intros [call ok]. destruct call; cbn; intros H; (discriminate || reflexivity).
Qed.

Lemma Print_pages_anyPage (printerName : string) (c : jobContext) (fitToPage : bool) (n : nat) :
  forall i, allCalls anyPageCall (fst (Print_pages N printerName c fitToPage n i)).
Proof.
  induction n as [| n IH]; intros i; cbn [Print_pages].
  - apply Forall_nil.
  - apply allCalls_bindT; [apply printPage_anyPage | intros _; apply IH].
Qed.

(** The page loop renders the pages in increasing order from the
    first, stops at the first page that fails, and has rendered all of
    them when it returns without error. *)
Lemma Print_pages_rendered (printerName : string) (c : jobContext) (fitToPage : bool) (n : nat) :
  forall i,
    exists k, (k <= n)%nat
      /\ renderedPages (fst (Print_pages N printerName c fitToPage n i)) = pageRange k i
      /\ (snd (Print_pages N printerName c fitToPage n i) = inr tt -> k = n).
Proof.
  induction n as [| n IH]; intros i; cbn [Print_pages].
  - exists 0%nat. repeat split. lia.
  - destruct (printPage_outline N printerName i c fitToPage)
      as [started [rendered [_ [Hr [Hok _]]]]].
    unfold bindT.
    destruct (printPage N printerName i c fitToPage) as [t1 [e | []]]; cbn [fst snd] in *.
    + destruct rendered.
      * exists 1%nat. split; [lia|]. split; [exact Hr | discriminate].
      * exists 0%nat. split; [lia|]. split; [exact Hr | discriminate].
    + destruct (Hok eq_refl) as [_ ->].
      destruct (IH (i + 1)) as [k [Hk [Hpages Hall]]].
      destruct (Print_pages N printerName c fitToPage n (i + 1)) as [t2 r2]. cbn [fst snd] in *.
      exists (S k). split; [lia|]. split.
      * rewrite renderedPages_app, Hr, Hpages. reflexivity.
      * intros H. rewrite (Hall H). reflexivity.
Qed.

(** What the statements of [Print] after [newJobContext] leave in the
    trace: the pages rendered, and the job command. *)
Lemma Print_job_outline (printer : Printer) (ticket : JobTicket) (c : jobContext) :
  exists k, (k <= Z.to_nat (GetNPages N (pDoc c)))%nat
    /\ renderedPages (fst (Print_job N printer ticket c)) = pageRange k 0
    /\ match snd (Print_job N printer ticket c) with
       | inr id =>
           k = Z.to_nat (GetNPages N (pDoc c))
           /\ id = Go.uint32 (jobID c)
           /\ exists ji1,
                GetJob N (hPrinter c) (jobID c) = inr ji1
                /\ jobCommands (fst (Print_job N printer ticket c))
                   = if Z.land (ji1_status ji1) JOB_STATUS_PAUSED =? 0
                     then [(JOB_CONTROL_RETAIN, true)] else []
       | inl _ =>
           jobCommands (fst (Print_job N printer ticket c)) = []
           \/ jobCommands (fst (Print_job N printer ticket c)) = [(JOB_CONTROL_RETAIN, false)]
       end.
Proof.
  unfold Print_job.
  destruct (Print_ticket ticket (Description printer) (devMode c)) as [resolved [err | fitToPage]].
  - exists 0%nat. split; [lia|]. split; [reflexivity | left; reflexivity].
  - cbv zeta. cbn [pDoc hPrinter jobID withDevMode].
    destruct (Print_pages_rendered (Name printer) (withDevMode resolved c) fitToPage
                (Z.to_nat (GetNPages N (pDoc c))) 0) as [k [Hk [Hpages Hall]]].
    pose proof (pages_command_nothing _
                  (Print_pages_anyPage (Name printer) (withDevMode resolved c) fitToPage
                     (Z.to_nat (GetNPages N (pDoc c))) 0)) as Hquiet.
    unfold bindT.
    destruct (Print_pages N (Name printer) (withDevMode resolved c) fitToPage
                (Z.to_nat (GetNPages N (pDoc c))) 0) as [tp [e | []]]; cbn [fst snd] in *.
    + exists k. split; [exact Hk|]. split; [exact Hpages | left; exact Hquiet].
    + exists k. split; [exact Hk|].
      destruct (GetJob N (hPrinter c) (jobID c)) as [e | ji1]; cbn [call fst snd].
      * split; [rewrite renderedPages_app, Hpages; cbn; apply app_nil_r|].
        left. rewrite jobCommands_app, Hquiet. reflexivity.
      * destruct (Z.land (ji1_status ji1) JOB_STATUS_PAUSED =? 0) eqn:Hpaused.
        -- destruct (SetJobCommand N (hPrinter c) (jobID c) JOB_CONTROL_RETAIN);
             cbn [callE retT fst snd app].
           ++ split; [rewrite renderedPages_app, Hpages; cbn; apply app_nil_r|].
              right. rewrite jobCommands_app, Hquiet. reflexivity.
           ++ split; [rewrite renderedPages_app, Hpages; cbn; apply app_nil_r|].
              split; [exact (Hall eq_refl)|]. split; [reflexivity|].
              exists ji1. split; [reflexivity|].
              rewrite Hpaused, jobCommands_app, Hquiet. reflexivity.
        -- cbn [retT fst snd app].
           split; [rewrite renderedPages_app, Hpages; cbn; apply app_nil_r|].
           split; [exact (Hall eq_refl)|]. split; [reflexivity|].
           exists ji1. split; [reflexivity|].
           rewrite Hpaused, jobCommands_app, Hquiet. reflexivity.
Qed.

(** The trace of [Print] around the trace of [Print_job]. *)
Lemma Print_with_context (printer : Printer) (fileName title : string) (ticket : JobTicket)
  (c : jobContext) :
  snd (newJobContext N (Name printer) fileName title) = inr c ->
  Print N (Some printer) fileName title (Some ticket)
  = ([Ev CSemaphoreAcquire true]
       ++ fst (newJobContext N (Name printer) fileName title)
       ++ fst (Print_job N printer ticket c)
       ++ fst (free N c)
       ++ [Ev CSemaphoreRelease true],
     Returned (snd (Print_job N printer ticket c))).
Proof.
  intros Hc. unfold Print, bindT, defer.
  destruct (newJobContext N (Name printer) fileName title) as [t [e | c']]; cbn [fst snd] in *;
    [discriminate|].
  injection Hc as ->.
  destruct (Print_job N printer ticket c) as [tj r]. cbn [fst snd app].
  rewrite <- !app_assoc. reflexivity.
Qed.

Lemma Print_without_context (printer : Printer) (fileName title : string) (ticket : JobTicket)
  (err : error) :
  snd (newJobContext N (Name printer) fileName title) = inl err ->
  Print N (Some printer) fileName title (Some ticket)
  = ([Ev CSemaphoreAcquire true]
       ++ fst (newJobContext N (Name printer) fileName title)
       ++ [Ev CSemaphoreRelease true],
     Returned (inl err)).
Proof.
  intros Hc. unfold Print, bindT, defer.
  destruct (newJobContext N (Name printer) fileName title) as [t [e | c']]; cbn [fst snd] in *;
    [|discriminate].
  injection Hc as ->. reflexivity.
Qed.

(** X15: [Print] renders the pages of the document in increasing index
    order from page 0, without a gap, and stops at the first failure;
    when it returns a job id, every page of the document was rendered. *)
Theorem Print_renders_pages_in_order (printer : Printer) (fileName title : string)
  (ticket : JobTicket) :
  exists k,
    renderedPages (fst (Print N (Some printer) fileName title (Some ticket))) = pageRange k 0
    /\ (forall c, snd (newJobContext N (Name printer) fileName title) = inr c ->
        (k <= Z.to_nat (GetNPages N (pDoc c)))%nat)
    /\ (forall id, snd (Print N (Some printer) fileName title (Some ticket)) = Returned (inr id) ->
        exists c, snd (newJobContext N (Name printer) fileName title) = inr c
                  /\ k = Z.to_nat (GetNPages N (pDoc c))).
Proof.
  pose proof (setup_renders_nothing _ (newJobContext_setup N (Name printer) fileName title))
    as Hnew.
  destruct (snd (newJobContext N (Name printer) fileName title)) as [e | c] eqn:Hc.
  - exists 0%nat. rewrite (Print_without_context printer fileName title ticket e Hc).
    cbn [fst snd]. rewrite !renderedPages_app, Hnew.
    split; [reflexivity|]. split; [discriminate | discriminate].
  - destruct (Print_job_outline printer ticket c) as [k [Hk [Hpages Hres]]].
    exists k. rewrite (Print_with_context printer fileName title ticket c Hc).
    cbn [fst snd]. rewrite !renderedPages_app, Hnew, Hpages.
    rewrite (setup_renders_nothing _ (free_setup N c)).
    split; [cbn; apply app_nil_r|]. split.
    + intros c' [= <-]. exact Hk.
    + intros id [= Hid]. exists c. split; [reflexivity|].
      rewrite Hid in Hres. destruct Hres as [-> _]. reflexivity.
Qed.

(** X16: when [Print] returns a job id, it is the id [StartDoc] gave,
    the job status was read, and the one job command of the run is a
    successful retain if the job was not paused and none at all if it
    was: a paused job is never retained. *)
Theorem Print_success_retains (printer : Printer) (fileName title : string)
  (ticket : JobTicket) (id : Z) :
  snd (Print N (Some printer) fileName title (Some ticket)) = Returned (inr id) ->
  exists c ji1,
    snd (newJobContext N (Name printer) fileName title) = inr c
    /\ id = Go.uint32 (jobID c)
    /\ GetJob N (hPrinter c) (jobID c) = inr ji1
    /\ jobCommands (fst (Print N (Some printer) fileName title (Some ticket)))
       = if Z.land (ji1_status ji1) JOB_STATUS_PAUSED =? 0
         then [(JOB_CONTROL_RETAIN, true)] else [].
Proof.
  pose proof (setup_commands_nothing _ (newJobContext_setup N (Name printer) fileName title))
    as Hnew.
  destruct (snd (newJobContext N (Name printer) fileName title)) as [e | c] eqn:Hc.
  - rewrite (Print_without_context printer fileName title ticket e Hc). discriminate.
  - rewrite (Print_with_context printer fileName title ticket c Hc). cbn [fst snd].
    intros [= Hid].
    destruct (Print_job_outline printer ticket c) as [k [_ [_ Hres]]].
    rewrite Hid in Hres. destruct Hres as [_ [-> [ji1 [Hjob Hcmd]]]].
    exists c, ji1. repeat (split; [reflexivity || assumption|]).
    rewrite !jobCommands_app, Hnew, Hcmd, (setup_commands_nothing _ (free_setup N c)).
    cbn. rewrite app_nil_r. reflexivity.
Qed.

(** X17: whatever happens, [Print] sends the spooler at most one job
    command, and no other command than retain. *)
Theorem Print_only_retains (printer : Printer) (fileName title : string) (ticket : JobTicket) :
  jobCommands (fst (Print N (Some printer) fileName title (Some ticket))) = []
  \/ exists ok,
       jobCommands (fst (Print N (Some printer) fileName title (Some ticket)))
       = [(JOB_CONTROL_RETAIN, ok)].
Proof.
  pose proof (setup_commands_nothing _ (newJobContext_setup N (Name printer) fileName title))
    as Hnew.
  destruct (snd (newJobContext N (Name printer) fileName title)) as [e | c] eqn:Hc.
  - rewrite (Print_without_context printer fileName title ticket e Hc). cbn [fst].
    rewrite !jobCommands_app, Hnew. left. reflexivity.
  - rewrite (Print_with_context printer fileName title ticket c Hc). cbn [fst].
    rewrite !jobCommands_app, Hnew, (setup_commands_nothing _ (free_setup N c)).
    cbn [app]. rewrite app_nil_r.
    destruct (Print_job_outline printer ticket c) as [k [_ [_ Hres]]].
    destruct (snd (Print_job N printer ticket c)) as [e | id].
    + destruct Hres as [-> | ->]; [left; reflexivity | right; exists false; reflexivity].
    + destruct Hres as [_ [_ [ji1 [_ ->]]]].
      destruct (Z.land (ji1_status ji1) JOB_STATUS_PAUSED =? 0);
        [right; exists true; reflexivity | left; reflexivity].
Qed.

End PrintFacts.

(** A one-page document on the sample device: job 7 is returned and
    retained. *)
Lemma Print_success_retains_witness :
  exists c ji1,
    snd (newJobContext okNative (Name officePrinter) "doc.pdf" "title") = inr c
    /\ 7 = Go.uint32 (jobID c)
    /\ GetJob okNative (hPrinter c) (jobID c) = inr ji1
    /\ jobCommands (fst (Print (W32 := winsdk) okNative (Some officePrinter) "doc.pdf" "title"
                           (Some busyTicket)))
       = if Z.land (ji1_status ji1) (JOB_STATUS_PAUSED (Win32 := winsdk)) =? 0
         then [(JOB_CONTROL_RETAIN (Win32 := winsdk), true)] else [].
Proof.
  apply (Print_success_retains (W32 := winsdk) okNative officePrinter "doc.pdf" "title"
           busyTicket 7).
  vm_compute. reflexivity.
Defined.

(** ** ReleaseJob *)

Section ReleaseJobFacts.
Context {W32 : Win32} (N : Native).

(** X18: [ReleaseJob] sends the release command only for a job whose
    status has the retained bit.  For a job that is not retained it
    sends nothing and returns no error; for a retained job it sends one
    release command and returns what the command returned. *)
Theorem ReleaseJob_only_when_retained (printerName : string) (jobID : Z)
  (hPrinter : HANDLE) (ji1 : JobInfo1) :
  OpenPrinter N printerName = inr hPrinter ->
  GetJob N hPrinter (Go.int32 jobID) = inr ji1 ->
  (flagged (ji1_status ji1) JOB_STATUS_RETAINED = false ->
   ReleaseJob N printerName jobID = ([Ev COpenPrinter true; Ev CGetJob true], inr tt))
  /\ (flagged (ji1_status ji1) JOB_STATUS_RETAINED = true ->
      jobCommands (fst (ReleaseJob N printerName jobID))
      = [(JOB_CONTROL_RELEASE,
          match SetJobCommand N hPrinter (Go.int32 jobID) JOB_CONTROL_RELEASE with
          | None => true
          | Some _ => false
          end)]
      /\ snd (ReleaseJob N printerName jobID)
         = match SetJobCommand N hPrinter (Go.int32 jobID) JOB_CONTROL_RELEASE with
           | None => inr tt
           | Some err => inl err
           end).
Proof.
  intros Hopen Hjob. unfold ReleaseJob, flagged. rewrite Hopen. cbn [call bindT].
  rewrite Hjob. cbn [call bindT].
  destruct (Z.land (ji1_status ji1) JOB_STATUS_RETAINED =? 0); cbn [negb].
  - split; [reflexivity | discriminate].
  - split; [discriminate|]. intros _.
    destruct (SetJobCommand N hPrinter (Go.int32 jobID) JOB_CONTROL_RELEASE);
      split; reflexivity.
Qed.

(** A lookup that fails is the error of [ReleaseJob], and no command is
    sent. *)
Lemma ReleaseJob_lookup_failure (printerName : string) (jobID : Z) (hPrinter : HANDLE)
  (err : error) :
  OpenPrinter N printerName = inr hPrinter ->
  GetJob N hPrinter (Go.int32 jobID) = inl err ->
  ReleaseJob N printerName jobID = ([Ev COpenPrinter true; Ev CGetJob false], inl err).
Proof.
  intros Hopen Hjob. unfold ReleaseJob. rewrite Hopen. cbn [call bindT].
  rewrite Hjob. reflexivity.
Qed.

End ReleaseJobFacts.

(** Job 7 of the sample device is queued, not retained: nothing is
    sent. *)
Lemma ReleaseJob_only_when_retained_witness :
  (flagged (ji1_status queuedJob) (JOB_STATUS_RETAINED (Win32 := winsdk)) = false ->
   ReleaseJob (W32 := winsdk) okNative "Office" 7
   = ([Ev COpenPrinter true; Ev CGetJob true], inr tt))
  /\ (flagged (ji1_status queuedJob) (JOB_STATUS_RETAINED (Win32 := winsdk)) = true ->
      jobCommands (fst (ReleaseJob (W32 := winsdk) okNative "Office" 7))
      = [(JOB_CONTROL_RELEASE (Win32 := winsdk),
          match SetJobCommand okNative 2 (Go.int32 7) (JOB_CONTROL_RELEASE (Win32 := winsdk)) with
          | None => true
          | Some _ => false
          end)]
      /\ snd (ReleaseJob (W32 := winsdk) okNative "Office" 7)
         = match SetJobCommand okNative 2 (Go.int32 7)
                   (JOB_CONTROL_RELEASE (Win32 := winsdk)) with
           | None => inr tt
           | Some err => inl err
           end).
Proof.
  apply (ReleaseJob_only_when_retained (W32 := winsdk) okNative "Office" 7 2 queuedJob);
    reflexivity.
Defined.

(** ** ConcurrentPrinterMap *)

Lemma mapGet_mapSet_same (m : PrinterMap) (key : string) (value : Printer) :
  mapGet (mapSet m key value) key = Some value.
Proof.
  induction m as [| [k v] rest IH]; cbn.
  - rewrite String.eqb_refl. reflexivity.
  - destruct (String.eqb k key) eqn:Hk; cbn.
    + rewrite String.eqb_refl. reflexivity.
    + rewrite Hk. exact IH.
Qed.

Lemma mapGet_mapSet_other (m : PrinterMap) (key other : string) (value : Printer) :
  key <> other -> mapGet (mapSet m key value) other = mapGet m other.
Proof.
  intros Hne. induction m as [| [k v] rest IH]; cbn.
  - destruct (String.eqb_spec key other); [contradiction | reflexivity].
  - destruct (String.eqb_spec k key) as [-> | Hk]; cbn.
    + destruct (String.eqb_spec key other); [contradiction | reflexivity].
    + destruct (String.eqb_spec k other); [reflexivity | exact IH].
Qed.

Lemma find_last {A : Type} (f : A -> bool) (l : list A) (x : A) :
  find f (l ++ [x])
  = match find f l with
    | Some y => Some y
    | None => if f x then Some x else None
    end.
Proof.
  induction l as [| y rest IH]; cbn; [reflexivity|].
  destruct (f y); [reflexivity | exact IH].
Qed.

(** A lookup in the map [Refresh] builds: the last printer of the list
    with that name, or what the map held before the list was written. *)
Lemma mapGet_fold (printers : list Printer) (name : string) :
  forall m,
    mapGet (fold_left (fun c printer => mapSet c (Name printer) printer) printers m) name
    = match lastNamed name printers with
      | Some p => Some p
      | None => mapGet m name
      end.
Proof.
  unfold lastNamed.
  induction printers as [| p rest IH]; intros m; cbn [fold_left rev]; [reflexivity|].
  rewrite IH, find_last.
  destruct (find (fun q => String.eqb (Name q) name) (rev rest)); [reflexivity|].
  destruct (String.eqb_spec (Name p) name) as [<- | Hne].
  - apply mapGet_mapSet_same.
  - apply mapGet_mapSet_other. exact Hne.
Qed.

(** X19: after a refresh, a lookup by name finds the last printer of
    the new list with that name and nothing else: a name that is not in
    the new list is not found, whatever the registry held before. *)
Theorem GetByNativeName_Refresh (cpm : ConcurrentPrinterMap) (newPrinters : list Printer)
  (name : string) :
  GetByNativeName (Refresh cpm newPrinters) name = lastNamed name newPrinters.
Proof.
  unfold GetByNativeName, Refresh. cbn [byNativeName].
  rewrite mapGet_fold. cbn [mapGet].
  destruct (lastNamed name newPrinters); reflexivity.
Qed.

(** X20: a lookup by cloud-print id never finds a printer: no
    operation of the registry writes the map by id, so it stays empty
    through any number of refreshes. *)
Theorem GetByGCPID_never_found (printers : list Printer) (refreshes : list (list Printer))
  (gcpID : string) :
  GetByGCPID (fold_left Refresh refreshes (NewConcurrentPrinterMap printers)) gcpID = None.
Proof.
  assert (Hkeep : forall cpm, byGCPID cpm = [] -> byGCPID (fold_left Refresh refreshes cpm) = []).
  { induction refreshes as [| r rest IH]; intros cpm H; cbn [fold_left]; [exact H|].
    apply IH. exact H. }
  unfold GetByGCPID. rewrite (Hkeep (NewConcurrentPrinterMap printers) eq_refl). reflexivity.
Qed.

Lemma mapSet_keys (m : PrinterMap) (key : string) (value : Printer) :
  forall k, In k (map fst (mapSet m key value)) <-> k = key \/ In k (map fst m).
Proof.
  induction m as [| [k0 v0] rest IH]; intros k; cbn.
  - intuition.
  - destruct (String.eqb_spec k0 key) as [-> | Hne]; cbn.
    + intuition.
    + rewrite IH. intuition.
Qed.

Lemma mapSet_unique (m : PrinterMap) (key : string) (value : Printer) :
  uniqueKeys m -> uniqueKeys (mapSet m key value).
Proof.
  unfold uniqueKeys. induction m as [| [k0 v0] rest IH]; cbn; intros Hm.
  - repeat constructor. intros [].
  - inversion Hm as [| k l Hnotin Hrest]; subst.
    destruct (String.eqb_spec k0 key) as [-> | Hne]; cbn.
    + constructor; assumption.
    + constructor; [|apply IH; assumption].
      rewrite mapSet_keys. intros [-> | Hin]; [apply Hne; reflexivity | contradiction].
Qed.

Lemma fold_unique (printers : list Printer) :
  forall m, uniqueKeys m ->
    uniqueKeys (fold_left (fun c printer => mapSet c (Name printer) printer) printers m).
Proof.
  induction printers as [| p rest IH]; intros m Hm; cbn [fold_left]; [exact Hm|].
  apply IH, mapSet_unique, Hm.
Qed.

Lemma mapSet_named (m : PrinterMap) (key : string) (value : Printer) :
  key = Name value ->
  Forall (fun kv => fst kv = Name (snd kv)) m ->
  Forall (fun kv => fst kv = Name (snd kv)) (mapSet m key value).
Proof.
  intros Hkey. induction m as [| [k0 v0] rest IH]; cbn; intros Hm.
  - repeat constructor. exact Hkey.
  - pose proof (Forall_inv Hm) as Hkv. pose proof (Forall_inv_tail Hm) as Hrest.
    destruct (String.eqb k0 key); constructor; auto.
Qed.

Lemma fold_named (printers : list Printer) :
  forall m, Forall (fun kv => fst kv = Name (snd kv)) m ->
    Forall (fun kv => fst kv = Name (snd kv))
      (fold_left (fun c printer => mapSet c (Name printer) printer) printers m).
Proof.
  induction printers as [| p rest IH]; intros m Hm; cbn [fold_left]; [exact Hm|].
  apply IH, mapSet_named; [reflexivity | exact Hm].
Qed.

Lemma mapGet_In (m : PrinterMap) (key : string) (value : Printer) :
  uniqueKeys m -> (mapGet m key = Some value <-> In (key, value) m).
Proof.
  unfold uniqueKeys. induction m as [| [k0 v0] rest IH]; cbn; intros Hm.
  - split; [discriminate | intros []].
  - inversion Hm as [| k l Hnotin Hrest]; subst.
    destruct (String.eqb_spec k0 key) as [-> | Hne].
    + split.
      * intros [= <-]. left. reflexivity.
      * intros [[= <-] | Hin]; [reflexivity|].
        exfalso. apply Hnotin. apply (in_map fst) in Hin. exact Hin.
    + rewrite (IH Hrest). split; [auto|].
      intros [[= Hk _] | Hin]; [contradiction | exact Hin].
Qed.

(** X21: after a refresh, [GetAll] returns one printer for each name
    of the new list and no more: no two returned printers have the same
    name, and a printer is returned exactly when it is the last printer
    of the new list with its name. *)
Theorem GetAll_Refresh (cpm : ConcurrentPrinterMap) (newPrinters : list Printer) :
  NoDup (map Name (GetAll (Refresh cpm newPrinters)))
  /\ forall p, In p (GetAll (Refresh cpm newPrinters))
               <-> lastNamed (Name p) newPrinters = Some p.
Proof.
  unfold GetAll, Refresh. cbn [byNativeName].
  set (m := fold_left (fun c printer => mapSet c (Name printer) printer) newPrinters []).
  assert (Hunique : uniqueKeys m) by (apply fold_unique; constructor).
  assert (Hnamed : Forall (fun kv => fst kv = Name (snd kv)) m) by (apply fold_named; constructor).
  assert (Hnames : map Name (map snd m) = map fst m).
  { clear Hunique. induction Hnamed as [| [k v] rest Hkv _ IH]; cbn; [reflexivity|].
    cbn in Hkv. rewrite IH, Hkv. reflexivity. }
  split; [rewrite Hnames; exact Hunique|].
  intros p.
  assert (Hget : mapGet m (Name p) = lastNamed (Name p) newPrinters).
  { unfold m. rewrite mapGet_fold. cbn [mapGet].
    destruct (lastNamed (Name p) newPrinters); reflexivity. }
  rewrite <- Hget, (mapGet_In m (Name p) p Hunique). split.
  - intros Hin. apply in_map_iff in Hin. destruct Hin as [[k v] [Hv Hin]]. cbn in Hv. subst v.
    rewrite Forall_forall in Hnamed. specialize (Hnamed _ Hin). cbn in Hnamed. subst k.
    exact Hin.
  - intros Hin. apply (in_map snd) in Hin. exact Hin.
Qed.

(** ** The ticket blocks as writes

    Each ticket block either leaves the device settings alone or writes
    values that depend on the ticket and the description only, not on
    the settings it is given. *)

Section TicketWrites.
Context {W32 : Win32}.

Lemma Print_color_writes (ticket : JobTicket) (description : PrinterDescriptionSection) :
  (exists err, forall d, Print_color ticket description d = (d, Some err))
  \/ (forall d, Print_color ticket description d = (d, None))
  \/ (exists v, forall d, Print_color ticket description d = (withColor (Some v) d, None)).
Proof.
  unfold Print_color.
  destruct (jt_Color ticket) as [tColor|]; [|right; left; reflexivity].
  destruct (pds_Color description); [|right; left; reflexivity].
  destruct (colorValueByType (cti_Type tColor)) as [color|].
  - right; right. exists color. reflexivity.
  - destruct (String.eqb (cti_VendorID tColor) ""); cbn [negb].
    + right; left. reflexivity.
    + destruct (Go.ParseInt (cti_VendorID tColor) 16) as [v|].
      * right; right. exists (Go.int16 v). reflexivity.
      * left. eexists. reflexivity.
Qed.

Lemma Print_duplex_writes (ticket : JobTicket) (description : PrinterDescriptionSection) :
  (forall d, Print_duplex ticket description d = d)
  \/ (exists v, forall d, Print_duplex ticket description d = withDuplex (Some v) d).
Proof.
  unfold Print_duplex.
  destruct (jt_Duplex ticket) as [tDuplex|]; [|left; reflexivity].
  destruct (pds_Duplex description); [|left; reflexivity].
  destruct (duplexValueByType (dti_Type tDuplex)) as [v|]; [|left; reflexivity].
  right. exists v. reflexivity.
Qed.

Lemma Print_orientation_writes (ticket : JobTicket) (description : PrinterDescriptionSection) :
  (forall d, Print_orientation ticket description d = d)
  \/ (exists v, forall d, Print_orientation ticket description d = withOrientation (Some v) d).
Proof.
  unfold Print_orientation.
  destruct (jt_PageOrientation ticket) as [tOrientation|]; [|left; reflexivity].
  destruct (pds_PageOrientation description); [|left; reflexivity].
  destruct (pageOrientationByType (poti_Type tOrientation)) as [v|]; [|left; reflexivity].
  right. exists v. reflexivity.
Qed.

Lemma Print_copies_writes (ticket : JobTicket) (description : PrinterDescriptionSection) :
  (forall d, Print_copies ticket description d = d)
  \/ (exists v, forall d, Print_copies ticket description d = withCopies (Some v) d).
Proof.
  unfold Print_copies.
  destruct (jt_Copies ticket) as [tCopies|]; [|left; reflexivity].
  destruct (pds_Copies description); [|left; reflexivity].
  destruct (0 <? cpti_Copies tCopies); [|left; reflexivity].
  right. eexists. reflexivity.
Qed.

Lemma Print_mediaSize_writes (ticket : JobTicket) (description : PrinterDescriptionSection) :
  (exists err, forall d, Print_mediaSize ticket description d = (d, Some err))
  \/ (forall d, Print_mediaSize ticket description d = (d, None))
  \/ (exists s l w, forall d,
         Print_mediaSize ticket description d
         = (withPaperWidth w (withPaperLength l (withPaperSize s d)), None)).
Proof.
  unfold Print_mediaSize.
  destruct (jt_MediaSize ticket) as [tMedia|]; [|right; left; reflexivity].
  destruct (pds_MediaSize description); [|right; left; reflexivity].
  destruct (String.eqb (msti_VendorID tMedia) ""); cbn [negb].
  - right; right. do 3 eexists. reflexivity.
  - destruct (Go.ParseInt (msti_VendorID tMedia) 16) as [v|].
    + right; right. do 3 eexists. reflexivity.
    + left. eexists. reflexivity.
Qed.

Lemma Print_collate_writes (ticket : JobTicket) (description : PrinterDescriptionSection) :
  (forall d, Print_collate ticket description d = d)
  \/ (exists v, forall d, Print_collate ticket description d = withCollate (Some v) d).
Proof.
  unfold Print_collate.
  destruct (jt_Collate ticket) as [tCollate|]; [|left; reflexivity].
  destruct (pds_Collate description); [|left; reflexivity].
  destruct (clti_Collate tCollate); right; eexists; reflexivity.
Qed.

Ltac ticket_writes ticket description :=
  destruct (Print_color_writes ticket description) as [[? Hcolor] | [Hcolor | [? Hcolor]]];
  destruct (Print_duplex_writes ticket description) as [Hduplex | [? Hduplex]];
  destruct (Print_orientation_writes ticket description) as [Horientation | [? Horientation]];
  destruct (Print_mediaSize_writes ticket description)
    as [[? Hmedia] | [Hmedia | [? [? [? Hmedia]]]]];
  destruct (Print_collate_writes ticket description) as [Hcollate | [? Hcollate]];
  unfold Print_ticket;
  repeat (first [rewrite Hcolor | rewrite Hduplex | rewrite Horientation | rewrite Hmedia
                | rewrite Hcollate]; cbv iota beta zeta; cbn [fst snd]).

(** X22: applying a ticket is idempotent: the device settings a
    ticket leaves behind are not changed by applying the same ticket
    again, and the second application ends as the first did (same
    error or same fit-to-page flag). *)
Theorem Print_ticket_idempotent (ticket : JobTicket) (description : PrinterDescriptionSection)
  (d : DevMode) :
  Print_ticket ticket description (fst (Print_ticket ticket description d))
  = Print_ticket ticket description d.
Proof.
  destruct (Print_copies_writes ticket description) as [Hcopies | [? Hcopies]];
    ticket_writes ticket description;
    repeat (rewrite Hcopies; cbv iota beta zeta; cbn [fst snd]);
    destruct d; reflexivity.
Qed.

(** X23: when the ticket asks for copies, the printer advertises
    copies and no vendor id of the ticket is malformed, the copy count
    of the job is the ticket's count cut to 16 bits when that count is
    positive, and the device's own count otherwise: the count is not
    compared with the maximum the printer advertises. *)
Theorem Print_ticket_copies (ticket : JobTicket) (description : PrinterDescriptionSection)
  (d : DevMode) (tCopies : CopiesTicketItem) (copies : Copies) (fitToPage : bool) :
  jt_Copies ticket = Some tCopies ->
  pds_Copies description = Some copies ->
  snd (Print_ticket ticket description d) = inr fitToPage ->
  GetCopies (fst (Print_ticket ticket description d))
  = if 0 <? cpti_Copies tCopies then Some (Go.int16 (cpti_Copies tCopies)) else GetCopies d.
Proof.
  intros Hticket Hdesc.
  assert (Hcopies : forall d', Print_copies ticket description d'
                               = if 0 <? cpti_Copies tCopies
                                 then SetCopies (Go.int16 (cpti_Copies tCopies)) d' else d').
  { intros d'. unfold Print_copies. rewrite Hticket, Hdesc. reflexivity. }
  ticket_writes ticket description;
    repeat (rewrite Hcopies; cbv iota beta zeta; cbn [fst snd]);
    try discriminate; intros _;
    destruct (0 <? cpti_Copies tCopies); destruct d; reflexivity.
Qed.

End TicketWrites.

(** The sample ticket asks for three copies of a printer that
    advertises copies. *)
Lemma Print_ticket_copies_witness :
  GetCopies (fst (Print_ticket (W32 := winsdk) busyTicket fullDescription monochromeDevMode))
  = if 0 <? cpti_Copies {| cpti_Copies := 3 |}
    then Some (Go.int16 (cpti_Copies {| cpti_Copies := 3 |}))
    else GetCopies monochromeDevMode.
Proof.
  apply (Print_ticket_copies (W32 := winsdk) busyTicket fullDescription monochromeDevMode
           {| cpti_Copies := 3 |} {| copies_Default := 1; copies_Max := 99 |} false);
    reflexivity.
Defined.
